(** * sf-backtester: SLURM array-job orchestration

    A shallow embedding of the orchestration core of [sf_backtester]
    ([config.py], [cli.py], [slurm.py], [runner.py]) and of the constraint
    registry, the date window and the output path of the bundled worker
    ([scripts/mvo_worker.py]), with the properties its specification states
    about them and further properties of the code.

    Conventions.
    - Python [int] is [Z]; Python [float] is an IEEE 754 value, [spec_float];
      [str] is [string]; [list] is [list]; [None]-able values are [option].
    - Code that raises returns [Err e]; code with side effects runs in the
      state-and-exception monad [M] over a [World] (files, directories,
      standard output, the subprocess calls made so far).
    - Whatever lives outside the repository (the formatting of a float, the
      name [tempfile] picks, what the [sbatch] binary answers, where the
      worker script is installed) is a field of the class [Env]: every
      statement holds for every environment. *)

From Stdlib Require Import ZArith String Ascii List Floats.SpecFloat.
From stdpp Require Import base option list sorting gmap strings pretty.

Local Open Scope Z_scope.
Local Open Scope string_scope.
Local Open Scope list_scope.

#[local] Set Warnings "-register-all".

(** ** Python runtime values *)

Module Py.

(** The exceptions the modelled code can raise.  [CalledProcessError]
    carries what [subprocess] stores in it: the exit status, the command,
    the captured standard output and standard error. *)
Inductive exn : Type :=
| TypeError (msg : string)
| IndexError (msg : string)
| KeyError (msg : string)
| OSError (msg : string)
| FileNotFoundError (path : string)
| FileExistsError (path : string)
| NotADirectoryError (path : string)
| ColumnNotFoundError (column : string)
| SchemaError (msg : string)
| CalledProcessError (returncode : Z) (cmd : list string)
                     (output stderr : string)
| Untyped (field : string).

(** [Untyped f] is not a Python exception: it marks a document whose
    value for [f] does not have the annotated type.  The dataclass would
    store such a value unchecked; the typed records below cannot. *)

Inductive result (A : Type) : Type :=
| Ok (a : A)
| Err (e : exn).
#[global] Arguments Ok {A} a.
#[global] Arguments Err {A} e.

#[global] Instance result_ret : MRet result := @Ok.
#[global] Instance result_bind : MBind result := λ A B f r,
  match r with Ok a => f a | Err e => Err e end.

(** A Python [float]: zero, infinity, NaN or a finite binary value. *)
Definition float : Type := spec_float.

(** [str(n)] for an [int]. *)
Definition str_int (n : Z) : string := pretty n.

(** [str(x)], which is what an f-string inserts and what [str.join] is
    given: the numeral of an [int], and [None] for [None]. *)
Class Str (A : Type) : Type := str : A → string.
#[global] Hint Mode Str ! : typeclass_instances.

#[global] Instance int_Str : Str Z := str_int.

#[global] Instance optional_Str {A} `{Str A} : Str (option A) := λ x,
  match x with
  | Some a => str a
  | None => "None"
  end.

(** The line break and the double quote, as strings of one character. *)
Definition nl : string := String "010"%char EmptyString.
Definition dq : string := String "034"%char EmptyString.

(** [s * n] *)
Fixpoint str_mul (s : string) (n : nat) : string :=
  match n with
  | O => EmptyString
  | S n' => s +:+ str_mul s n'
  end.

(** [l[i]], with Python's negative indices. *)
Definition index {A} (l : list A) (i : Z) : result A :=
  let j := if (i <? 0)%Z then (Z.of_nat (length l) + i)%Z else i in
  match (if (j <? 0)%Z then None else l !! Z.to_nat j) with
  | Some x => Ok x
  | None => Err (IndexError "list index out of range")
  end.

(** [sep.join(parts)]. *)
Definition join (sep : string) (parts : list string) : string :=
  String.concat sep parts.

(** [f"{x}"] for a value of type [str | None]. *)
Definition format_opt (x : option string) : string :=
  match x with Some s => s | None => "None" end.

(** YAML documents as PyYAML's [safe_load] builds them. *)
Inductive yaml : Type :=
| YNull
| YBool (b : bool)
| YInt (n : Z)
| YFloat (x : float)
| YStr (s : string)
| YSeq (items : list yaml)
| YMap (entries : list (string * yaml)).

(** [d[k]] on the entries of a mapping (keys are unique in a [dict]). *)
Fixpoint dict_get (k : string) (d : list (string * yaml)) : option yaml :=
  match d with
  | [] => None
  | (k', v) :: d' => if String.eqb k k' then Some v else dict_get k d'
  end.

(** The first key of [d] that is not a parameter name in [params]. *)
Definition unexpected_key (params : list string) (d : list (string * yaml))
  : option string :=
  fst <$> List.find (λ kv, negb (existsb (String.eqb (fst kv)) params)) d.

End Py.
Import Py.

(** ** What the environment provides *)

(** A polars data frame, as far as the runner looks at it: named columns,
    of which only a date column has a year.  A column of dates can hold
    nulls: a row of it is a date or [None]. *)
Record date := Date { year : Z; month : Z; day : Z }.

Inductive Series : Type :=
| DateSeries (values : list (option date))
| IntSeries (values : list Z)
| StrSeries (values : list string).

Definition DataFrame : Type := list (string * Series).

(** What a file holds.  PyYAML and parquet are external and taken as
    lossless: a file written by [yaml.dump] holds the document, a file
    written by [write_parquet] holds the frame. *)
Inductive content : Type :=
| Text (s : string)
| YamlDoc (d : yaml)
| Parquet (df : DataFrame).

(** How a spawned command ends: it ran and exited, or it could not be
    started at all ([FileNotFoundError], [PermissionError]). *)
Inductive spawned : Type :=
| Exited (returncode : Z) (out err : string)
| SpawnFailed (e : exn).

Class Env : Type := {
  (** [repr(x)] of a float, which is what an f-string inserts *)
  float_repr : float → string;
  (** [str(xs)] of a list of strings *)
  list_repr : list string → string;
  (** the name [tempfile.NamedTemporaryFile] picks, given what exists; the
      file is created exclusively, so the name is not taken *)
  temp_name : gmap string content → gset string → string;
  temp_name_fresh : ∀ fs ds,
    fs !! temp_name fs ds = None ∧ temp_name fs ds ∉ ds;
  (** what running a command does to the files, and how it ends *)
  spawn : list string → gmap string content → spawned * gmap string content;
  (** where [importlib.resources] finds the bundled worker script *)
  worker_script : string;
}.

(** ** The world and the monad of effects *)

Record World : Type := mkWorld {
  files : gmap string content;   (* regular files, by path *)
  dirs : gset string;            (* directories created so far *)
  stdout : list string;          (* one entry per [print] call *)
  calls : list (list string);    (* argv of each [subprocess.run], in order *)
  lookups : nat;                 (* package-resource resolutions made *)
}.

(** Between [w] and [w'] nothing was printed, no command was run and no
    package resource was resolved. *)
Definition quiet (w w' : World) : Prop :=
  stdout w' = stdout w ∧ calls w' = calls w ∧ lookups w' = lookups w.

Definition M (A : Type) : Type := World → result A * World.

#[global] Instance M_ret : MRet M := λ A a w, (Ok a, w).
#[global] Instance M_bind : MBind M := λ A B f m w,
  match m w with
  | (Ok a, w') => f a w'
  | (Err e, w') => (Err e, w')
  end.

Definition raise {A} (e : exn) : M A := λ w, (Err e, w).

Definition lift {A} (r : result A) : M A := λ w, (r, w).

Definition get_files : M (gmap string content) := λ w, (Ok (files w), w).

Definition set_files (fs : gmap string content) : M unit := λ w,
  (Ok tt, mkWorld fs (dirs w) (stdout w) (calls w) (lookups w)).

(** [try: body finally: cleanup].  The cleanup runs in the world the body
    left, whether the body returned or raised; the body's outcome is kept
    unless the cleanup itself raises. *)
Definition try_finally {A} (body : M A) (cleanup : M unit) : M A := λ w,
  match body w with
  | (r, w1) =>
      match cleanup w1 with
      | (Ok _, w2) => (r, w2)
      | (Err e, w2) => (Err e, w2)
      end
  end.

(** [print(s)] *)
Definition print (s : string) : M unit := λ w,
  (Ok tt, mkWorld (files w) (dirs w) (stdout w ++ [s]) (calls w) (lookups w)).

(** Paths.  A file or a directory is known by the text of its path; the
    root and the working directory are always there and are not kept in
    [dirs]. *)
Definition is_slash (c : ascii) : bool := Ascii.eqb c "/".

(** The texts that name [seen ++ rest] and the directories above it, the
    nearest to the root first: [seen ++ rest] cut before every slash that
    follows a character other than a slash, then [seen ++ rest] itself. *)
Fixpoint lineage_from (seen : string) (after_slash : bool) (rest : string)
  : list string :=
  match rest with
  | EmptyString => [seen]
  | String c rest' =>
      (if is_slash c && negb after_slash then [seen] else [])
      ++ lineage_from (seen +:+ String c EmptyString) (is_slash c) rest'
  end.

Definition lineage (path : string) : list string :=
  lineage_from EmptyString true path.

(** The components of a path as [pathlib] keeps them: the pieces between
    slashes, without the empty ones and the single dots. *)
Fixpoint pieces (piece : string) (rest : string) : list string :=
  match rest with
  | EmptyString => [piece]
  | String c rest' =>
      if is_slash c then piece :: pieces EmptyString rest'
      else pieces (piece +:+ String c EmptyString) rest'
  end.

Definition parts (path : string) : list string :=
  List.filter
    (λ p, negb (String.eqb p "") && negb (String.eqb p "."))
    (pieces EmptyString path).

(** The root that [pathlib] keeps: two leading slashes stay two, one or
    three and more are one. *)
Definition anchor (path : string) : string :=
  match path with
  | String a (String b (String c _)) =>
      if is_slash a && is_slash b && negb (is_slash c) then "//"
      else if is_slash a then "/" else ""
  | String a (String b EmptyString) =>
      if is_slash a && is_slash b then "//"
      else if is_slash a then "/" else ""
  | String a EmptyString => if is_slash a then "/" else ""
  | EmptyString => ""
  end.

(** [str(Path(path) / name)], for a [name] of one component. *)
Definition Path_joinpath (path name : string) : string :=
  anchor path +:+ String.concat "/" (parts path ++ [name]).

(** The first text of [ps] that names a regular file, and whether it is the
    last text of [ps]. *)
Fixpoint blocked (fs : gmap string content) (ps : list string)
  : option (string * bool) :=
  match ps with
  | [] => None
  | p :: ps' =>
      match fs !! p with
      | Some _ => Some (p, match ps' with [] => true | _ => false end)
      | None => blocked fs ps'
      end
  end.

(** The text after [p] in [ps]. *)
Fixpoint next_after (p : string) (ps : list string) : string :=
  match ps with
  | q :: ((r :: _) as ps') => if String.eqb p q then r else next_after p ps'
  | _ => p
  end.

(** [os.makedirs(path, exist_ok=True)]: creates the directory and every
    directory above it that is not there.  A regular file at [path] makes
    it raise [FileExistsError]; a regular file above [path] makes the
    [mkdir] of the directory below that file raise [NotADirectoryError]. *)
Definition makedirs (path : string) : M unit := λ w,
  if String.eqb path "" then (Err (FileNotFoundError path), w)
  else
    match blocked (files w) (lineage path) with
    | Some (p, true) => (Err (FileExistsError p), w)
    | Some (p, false) =>
        (Err (NotADirectoryError (next_after p (lineage path))), w)
    | None =>
        (Ok tt, mkWorld (files w) (list_to_set (lineage path) ∪ dirs w)
                        (stdout w) (calls w) (lookups w))
    end.

(** [Path(path).mkdir(parents=True, exist_ok=True)]: the same directories;
    it tries the directory itself first, so with a regular file in the way
    the exception names [path]. *)
Definition Path_mkdir (path : string) : M unit := λ w,
  match blocked (files w) (lineage path) with
  | Some (_, true) => (Err (FileExistsError path), w)
  | Some (_, false) => (Err (NotADirectoryError path), w)
  | None =>
      (Ok tt, mkWorld (files w) (list_to_set (lineage path) ∪ dirs w)
                      (stdout w) (calls w) (lookups w))
  end.

(** [open(path, "w")] followed by a write of the whole content. *)
Definition write_file (path : string) (c : content) : M unit :=
  fs ← get_files; set_files (<[path := c]> fs).

(** [os.path.exists(path)] and [os.unlink(path)] *)
Definition path_exists (path : string) : M bool := λ w,
  (Ok (bool_decide (is_Some (files w !! path)) || bool_decide (path ∈ dirs w)), w).

Definition unlink (path : string) : M unit := λ w,
  match files w !! path with
  | Some _ => set_files (delete path (files w)) w
  | None => (Err (FileNotFoundError path), w)
  end.

(** [subprocess.run(argv, capture_output=True, text=True, check=True)]:
    the call is recorded, the command does to the files what the
    environment says, and a non-zero exit status raises
    [CalledProcessError] with the captured streams. *)
Record CompletedProcess : Type := mkCompleted {
  cp_args : list string;
  cp_returncode : Z;
  cp_stdout : string;
  cp_stderr : string;
}.

Definition subprocess_run `{Env} (argv : list string) : M CompletedProcess :=
  λ w,
  let w1 := mkWorld (files w) (dirs w) (stdout w) (calls w ++ [argv])
                    (lookups w) in
  match spawn argv (files w) with
  | (SpawnFailed e, _) => (Err e, w1)
  | (Exited rc out err, fs) =>
      let w2 := mkWorld fs (dirs w) (stdout w) (calls w ++ [argv])
                        (lookups w) in
      if (rc =? 0)%Z then (Ok (mkCompleted argv rc out err), w2)
      else (Err (CalledProcessError rc argv out err), w2)
  end.

(** ** [config.py] *)

Module Config.

(** [SlurmConfig]: SLURM job configuration. *)
Record SlurmConfig : Type := mkSlurmConfig {
  n_cpus : Z;
  mem : string;
  time : string;
  mail_type : string;
  max_concurrent_jobs : Z;
}.

(** [BacktestConfig]: configuration for a backtest run. *)
Record BacktestConfig : Type := mkBacktestConfig {
  signal_name : string;
  data_path : string;
  gamma : float;
  project_root : string;
  byu_email : string;
  constraints : list string;
  slurm : SlurmConfig;
  output_dir : option string;
  logs_dir : option string;
}.

(** A configuration as the constructor leaves it: [__post_init__] has
    filled in both derived paths. *)
Definition constructed (cfg : BacktestConfig) : Prop :=
  is_Some (output_dir cfg) ∧ is_Some (logs_dir cfg).

(** What the constructor accepts for [slurm]: a [SlurmConfig], or the
    [dict] that [__post_init__] converts. *)
Inductive slurm_arg : Type :=
| SlurmObj (s : SlurmConfig)
| SlurmDict (d : list (string * yaml)).

(** Reading a document value at its annotated type. *)
Definition as_str (f : string) (v : yaml) : result string :=
  match v with YStr s => Ok s | _ => Err (Untyped f) end.

Definition as_int (f : string) (v : yaml) : result Z :=
  match v with YInt n => Ok n | _ => Err (Untyped f) end.

Definition as_float (f : string) (v : yaml) : result float :=
  match v with YFloat x => Ok x | _ => Err (Untyped f) end.

Definition as_opt_str (f : string) (v : yaml) : result (option string) :=
  match v with
  | YNull => Ok None
  | YStr s => Ok (Some s)
  | _ => Err (Untyped f)
  end.

Fixpoint as_strs (f : string) (vs : list yaml) : result (list string) :=
  match vs with
  | [] => Ok []
  | v :: vs' => s ← as_str f v; ss ← as_strs f vs'; Ok (s :: ss)
  end.

Definition as_str_list (f : string) (v : yaml) : result (list string) :=
  match v with YSeq vs => as_strs f vs | _ => Err (Untyped f) end.

(** A keyword argument with a default value. *)
Definition kwarg {A} (conv : string → yaml → result A) (k : string)
    (default : A) (d : list (string * yaml)) : result A :=
  match dict_get k d with
  | Some v => conv k v
  | None => Ok default
  end.

(** The names of a [TypeError] about missing arguments: ['a'], ['a' and
    'b'], ['a', 'b', and 'c']. *)
Definition quoted (k : string) : string := "'" +:+ k +:+ "'".

Fixpoint listed (ks : list string) : string :=
  match ks with
  | [] => ""
  | [k] => "and " +:+ quoted k
  | k :: ks' => quoted k +:+ ", " +:+ listed ks'
  end.

Definition named (ks : list string) : string :=
  match ks with
  | [] => ""
  | [k] => quoted k
  | [k1; k2] => quoted k1 +:+ " and " +:+ quoted k2
  | _ => listed ks
  end.

Definition missing_message (cls : string) (ks : list string) : string :=
  cls +:+ ".__init__() missing " +:+ str_int (Z.of_nat (length ks))
  +:+ " required positional argument"
  +:+ (match ks with [_] => "" | _ => "s" end) +:+ ": " +:+ named ks.

(** The parameters without a default that [d] does not give, in the order
    of the signature; the call raises when there is one. *)
Definition missing_arguments (params : list string)
    (d : list (string * yaml)) : list string :=
  List.filter (λ k, negb (bool_decide (is_Some (dict_get k d)))) params.

Definition reject_missing (cls : string) (params : list string)
    (d : list (string * yaml)) : result unit :=
  match missing_arguments params d with
  | [] => Ok tt
  | ks => Err (TypeError (missing_message cls ks))
  end.

(** A required argument. *)
Definition required {A} (cls : string) (conv : string → yaml → result A)
    (k : string) (d : list (string * yaml)) : result A :=
  match dict_get k d with
  | Some v => conv k v
  | None => Err (TypeError (missing_message cls [k]))
  end.

Definition reject_unexpected (cls : string) (params : list string)
    (d : list (string * yaml)) : result unit :=
  match unexpected_key params d with
  | Some k =>
      Err (TypeError (cls +:+ ".__init__() got an unexpected keyword argument '"
                      +:+ k +:+ "'"))
  | None => Ok tt
  end.

(** [SlurmConfig] called with the keyword arguments [d], with the defaults
    of the dataclass. *)
Definition SlurmConfig_kwargs (d : list (string * yaml)) : result SlurmConfig :=
  _ ← reject_unexpected "SlurmConfig"
        ["n_cpus"; "mem"; "time"; "mail_type"; "max_concurrent_jobs"] d;
  n ← kwarg as_int "n_cpus" 8 d;
  m ← kwarg as_str "mem" "32G" d;
  t ← kwarg as_str "time" "06:00:00" d;
  mt ← kwarg as_str "mail_type" "BEGIN,END,FAIL" d;
  mc ← kwarg as_int "max_concurrent_jobs" 31 d;
  Ok (mkSlurmConfig n m t mt mc).

Section with_env.
Context `{Env}.

(** The generated [__init__] followed by [__post_init__]: the derived paths
    are set when not provided, then a [dict] for [slurm] is converted. *)
Definition BacktestConfig_init (signal_name data_path : string) (gamma : float)
    (project_root byu_email : string) (constraints : list string)
    (slurm : slurm_arg) (output_dir logs_dir : option string)
  : result BacktestConfig :=
  let output_dir :=
    match output_dir with
    | None =>
        Some (project_root +:+ "/weights/" +:+ signal_name +:+ "/"
              +:+ float_repr gamma)
    | Some d => Some d
    end in
  let logs_dir :=
    match logs_dir with
    | None => Some ("logs/" +:+ signal_name +:+ "/" +:+ float_repr gamma)
    | Some d => Some d
    end in
  slurm ← match slurm with
          | SlurmDict d => SlurmConfig_kwargs d
          | SlurmObj s => Ok s
          end;
  Ok (mkBacktestConfig signal_name data_path gamma project_root byu_email
        constraints slurm output_dir logs_dir).

(** [cls] called with the keyword arguments [data], as [from_yaml] does. *)
Definition BacktestConfig_kwargs (d : list (string * yaml))
  : result BacktestConfig :=
  _ ← reject_unexpected "BacktestConfig"
        ["signal_name"; "data_path"; "gamma"; "project_root"; "byu_email";
         "constraints"; "slurm"; "output_dir"; "logs_dir"] d;
  _ ← reject_missing "BacktestConfig"
        ["signal_name"; "data_path"; "gamma"; "project_root"; "byu_email";
         "constraints"; "slurm"] d;
  sn ← required "BacktestConfig" as_str "signal_name" d;
  dp ← required "BacktestConfig" as_str "data_path" d;
  g ← required "BacktestConfig" as_float "gamma" d;
  pr ← required "BacktestConfig" as_str "project_root" d;
  be ← required "BacktestConfig" as_str "byu_email" d;
  cs ← required "BacktestConfig" as_str_list "constraints" d;
  sl ← required "BacktestConfig"
         (λ f v, match v with
                 | YMap kv => Ok (SlurmDict kv)
                 | _ => Err (Untyped f)
                 end) "slurm" d;
  od ← kwarg as_opt_str "output_dir" None d;
  ld ← kwarg as_opt_str "logs_dir" None d;
  BacktestConfig_init sn dp g pr be cs sl od ld.

(** [yaml.safe_load] of an open file: a file written by [yaml.dump] holds
    its document. *)
Definition safe_load (path : string) : M yaml := λ w,
  match files w !! path with
  | Some (YamlDoc d) => (Ok d, w)
  | Some _ => (Err (OSError ("not a YAML document: " +:+ path)), w)
  | None => (Err (FileNotFoundError path), w)
  end.

(** [type(v).__name__] of a document. *)
Definition type_name (v : yaml) : string :=
  match v with
  | YNull => "NoneType"
  | YBool _ => "bool"
  | YInt _ => "int"
  | YFloat _ => "float"
  | YStr _ => "str"
  | YSeq _ => "list"
  | YMap _ => "dict"
  end.

(** [BacktestConfig.from_yaml] *)
Definition from_yaml (path : string) : M BacktestConfig :=
  data ← safe_load path;
  match data with
  | YMap d => lift (BacktestConfig_kwargs d)
  | _ =>
      raise (TypeError
               ("sf_backtester.config.BacktestConfig() argument after ** "
                +:+ "must be a mapping, not " +:+ type_name data))
  end.

(** [BacktestConfig.to_yaml] *)
Definition to_yaml (self : BacktestConfig) (path : string) : M unit :=
  let opt (x : option string) :=
    match x with Some s => YStr s | None => YNull end in
  let data := YMap [
    ("signal_name", YStr (signal_name self));
    ("data_path", YStr (data_path self));
    ("gamma", YFloat (gamma self));
    ("project_root", YStr (project_root self));
    ("byu_email", YStr (byu_email self));
    ("constraints", YSeq (YStr <$> constraints self));
    ("slurm", YMap [
       ("n_cpus", YInt (n_cpus (slurm self)));
       ("mem", YStr (mem (slurm self)));
       ("time", YStr (time (slurm self)));
       ("mail_type", YStr (mail_type (slurm self)));
       ("max_concurrent_jobs", YInt (max_concurrent_jobs (slurm self)))]);
    ("output_dir", opt (output_dir self));
    ("logs_dir", opt (logs_dir self))] in
  write_file path (YamlDoc data).

End with_env.

End Config.

(** ** [slurm.py] *)

Module Slurm.
Import Config.

(** The text of a script whose lines are [ls]: every line of the template,
    the last one included, ends in a newline. *)
Fixpoint unlines (ls : list string) : string :=
  match ls with
  | [] => EmptyString
  | l :: ls' => l +:+ nl +:+ unlines ls'
  end.

(** The lines of the template before the array directive. *)
Definition script_head (config : BacktestConfig) : string :=
  unlines [
    "#!/bin/bash";
    "#SBATCH --job-name=" +:+ signal_name config +:+ "_backtest";
    "#SBATCH --output=" +:+ format_opt (logs_dir config)
      +:+ "/backtest_%A_%a.out";
    "#SBATCH --error=" +:+ format_opt (logs_dir config)
      +:+ "/backtest_%A_%a.err"
  ].

(** The lines of the template from the array literal to the end of the
    guard, followed by [rest]. *)
Definition guarded {Y} `{Str Y} (years : list Y) (rest : list string)
  : list string :=
  ("years=(" +:+ join " " (str <$> years) +:+ ")")
  :: ""
  :: "num_years=${#years[@]}"
  :: ""
  :: "if [ $SLURM_ARRAY_TASK_ID -ge $num_years ]; then"
  :: ("    echo " +:+ dq
       +:+ "Task ID $SLURM_ARRAY_TASK_ID is out of range (max $((num_years-1)))."
       +:+ dq)
  :: "    exit 1"
  :: "fi"
  :: rest.

Section with_env.
Context `{Env}.

(** [get_worker_script_path]: resolves the bundled worker script through the
    package resources. *)
Definition get_worker_script_path : M string := λ w,
  (Ok worker_script,
   mkWorld (files w) (dirs w) (stdout w) (calls w) (S (lookups w))).

(** The f-string of [generate_sbatch_script], one entry per line of the
    template. *)
Definition sbatch_lines (config : BacktestConfig) (num_years : Z)
    (years_str constraints_str worker_script : string) : list string := [
  "#!/bin/bash";
  "#SBATCH --job-name=" +:+ signal_name config +:+ "_backtest";
  "#SBATCH --output=" +:+ format_opt (logs_dir config)
    +:+ "/backtest_%A_%a.out";
  "#SBATCH --error=" +:+ format_opt (logs_dir config)
    +:+ "/backtest_%A_%a.err";
  "#SBATCH --array=0-" +:+ str_int (num_years - 1) +:+ "%"
    +:+ str_int (max_concurrent_jobs (slurm config));
  "#SBATCH --cpus-per-task=" +:+ str_int (n_cpus (slurm config));
  "#SBATCH --mem=" +:+ mem (slurm config);
  "#SBATCH --time=" +:+ time (slurm config);
  "#SBATCH --mail-user=" +:+ byu_email config;
  "#SBATCH --mail-type=" +:+ mail_type (slurm config);
  "";
  "export RAY_ACCEL_ENV_VAR_OVERRIDE_ON_ZERO=0";
  "";
  "DATA_PATH=" +:+ dq +:+ data_path config +:+ dq;
  "OUTPUT_DIR=" +:+ dq +:+ format_opt (output_dir config) +:+ dq;
  "GAMMA=" +:+ dq +:+ float_repr (gamma config) +:+ dq;
  "N_CPUS=" +:+ dq +:+ str_int (n_cpus (slurm config)) +:+ dq;
  "CONSTRAINTS=" +:+ dq +:+ constraints_str +:+ dq;
  "";
  "# Years to process";
  "years=(" +:+ years_str +:+ ")";
  "";
  "num_years=${#years[@]}";
  "";
  "if [ $SLURM_ARRAY_TASK_ID -ge $num_years ]; then";
  "    echo " +:+ dq
    +:+ "Task ID $SLURM_ARRAY_TASK_ID is out of range (max $((num_years-1)))."
    +:+ dq;
  "    exit 1";
  "fi";
  "";
  "year=${years[$SLURM_ARRAY_TASK_ID]}";
  "";
  "source " +:+ project_root config +:+ "/.venv/bin/activate";
  "echo " +:+ dq +:+ "Running year=$year" +:+ dq;
  "srun python " +:+ worker_script +:+ " \";
  "    --data_path " +:+ dq +:+ "$DATA_PATH" +:+ dq +:+ " \";
  "    --gamma " +:+ dq +:+ "$GAMMA" +:+ dq +:+ " \";
  "    --year " +:+ dq +:+ "$year" +:+ dq +:+ " \";
  "    --output_dir " +:+ dq +:+ "$OUTPUT_DIR" +:+ dq +:+ " \";
  "    --n_cpus " +:+ dq +:+ "$N_CPUS" +:+ dq +:+ " \";
  "    --constraints $CONSTRAINTS"
].

(** [generate_sbatch_script].  The annotation of [years] is [list[int]];
    the body asks of an entry only that it has a [str]. *)
Definition generate_sbatch_script {Y} `{Str Y} (config : BacktestConfig)
    (years : list Y) : M string :=
  let num_years := Z.of_nat (length years) in
  let years_str := join " " (str <$> years) in
  let constraints_str := join " " (constraints config) in
  worker_script ← get_worker_script_path;
  mret (unlines
          (sbatch_lines config num_years years_str constraints_str
             worker_script)).

(** The text that [generate_sbatch_script] returns. *)
Definition rendered {Y} `{Str Y} (config : BacktestConfig) (years : list Y)
  : string :=
  unlines
    (sbatch_lines config (Z.of_nat (length years))
       (join " " (str <$> years)) (join " " (constraints config))
       worker_script).

(** [tempfile.NamedTemporaryFile(mode="w", suffix=".sh", delete=False)],
    written and closed: the content is on disk under a new name. *)
Definition write_temp_script (script_content : string) : M string := λ w,
  let script_path := temp_name (files w) (dirs w) in
  match write_file script_path (Text script_content) w with
  | (Ok _, w') => (Ok script_path, w')
  | (Err e, w') => (Err e, w')
  end.

(** [submit_job] *)
Definition submit_job (script_content : string) (dry_run : bool)
  : M (option CompletedProcess) :=
  if dry_run then
    _ ← print (str_mul "=" 60);
    _ ← print "DRY RUN - Would submit the following script:";
    _ ← print (str_mul "=" 60);
    _ ← print script_content;
    _ ← print (str_mul "=" 60);
    mret None
  else
    script_path ← write_temp_script script_content;
    try_finally
      (result ← subprocess_run ["sbatch"; script_path];
       mret (Some result))
      (path_exists script_path ≫= λ there : bool,
       if there then unlink script_path else mret tt).

End with_env.

End Slurm.

(** ** [runner.py] *)

Module Runner.
Import Config Slurm.

(** [BacktestRunner]: the configuration and the cached data frame. *)
Record BacktestRunner : Type := mkRunner {
  config : BacktestConfig;
  _data : option DataFrame;
}.

(** [df[name]] *)
Fixpoint column (name : string) (df : DataFrame) : option Series :=
  match df with
  | [] => None
  | (n, s) :: df' => if String.eqb name n then Some s else column name df'
  end.

(** [pl.read_parquet(path)] and [df.write_parquet(path)] *)
Definition read_parquet (path : string) : M DataFrame := λ w,
  match files w !! path with
  | Some (Parquet df) => (Ok df, w)
  | Some _ => (Err (OSError ("not a parquet file: " +:+ path)), w)
  | None => (Err (FileNotFoundError path), w)
  end.

Definition write_parquet (df : DataFrame) (path : string) : M unit :=
  write_file path (Parquet df).

(** [dt.year()] on one row: the year of a date, null for a null. *)
Definition dt_year (d : option date) : option Z := year <$> d.

(** The order of [sort]: nulls first, then the years ascending. *)
Definition year_le (a b : option Z) : Prop :=
  match a, b with
  | None, _ => True
  | Some _, None => False
  | Some x, Some y => (x ≤ y)%Z
  end.

#[global] Instance year_le_dec : RelDecision year_le := λ a b,
  match a, b with
  | None, _ => left I
  | Some _, None => right (λ H : False, H)
  | Some x, Some y => decide (x ≤ y)%Z
  end.

(** [BacktestRunner.get_years]: the [year] of every row of the column, which
    is null where the date is, [unique()], then [sort("year")], as a list:
    a null date puts [None] at the head of the list.  A frame without a
    [date] column, or with a [date] column that holds no dates, makes
    polars raise. *)
Definition get_years (data : DataFrame) : result (list (option Z)) :=
  match column "date" data with
  | None => Err (ColumnNotFoundError "date")
  | Some (DateSeries ds) =>
      Ok (merge_sort year_le (remove_dups (dt_year <$> ds)))
  | Some _ => Err (SchemaError "dt.year: not a temporal column")
  end.

Section with_env.
Context `{Env}.

(** [BacktestRunner.from_yaml] *)
Definition from_yaml (config_path : string) : M BacktestRunner :=
  config ← Config.from_yaml config_path;
  mret (mkRunner config None).

(** [BacktestRunner.load_data]; the runner comes back with its cache. *)
Definition load_data (self : BacktestRunner) (data : option DataFrame)
  : M (DataFrame * BacktestRunner) :=
  match data with
  | Some df => mret (df, mkRunner (config self) (Some df))
  | None =>
      match _data self with
      | None =>
          df ← read_parquet (data_path (config self));
          mret (df, mkRunner (config self) (Some df))
      | Some df => mret (df, self)
      end
  end.

(** [os.makedirs] of a value of type [str | None] *)
Definition makedirs_opt (path : option string) : M unit :=
  match path with
  | Some p => makedirs p
  | None => raise (TypeError "expected str, bytes or os.PathLike object, not NoneType")
  end.

(** [BacktestRunner.prepare] *)
Definition prepare (self : BacktestRunner) (data : option DataFrame)
  : M BacktestRunner :=
  (* Create directories *)
  makedirs_opt (output_dir (config self));;
  makedirs_opt (logs_dir (config self));;
  (* Ensure temp directory exists *)
  let temp_dir := Path_joinpath (project_root (config self)) "temp" in
  Path_mkdir temp_dir;;
  (* If data provided, save to the configured data_path *)
  match data with
  | Some df =>
      write_parquet df (data_path (config self));;
      mret (mkRunner (config self) (Some df))
  | None => mret self
  end.

(** [BacktestRunner.submit] *)
Definition submit (self : BacktestRunner) (data : option DataFrame)
    (dry_run : bool) : M unit :=
  (* Prepare directories and optionally save data *)
  self ← prepare self data;
  (* Load data to determine years *)
  '(df, self) ← load_data self data;
  years ← lift (get_years df);
  first ← lift (index years 0);
  last ← lift (index years (-1));
  print ("Preparing backtest for " +:+ str_int (Z.of_nat (length years))
         +:+ " years: " +:+ str first +:+ "-" +:+ str last);;
  print ("Signal: " +:+ signal_name (config self));;
  print ("Gamma: " +:+ float_repr (gamma (config self)));;
  print ("Constraints: " +:+ list_repr (constraints (config self)));;
  print ("Output directory: " +:+ format_opt (output_dir (config self)));;
  (* Generate and submit *)
  script ← generate_sbatch_script (config self) years;
  result ← submit_job script dry_run;
  match result with
  | Some r =>
      print "Job submitted successfully!";;
      print ("sbatch output: " +:+ cp_stdout r);;
      if String.eqb (cp_stderr r) "" then mret tt
      else print ("sbatch stderr: " +:+ cp_stderr r)
  | None => mret tt
  end.

End with_env.

End Runner.

(** ** [cli.py] *)

Module Cli.
Import Config Runner.

Section with_env.
Context `{Env}.

(** The assignments of [main] between loading the runner and submitting:
    the overrides given on the command line, applied to the configuration
    in the order of the source. *)
Definition apply_overrides (data_path : option string) (gamma : option float)
    (c : BacktestConfig) : BacktestConfig :=
  let c :=
    match data_path with
    | Some p =>
        mkBacktestConfig (signal_name c) p (Config.gamma c) (project_root c)
          (byu_email c) (constraints c) (slurm c) (output_dir c) (logs_dir c)
    | None => c
    end in
  match gamma with
  | Some g =>
      let c :=
        mkBacktestConfig (signal_name c) (Config.data_path c) g
          (project_root c) (byu_email c) (constraints c) (slurm c)
          (output_dir c) (logs_dir c) in
      (* Update output paths that depend on gamma *)
      let c :=
        mkBacktestConfig (signal_name c) (Config.data_path c) (Config.gamma c)
          (project_root c) (byu_email c) (constraints c) (slurm c)
          (Some (project_root c +:+ "/weights/" +:+ signal_name c +:+ "/"
                 +:+ float_repr g))
          (logs_dir c) in
      mkBacktestConfig (signal_name c) (Config.data_path c) (Config.gamma c)
        (project_root c) (byu_email c) (constraints c) (slurm c)
        (output_dir c)
        (Some ("logs/" +:+ signal_name c +:+ "/" +:+ float_repr g))
  | None => c
  end.

(** [main] *)
Definition main (config_path : string) (dry_run : bool)
    (data_path : option string) (gamma : option float) : M unit :=
  runner ← Runner.from_yaml config_path;
  (* Apply overrides *)
  let runner :=
    mkRunner (apply_overrides data_path gamma (config runner))
             (_data runner) in
  submit runner None dry_run.

End with_env.

End Cli.

(** ** [scripts/mvo_worker.py] *)

Module Worker.

(** The constraint classes of [sf_quant.optimizer.constraints] that the
    worker knows; instantiating one takes no argument. *)
Inductive constraint : Type :=
| ZeroBeta
| ZeroInvestment.

(** [CONSTRAINT_REGISTRY], in the order the [dict] literal lists it. *)
Definition CONSTRAINT_REGISTRY : list (string * constraint) := [
  ("ZeroBeta", ZeroBeta);
  ("ZeroInvestment", ZeroInvestment)
].

(** The names the registry knows: [CONSTRAINT_REGISTRY.keys()]. *)
Definition registry_names : list string := fst <$> CONSTRAINT_REGISTRY.

(** The [KeyError] that [get_constraints] raises for [name], with the
    message written out. *)
Definition unknown_constraint (name : string) : exn :=
  KeyError ("Unknown constraint '" +:+ name
            +:+ "'. Available: ZeroBeta, ZeroInvestment").

Fixpoint registry_get (name : string) (reg : list (string * constraint))
  : option constraint :=
  match reg with
  | [] => None
  | (k, c) :: reg' => if String.eqb name k then Some c else registry_get name reg'
  end.

(** [get_constraints]: the loop over the names, with the list built so
    far. *)
Fixpoint get_constraints_loop (constraints : list constraint)
    (constraint_names : list string) : result (list constraint) :=
  match constraint_names with
  | [] => Ok constraints
  | name :: rest =>
      match registry_get name CONSTRAINT_REGISTRY with
      | None =>
          let available := join ", " (fst <$> CONSTRAINT_REGISTRY) in
          Err (KeyError ("Unknown constraint '" +:+ name
                         +:+ "'. Available: " +:+ available))
      | Some c => get_constraints_loop (constraints ++ [c]) rest
      end
  end.

Definition get_constraints (constraint_names : list string)
  : result (list constraint) :=
  get_constraints_loop [] constraint_names.

End Worker.

(** ** The shell that runs the generated script

    The script runs under [bash], outside Python.  This is the fragment of
    the shell that the template uses, read line by line from the script
    text: comments, quoted assignments, an array literal, the length and the
    indexing of an array, the integer test of the guard, [echo], [exit],
    [source] and an [srun] command that runs over continuation lines, its
    words being plain words, [$NAME] or ["$NAME"].  A line of any other
    form stops the run with [Unsupported]: the model says nothing about
    it. *)

Module Bash.

Definition is_newline (c : ascii) : bool := Ascii.eqb c "010".
Definition is_space (c : ascii) : bool := Ascii.eqb c " ".
Definition is_quote (c : ascii) : bool := Ascii.eqb c "034".

Definition is_digit (c : ascii) : bool :=
  let n := N_of_ascii c in (48 <=? n)%N && (n <=? 57)%N.

Definition is_name_char (c : ascii) : bool :=
  let n := N_of_ascii c in
  (65 <=? n)%N && (n <=? 90)%N || (97 <=? n)%N && (n <=? 122)%N
  || is_digit c || Ascii.eqb c "_".

(** The characters that end a double-quoted string or start an expansion
    inside it. *)
Definition special (c : ascii) : bool :=
  is_newline c || is_quote c || Ascii.eqb c "$" || Ascii.eqb c "`"
  || Ascii.eqb c "\".

(** The characters of a word that the shell takes as it stands. *)
Definition plain (c : ascii) : bool :=
  is_name_char c
  || existsb (Ascii.eqb c) ["-"; "."; "/"; ":"; ","; "@"; "%"; "+"]%char.

Fixpoint string_forall (P : ascii → bool) (s : string) : bool :=
  match s with
  | EmptyString => true
  | String c s' => P c && string_forall P s'
  end.

Definition newline_free (s : string) : bool :=
  string_forall (λ c, negb (is_newline c)) s.

(** Text that a double-quoted string holds unchanged. *)
Definition inert (s : string) : bool :=
  string_forall (λ c, negb (special c)) s.

Definition space_free (s : string) : bool :=
  string_forall (λ c, negb (is_space c)) s.

(** The characters of a decimal numeral. *)
Definition numeral_char (c : ascii) : bool := is_digit c || Ascii.eqb c "-".

Definition plain_word (s : string) : bool :=
  negb (String.eqb s "") && string_forall plain s.

(** [s] cut at every [sep]. *)
Fixpoint split_on (sep : ascii) (s : string) : list string :=
  match s with
  | EmptyString => [EmptyString]
  | String c s' =>
      if Ascii.eqb c sep then EmptyString :: split_on sep s'
      else match split_on sep s' with
           | [] => [String c EmptyString]
           | f :: fs => String c f :: fs
           end
  end.

(** Word splitting: the non-empty pieces between blanks. *)
Definition words (s : string) : list string :=
  List.filter (λ f, negb (String.eqb f "")) (split_on " " s).

Fixpoint lstrip (s : string) : string :=
  match s with
  | String c s' => if is_space c then lstrip s' else s
  | EmptyString => EmptyString
  end.

Fixpoint strip_prefix (p s : string) : option string :=
  match p, s with
  | EmptyString, _ => Some s
  | String a p', String b s' =>
      if Ascii.eqb a b then strip_prefix p' s' else None
  | String _ _, EmptyString => None
  end.

(** The longest prefix of name characters, and what follows it. *)
Fixpoint take_name (s : string) : string * string :=
  match s with
  | String c s' =>
      if is_name_char c
      then let '(n, r) := take_name s' in (String c n, r)
      else (EmptyString, s)
  | EmptyString => (EmptyString, EmptyString)
  end.

Fixpoint parse_nat_go (acc : Z) (s : string) : option Z :=
  match s with
  | EmptyString => Some acc
  | String c s' =>
      if is_digit c
      then parse_nat_go (10 * acc + (Z.of_N (N_of_ascii c) - 48)) s'
      else None
  end.

Definition parse_nat (s : string) : option Z :=
  match s with
  | EmptyString => None
  | _ => parse_nat_go 0 s
  end.

(** What follows an opening double quote, when it is inert text closed by
    a quote that ends the line. *)
Fixpoint quoted_body (s : string) : option string :=
  match s with
  | EmptyString => None
  | String c s' =>
      if is_quote c then
        match s' with EmptyString => Some EmptyString | _ => None end
      else if special c then None
      else String c <$> quoted_body s'
  end.

(** What follows an opening parenthesis, when it is plain words and blanks
    closed by a parenthesis that ends the line. *)
Fixpoint paren_body (s : string) : option string :=
  match s with
  | EmptyString => None
  | String c s' =>
      if Ascii.eqb c ")" then
        match s' with EmptyString => Some EmptyString | _ => None end
      else if plain c || is_space c then String c <$> paren_body s'
      else None
  end.

(** The text of an [echo "..."]: variables and arithmetic may be expanded
    in it, commands may not. *)
Fixpoint echo_body (s : string) : bool :=
  match s with
  | EmptyString => false
  | String c s' =>
      if is_quote c then String.eqb s' ""
      else if Ascii.eqb c "$" then
        match s' with
        | String d _ =>
            (is_name_char d || String.prefix "((" s') && echo_body s'
        | EmptyString => false
        end
      else negb (special c) && echo_body s'
  end.

Inductive stmt : Type :=
| Skip                                     (* blank line, comment *)
| Export (name word : string)              (* export NAME=WORD *)
| Assign (name text : string)              (* NAME="TEXT" *)
| ArrayAssign (name : string) (ws : list string)   (* NAME=(W1 W2 ...) *)
| ArrayLength (name arr : string)          (* NAME=${#ARR[@]} *)
| ArrayIndex (name arr idx : string)       (* NAME=${ARR[$IDX]} *)
| IfGe (a b : string)                      (* if [ $A -ge $B ]; then *)
| Fi
| Exit (status : Z)
| Echo
| Source (path : string)
| Srun (command : string)                  (* srun COMMAND *)
| Unknown.

Definition parse_rhs (name rhs : string) : stmt :=
  match rhs with
  | String q r =>
      if is_quote q then
        match quoted_body r with Some t => Assign name t | None => Unknown end
      else if Ascii.eqb q "(" then
        match paren_body r with
        | Some b => ArrayAssign name (words b)
        | None => Unknown
        end
      else
        match strip_prefix "${#" rhs, strip_prefix "${" rhs with
        | Some r1, _ =>
            let '(arr, r2) := take_name r1 in
            if String.eqb r2 "[@]}" then ArrayLength name arr else Unknown
        | None, Some r1 =>
            let '(arr, r2) := take_name r1 in
            match strip_prefix "[$" r2 with
            | Some r3 =>
                let '(idx, r4) := take_name r3 in
                if String.eqb r4 "]}" then ArrayIndex name arr idx else Unknown
            | None => Unknown
            end
        | None, None => Unknown
        end
  | EmptyString => Unknown
  end.

Definition parse_assignment (l : string) : stmt :=
  let '(name, r) := take_name l in
  match name, r with
  | String _ _, String e rhs =>
      if Ascii.eqb e "=" then parse_rhs name rhs else Unknown
  | _, _ => Unknown
  end.

Definition parse_if (r : string) : stmt :=
  let '(a, r1) := take_name r in
  match strip_prefix " -ge $" r1 with
  | Some r2 =>
      let '(b, r3) := take_name r2 in
      if String.eqb r3 " ]; then" then IfGe a b else Unknown
  | None => Unknown
  end.

Definition parse_line (line : string) : stmt :=
  let l := lstrip line in
  match l with
  | EmptyString => Skip
  | String c _ =>
      if Ascii.eqb c "#" then Skip
      else if String.eqb l "fi" then Fi
      else
        match strip_prefix "if [ $" l, strip_prefix "exit " l,
              strip_prefix "echo " l, strip_prefix "export " l,
              strip_prefix "source " l, strip_prefix "srun " l with
        | Some r, _, _, _, _, _ => parse_if r
        | _, Some r, _, _, _, _ =>
            match parse_nat r with Some n => Exit n | None => Unknown end
        | _, _, Some (String q r), _, _, _ =>
            if is_quote q && echo_body r then Echo else Unknown
        | _, _, Some EmptyString, _, _, _ => Unknown
        | _, _, _, Some r, _, _ =>
            let '(name, r1) := take_name r in
            match r1 with
            | String e w =>
                if Ascii.eqb e "=" && plain_word w then Export name w
                else Unknown
            | EmptyString => Unknown
            end
        | _, _, _, _, Some r, _ =>
            if plain_word r then Source r else Unknown
        | _, _, _, _, _, Some r => Srun r
        | None, None, None, None, None, None => parse_assignment l
        end
  end.

(** Shell variables hold text; the integers that the shell itself produces
    (an array length, the task index that SLURM exports) are kept as
    integers. *)
Inductive value : Type :=
| VStr (s : string)
| VInt (n : Z).

Record shell : Type := mkShell {
  vars : gmap string value;
  arrays : gmap string (list string);
}.

Inductive outcome : Type :=
| ExitStatus (status : Z)   (* the script called [exit] *)
| Worker (argv : list string)
                            (* [srun] reached: the command it is given *)
| Finished (sh : shell)      (* end of the text, no worker started *)
| Unsupported (line : string).

(** A line that ends in a backslash goes on in the next line: the line
    without that backslash. *)
Fixpoint continued (l : string) : option string :=
  match l with
  | EmptyString => None
  | String c EmptyString =>
      if Ascii.eqb c "\" then Some EmptyString else None
  | String c l' => String c <$> continued l'
  end.

(** The text of the command that starts with [l] and goes on in [ls]. *)
Fixpoint command_text (l : string) (ls : list string) : string :=
  match continued l, ls with
  | Some t, l' :: ls' => t +:+ command_text l' ls'
  | Some t, [] => t
  | None, _ => l
  end.

(** What [$NAME] stands for: the text of the variable, nothing when it is
    not set. *)
Definition var_text (sh : shell) (name : string) : string :=
  match vars sh !! name with
  | Some (VStr s) => s
  | Some (VInt n) => str_int n
  | None => EmptyString
  end.

Definition is_variable_name (name : string) : bool :=
  match name with
  | String c _ => negb (is_digit c)
  | EmptyString => false
  end.

(** One word of a command, expanded.  ["$NAME"] is one word, whatever the
    variable holds; [$NAME] is split at blanks, when the variable holds
    plain characters and blanks only; a plain word stands for itself. *)
Definition expand_word (sh : shell) (w : string) : option (list string) :=
  match w with
  | String q ((String d r) as w') =>
      if is_quote q && Ascii.eqb d "$" then
        let '(name, r') := take_name r in
        if is_variable_name name
           && String.eqb r' (String "034"%char EmptyString)
        then Some [var_text sh name] else None
      else if Ascii.eqb q "$" then
        let '(name, r') := take_name w' in
        if is_variable_name name && String.eqb r' EmptyString then
          let v := var_text sh name in
          if string_forall (λ c, plain c || is_space c) v
          then Some (words v) else None
        else None
      else if plain_word w then Some [w] else None
  | _ => if plain_word w then Some [w] else None
  end.

Fixpoint expand_words (sh : shell) (ws : list string)
  : option (list string) :=
  match ws with
  | [] => Some []
  | w :: ws' =>
      a ← expand_word sh w; b ← expand_words sh ws'; Some (a ++ b)
  end.

Definition set_var (name : string) (v : value) (sh : shell) : shell :=
  mkShell (<[name := v]> (vars sh)) (arrays sh).

(** [exec ls sh skipping]: run the lines [ls]; [skipping] is set inside an
    [if] whose test failed, until its [fi]. *)
Fixpoint exec (ls : list string) (sh : shell) (skipping : bool) : outcome :=
  match ls with
  | [] => Finished sh
  | l :: ls' =>
      match parse_line l with
      | Unknown => Unsupported l
      | Fi => exec ls' sh false
      | st =>
          if skipping then exec ls' sh true
          else
            match st with
            | Skip | Echo | Source _ | Fi | Unknown => exec ls' sh false
            | Export name w | Assign name w =>
                exec ls' (set_var name (VStr w) sh) false
            | ArrayAssign name ws =>
                exec ls' (mkShell (vars sh) (<[name := ws]> (arrays sh))) false
            | ArrayLength name arr =>
                let n := length (default [] (arrays sh !! arr)) in
                exec ls' (set_var name (VInt (Z.of_nat n)) sh) false
            | ArrayIndex name arr idx =>
                match vars sh !! idx with
                | Some (VInt i) =>
                    if (i <? 0)%Z then Unsupported l
                    else
                      let elt :=
                        default EmptyString
                          (default [] (arrays sh !! arr) !! Z.to_nat i) in
                      exec ls' (set_var name (VStr elt) sh) false
                | _ => Unsupported l
                end
            | IfGe a b =>
                match vars sh !! a, vars sh !! b with
                | Some (VInt x), Some (VInt y) =>
                    exec ls' sh (negb (y <=? x)%Z)
                | _, _ => Unsupported l
                end
            | Exit n => ExitStatus n
            | Srun r =>
                match expand_words sh (words (command_text r ls')) with
                | Some argv => Worker argv
                | None => Unsupported l
                end
            end
      end
  end.

(** The shell of array task [task_id]: SLURM exports the index. *)
Definition task_shell (task_id : Z) : shell :=
  mkShell {[ "SLURM_ARRAY_TASK_ID" := VInt task_id ]} ∅.

(** The run of a script text as array task [task_id], line by line. *)
Definition run_script (script : string) (task_id : Z) : outcome :=
  exec (split_on "010" script) (task_shell task_id) false.

(** The configurations whose text the template can hold up to the guard:
    no line break in a field written into a directive, and nothing but
    inert text in a field written between double quotes. *)
Definition guard_safe `{Env} (c : Config.BacktestConfig) : bool :=
  newline_free (Config.signal_name c)
  && newline_free (format_opt (Config.logs_dir c))
  && newline_free (Config.mem (Config.slurm c))
  && newline_free (Config.time (Config.slurm c))
  && newline_free (Config.byu_email c)
  && newline_free (Config.mail_type (Config.slurm c))
  && inert (Config.data_path c)
  && inert (format_opt (Config.output_dir c))
  && inert (float_repr (Config.gamma c))
  && inert (join " " (Config.constraints c)).

End Bash.

(** ** A stub environment and sample inputs

    The statements below hold for every environment.  The stub is one
    environment, used where a statement is run on a concrete input; its
    scheduler accepts every job. *)

Module Stub.
Import Config.

Definition stub_float_repr (x : float) : string :=
  match x with
  | S754_finite false 4503599627370496 (-53) => "0.5"
  | _ => "1.0"
  end.

Definition stub_temp_name (fs : gmap string content) (ds : gset string)
  : string :=
  fresh (dom fs ∪ ds).

Lemma stub_temp_name_fresh fs ds :
  fs !! stub_temp_name fs ds = None ∧ stub_temp_name fs ds ∉ ds.
Proof.
  unfold stub_temp_name. pose proof (is_fresh (dom fs ∪ ds)) as Hfresh.
  split; [apply not_elem_of_dom|]; set_solver.
Qed.

Definition stub_env : Env := {|
  float_repr := stub_float_repr;
  list_repr := λ xs,
    "[" +:+ join ", " ((λ s, "'" +:+ s +:+ "'") <$> xs) +:+ "]";
  temp_name := stub_temp_name;
  temp_name_fresh := stub_temp_name_fresh;
  spawn := λ argv fs, (Exited 0 "Submitted batch job 1" "", fs);
  worker_script := "/opt/sf_backtester/scripts/mvo_worker.py";
|}.

(** The float 0.5: mantissa [2^52], exponent [-53]. *)
Definition half : float := S754_finite false 4503599627370496 (-53).

Definition alpha_slurm : SlurmConfig :=
  mkSlurmConfig 4 "32G" "06:00:00" "BEGIN,END,FAIL" 1.

(** The configuration of the end-to-end example of the specification. *)
Definition alpha : BacktestConfig :=
  mkBacktestConfig "alpha" "d.parquet" half "/home/user/project"
    "user@byu.edu" ["ZeroBeta"; "ZeroInvestment"] alpha_slurm
    (Some "/home/user/project/weights/alpha/0.5") (Some "logs/alpha/0.5").

(** The same run with a notification address that holds a line break. *)
Definition alpha_two_line_email : BacktestConfig :=
  mkBacktestConfig "alpha" "d.parquet" half "/home/user/project"
    ("user@byu.edu" +:+ nl +:+ "exit 0") ["ZeroBeta"; "ZeroInvestment"]
    alpha_slurm
    (Some "/home/user/project/weights/alpha/0.5") (Some "logs/alpha/0.5").

Definition empty_world : World := mkWorld ∅ ∅ [] [] 0.

(** A data set whose dates fall in 2019, 2021, 2019 and 2020, and one with
    a [date] column and no row. *)
Definition four_dates : DataFrame := [
  ("barrid", StrSeries ["USA001"; "USA002"; "USA003"; "USA004"]);
  ("date", DateSeries [Some (Date 2019 1 2); Some (Date 2021 6 30);
                       Some (Date 2019 12 31); Some (Date 2020 2 29)])
].

Definition no_rows : DataFrame := [
  ("barrid", StrSeries []);
  ("date", DateSeries [])
].

(** The empty world after [prepare] for [alpha] with the data [no_rows]:
    the three directories and the directories above them. *)
Definition prepared_world : World :=
  mkWorld (<["d.parquet" := Parquet no_rows]> ∅)
    (list_to_set ["/home"; "/home/user"; "/home/user/project";
                  "/home/user/project/temp"]
     ∪ (list_to_set ["logs"; "logs/alpha"; "logs/alpha/0.5"]
        ∪ (list_to_set ["/home"; "/home/user"; "/home/user/project";
                        "/home/user/project/weights";
                        "/home/user/project/weights/alpha";
                        "/home/user/project/weights/alpha/0.5"] ∪ ∅)))
    [] [] 0.

End Stub.

(** ** [scripts/mvo_worker.py]: the rows of one year

    Of [run_backtest_by_year], the parts that are plain Python: the first
    and last day of the year, the filter on the [date] column between them,
    and the path of the output.  The optimisation itself and the polars
    plan it runs in are external. *)

Module WorkerTask.

(** The Gregorian calendar of [datetime.date]. *)
Definition is_leap (y : Z) : bool :=
  (y mod 4 =? 0)%Z && (negb (y mod 100 =? 0)%Z || (y mod 400 =? 0)%Z).

Definition days_in_month (y m : Z) : Z :=
  if (m =? 2)%Z then (if is_leap y then 29 else 28)
  else if (m =? 4)%Z || (m =? 6)%Z || (m =? 9)%Z || (m =? 11)%Z then 30
  else 31.

(** [dt.date(y, m, d)]; [None] is the [ValueError] of a year outside
    1..9999, a month outside 1..12 or a day that the month does not have. *)
Definition dt_date (y m d : Z) : option date :=
  if (1 <=? y)%Z && (y <=? 9999)%Z && (1 <=? m)%Z && (m <=? 12)%Z
     && (1 <=? d)%Z && (d <=? days_in_month y m)%Z
  then Some (Date y m d)
  else None.

(** A date of the calendar, of any year: what a date column holds. *)
Definition calendar_date (d : date) : bool :=
  (1 <=? month d)%Z && (month d <=? 12)%Z
  && (1 <=? day d)%Z && (day d <=? days_in_month (year d) (month d))%Z.

(** [a <= b] on dates. *)
Definition date_le (a b : date) : bool :=
  (year a <? year b)%Z
  || (year a =? year b)%Z
     && ((month a <? month b)%Z
         || (month a =? month b)%Z && (day a <=? day b)%Z).

(** [pl.col("date").is_between(lo, hi)], both ends included. *)
Definition is_between (lo hi d : date) : bool := date_le lo d && date_le d hi.

(** The filter of [run_backtest_by_year] on rows of any kind that carry a
    date: [year_start], [year_end], then the rows between them, in their
    order. *)
Definition rows_of_year {R} (date_of : R → date) (rows : list R) (year : Z)
  : option (list R) :=
  year_start ← dt_date year 1 1;
  year_end ← dt_date year 12 31;
  Some (List.filter (λ r, is_between year_start year_end (date_of r)) rows).

(** [output_path]: where the weights of [year] are written. *)
Definition output_path (output_dir : string) (year : Z) : string :=
  output_dir +:+ "/" +:+ str_int year +:+ ".parquet".

End WorkerTask.

(** ** Vocabulary of the statements *)

Module Vocabulary.
Import Config.

(** The parameters of the two constructors, and the ones without a
    default. *)
Definition BacktestConfig_fields : list string :=
  ["signal_name"; "data_path"; "gamma"; "project_root"; "byu_email";
   "constraints"; "slurm"; "output_dir"; "logs_dir"].

Definition required_fields : list string :=
  ["signal_name"; "data_path"; "gamma"; "project_root"; "byu_email";
   "constraints"; "slurm"].

Definition SlurmConfig_fields : list string :=
  ["n_cpus"; "mem"; "time"; "mail_type"; "max_concurrent_jobs"].

(** The keys of a mapping. *)
Definition keys (d : list (string * yaml)) : list string := fst <$> d.

(** The two derived paths of [__post_init__]. *)
Definition derived_output_dir `{Env} (project_root signal_name : string)
    (gamma : float) : string :=
  project_root +:+ "/weights/" +:+ signal_name +:+ "/" +:+ float_repr gamma.

Definition derived_logs_dir `{Env} (signal_name : string) (gamma : float)
  : string :=
  "logs/" +:+ signal_name +:+ "/" +:+ float_repr gamma.

(** A computation that runs no command, in any world. *)
Definition runs_no_command {A} (m : M A) : Prop :=
  ∀ w, calls (snd (m w)) = calls w.

(** The lines that [submit] prints before it renders the script. *)
Definition info_lines `{Env} {Y} `{Str Y} (c : BacktestConfig)
    (years : list Y) (first last : Y) : list string :=
  ["Preparing backtest for " +:+ str_int (Z.of_nat (length years))
     +:+ " years: " +:+ str first +:+ "-" +:+ str last;
   "Signal: " +:+ signal_name c;
   "Gamma: " +:+ float_repr (gamma c);
   "Constraints: " +:+ list_repr (constraints c);
   "Output directory: " +:+ format_opt (output_dir c)].

(** [submit] gets as far as the years: the directories are prepared, the
    data is loaded in the world [w2], and [years] is the list of its years,
    from [first] to [last]. *)
Definition ready (self : Runner.BacktestRunner) (data : option DataFrame)
    (w w2 : World) (years : list (option Z)) (first last : option Z)
  : Prop :=
  ∃ self1 w1 df self2,
    Runner.prepare self data w = (Ok self1, w1)
    ∧ Runner.load_data self1 data w1 = (Ok (df, self2), w2)
    ∧ Runner.get_years df = Ok years
    ∧ index years 0 = Ok first
    ∧ index years (-1) = Ok last.

(** The lines of a dry run. *)
Definition dry_run_lines (script : string) : list string :=
  [str_mul "=" 60; "DRY RUN - Would submit the following script:";
   str_mul "=" 60; script; str_mul "=" 60].

(** The lines that [submit] prints after a submission that succeeded. *)
Definition success_lines (out err : string) : list string :=
  ["Job submitted successfully!"; "sbatch output: " +:+ out]
  ++ (if String.eqb err "" then [] else ["sbatch stderr: " +:+ err]).

(** The directories that [prepare] asks for: the output directory, the
    logs directory and [temp] under the project root. *)
Definition wanted_dirs (c : BacktestConfig) : list string :=
  [format_opt (output_dir c); format_opt (logs_dir c);
   Path_joinpath (project_root c) "temp"].

(** The directories that [prepare] makes sure of: the wanted ones and the
    directories above them. *)
Definition prepared_dirs (c : BacktestConfig) : gset string :=
  list_to_set (lineage (Path_joinpath (project_root c) "temp"))
  ∪ (list_to_set (lineage (format_opt (logs_dir c)))
     ∪ list_to_set (lineage (format_opt (output_dir c)))).

(** The command that the script hands to [srun] for the year whose text is
    [year], with [names] after [--constraints]. *)
Definition worker_command `{Env} (c : BacktestConfig) (year : string)
    (names : list string) : list string :=
  ["python"; worker_script;
   "--data_path"; data_path c;
   "--gamma"; float_repr (gamma c);
   "--year"; year;
   "--output_dir"; format_opt (output_dir c);
   "--n_cpus"; str_int (n_cpus (slurm c));
   "--constraints"] ++ names.

(** Text made of plain characters and blanks: what the shell splits at
    the blanks and otherwise leaves alone. *)
Definition plain_words (s : string) : bool :=
  Bash.string_forall (λ c, Bash.plain c || Bash.is_space c) s.


End Vocabulary.

(** ** More sample inputs *)

Module Fixtures.
Import Config Stub.

(** A configuration file that leaves the derived paths and three of the
    five SLURM settings to their defaults. *)
Definition alpha_document : list (string * yaml) := [
  ("signal_name", YStr "alpha");
  ("data_path", YStr "d.parquet");
  ("gamma", YFloat half);
  ("project_root", YStr "/home/user/project");
  ("byu_email", YStr "user@byu.edu");
  ("constraints", YSeq [YStr "ZeroBeta"; YStr "ZeroInvestment"]);
  ("slurm", YMap [("n_cpus", YInt 4); ("max_concurrent_jobs", YInt 1)])
].

(** A world with that file and the data of [four_dates]. *)
Definition config_world : World :=
  mkWorld (<["config.yml" := YamlDoc (YMap alpha_document)]>
             (<["d.parquet" := Parquet four_dates]> ∅))
    ∅ [] [] 0.

(** That world after [prepare] for a configuration with the given output
    and logs directories. *)
Definition ready_world (out logs : string) : World :=
  mkWorld (files config_world)
    (list_to_set (lineage "/home/user/project/temp")
     ∪ (list_to_set (lineage logs) ∪ (list_to_set (lineage out) ∪ ∅)))
    [] [] 0.

Definition alpha_ready : World :=
  ready_world "/home/user/project/weights/alpha/0.5" "logs/alpha/0.5".

Definition alpha_one_ready : World :=
  ready_world "/home/user/project/weights/alpha/1.0" "logs/alpha/1.0".

(** The float 1.0, and [alpha] after [--gamma 1.0]. *)
Definition one : float := S754_finite false 4503599627370496 (-52).

Definition alpha_one : BacktestConfig :=
  mkBacktestConfig "alpha" "d.parquet" one "/home/user/project"
    "user@byu.edu" ["ZeroBeta"; "ZeroInvestment"] alpha_slurm
    (Some "/home/user/project/weights/alpha/1.0") (Some "logs/alpha/1.0").

(** The rows of [four_dates] in another order, with one row twice. *)
Definition five_dates : DataFrame := [
  ("date", DateSeries [Some (Date 2020 2 29); Some (Date 2019 12 31);
                       Some (Date 2021 6 30); Some (Date 2019 1 2);
                       Some (Date 2020 2 29)])
].

(** Three rows, the second with a null date. *)
Definition null_date : DataFrame := [
  ("barrid", StrSeries ["USA001"; "USA002"; "USA003"]);
  ("date", DateSeries [Some (Date 2020 2 29); None; Some (Date 2019 1 2)])
].



(** A scheduler that rejects every job. *)
Definition rejecting_env : Env := {|
  float_repr := stub_float_repr;
  list_repr := λ xs,
    "[" +:+ join ", " ((λ s, "'" +:+ s +:+ "'") <$> xs) +:+ "]";
  temp_name := stub_temp_name;
  temp_name_fresh := stub_temp_name_fresh;
  spawn := λ argv fs,
    (Exited 1 "" "sbatch: error: invalid partition specified", fs);
  worker_script := "/opt/sf_backtester/scripts/mvo_worker.py";
|}.

End Fixtures.

(** * Properties *)

(** ** The monad of effects *)

Module MonadFacts.

Lemma bind_run {A B} (m : M A) (f : A → M B) (w : World) :
  (m ≫= f) w
  = match m w with
    | (Ok a, w') => f a w'
    | (Err e, w') => (Err e, w')
    end.
Proof. reflexivity. Qed.

(** A cleanup that succeeds keeps the outcome of the body. *)
Lemma try_finally_ok {A} (body : M A) (cleanup : M unit) w r w1 w2 :
  body w = (r, w1) → cleanup w1 = (Ok tt, w2) →
  try_finally body cleanup w = (r, w2).
Proof. intros Hb Hc. unfold try_finally. by rewrite Hb, Hc. Qed.

End MonadFacts.

(** ** The constraint registry of the worker *)

Module WorkerFacts.
Import Worker.

Lemma registry_get_None name reg :
  registry_get name reg = None ↔ name ∉ (fst <$> reg).
Proof.
  induction reg as [|[k c] reg IH]; simpl.
  - split; [intros _; apply not_elem_of_nil | done].
  - rewrite not_elem_of_cons. destruct (String.eqb_spec name k) as [->|Hne].
    + split; [done | intros [? _]; done].
    + rewrite IH. tauto.
Qed.

Lemma registry_get_Some name reg c :
  registry_get name reg = Some c → name ∈ (fst <$> reg).
Proof.
  intros Hget. destruct (decide (name ∈ fst <$> reg)) as [|Hnot]; [done|].
  apply registry_get_None in Hnot. congruence.
Qed.

(** The loop either extends the accumulator by one object per name, or
    stops at a name that the registry does not have. *)
Lemma get_constraints_loop_spec names : ∀ acc,
  (∃ objs, get_constraints_loop acc names = Ok (acc ++ objs)
           ∧ Forall2 (λ n c, registry_get n CONSTRAINT_REGISTRY = Some c)
                     names objs)
  ∨ (∃ bad, bad ∈ names ∧ (bad ∉ registry_names)
            ∧ get_constraints_loop acc names = Err (unknown_constraint bad)).
Proof.
  induction names as [|name rest IH]; intros acc.
  - left. exists []. split; [by rewrite app_nil_r | constructor].
  - cbn [get_constraints_loop].
    destruct (registry_get name CONSTRAINT_REGISTRY) as [c|] eqn:Hget.
    + destruct (IH (acc ++ [c])) as [(objs & Hok & Hall)|(bad & Hin & Hbad & Herr)].
      * left. exists (c :: objs). split.
        -- by rewrite Hok, <- app_assoc.
        -- by constructor.
      * right. exists bad. split_and!; [by apply elem_of_cons; right | done | done].
    + right. exists name. split_and!.
      * apply elem_of_cons. by left.
      * by apply registry_get_None.
      * reflexivity.
Qed.

(** C9. For every list of constraint names, [get_constraints] either
    returns one instantiated constraint per name, each the registry's entry
    for that name, or raises a [KeyError] whose message names the offending
    constraint and lists every valid name ("ZeroBeta, ZeroInvestment", the
    keys of the registry joined); it raises exactly when some name is not
    in the registry, so an unknown name is never replaced by a default. *)
Theorem get_constraints_resolves_or_lists_valid_names (names : list string) :
  ((∃ objs, get_constraints names = Ok objs
            ∧ Forall2 (λ n c, registry_get n CONSTRAINT_REGISTRY = Some c)
                      names objs)
   ∨ (∃ bad, bad ∈ names ∧ (bad ∉ registry_names)
             ∧ get_constraints names
               = Err (KeyError ("Unknown constraint '" +:+ bad
                       +:+ "'. Available: ZeroBeta, ZeroInvestment"))))
  ∧ ((∃ e, get_constraints names = Err e)
     ↔ (∃ n, n ∈ names ∧ (n ∉ registry_names)))
  ∧ join ", " registry_names = "ZeroBeta, ZeroInvestment".
Proof.
  unfold get_constraints.
  destruct (get_constraints_loop_spec names [])
    as [(objs & Hok & Hall)|(bad & Hin & Hbad & Herr)];
    (split; [|split; [|reflexivity]]).
  - left; by exists objs.
  - split.
    + intros [e He]. congruence.
    + intros (n & Hn & Hnot). exfalso.
      apply list_elem_of_lookup in Hn as [i Hi].
      destruct (Forall2_lookup_l _ _ _ _ _ Hall Hi) as (c & _ & Hc).
      by apply registry_get_Some in Hc.
  - right; by exists bad.
  - split.
    + intros _. by exists bad.
    + intros _. by eexists.
Qed.

End WorkerFacts.

(** ** The configuration model *)

Module ConfigFacts.
Import Config Cli.

Section with_env.
Context `{Env}.

Lemma BacktestConfig_init_constructed sn dp g pr be cs sl od ld cfg :
  BacktestConfig_init sn dp g pr be cs sl od ld = Ok cfg → constructed cfg.
Proof.
  unfold BacktestConfig_init. intros Hinit.
  destruct (match sl with SlurmDict d => _ | SlurmObj s => _ end);
    simplify_eq/=.
  split; simpl; by repeat case_match.
Qed.

Lemma as_strs_fmap f (l : list string) : as_strs f (YStr <$> l) = Ok l.
Proof.
  induction l as [|s l IH]; [done|].
  rewrite fmap_cons. cbn [as_strs as_str mbind result_bind]. by rewrite IH.
Qed.

(** C1. For every configuration [c] and every float [g], the overrides of
    the command line with [--gamma g] (with or without [--data-path]) are a
    function from [c] to a new configuration whose [gamma] is [g], whose
    [output_dir] is [project_root/weights/signal_name/g] and whose
    [logs_dir] is [logs/signal_name/g], both formatted from the new value,
    with every field that does not depend on [gamma] kept; no derived path
    is stale: the result is what the constructor derives from the new value
    when no path is provided. *)
Theorem gamma_override_recomputes_derived_paths
    (c : BacktestConfig) (g : float) (dp : option string) :
  let c' := apply_overrides dp (Some g) c in
  gamma c' = g
  ∧ output_dir c'
    = Some (project_root c +:+ "/weights/" +:+ signal_name c +:+ "/"
            +:+ float_repr g)
  ∧ logs_dir c' = Some ("logs/" +:+ signal_name c +:+ "/" +:+ float_repr g)
  ∧ data_path c' = default (data_path c) dp
  ∧ (signal_name c', project_root c', byu_email c', constraints c', slurm c')
    = (signal_name c, project_root c, byu_email c, constraints c, slurm c)
  ∧ BacktestConfig_init (signal_name c) (data_path c') g (project_root c)
      (byu_email c) (constraints c) (SlurmObj (slurm c)) None None
    = Ok c'.
Proof. by destruct c, dp. Qed.

(** C2. Saving a configuration and loading it back gives the same
    configuration: for every configuration that the constructor has left
    (both derived paths set), every path and every world, [to_yaml] succeeds
    and [from_yaml] of the written file returns that configuration, the
    [slurm] block and the two derived paths included. *)
Theorem to_yaml_from_yaml_round_trip
    (cfg : BacktestConfig) (path : string) (w : World) :
  constructed cfg →
  ∃ w1, to_yaml cfg path w = (Ok tt, w1)
        ∧ from_yaml path w1 = (Ok cfg, w1).
Proof.
  intros [[od Hod] [ld Hld]].
  destruct cfg as [sn dp g pr be cs [n m t mt mc] od' ld']; simpl in *; subst.
  eexists. split; [reflexivity|].
  unfold from_yaml, safe_load, mbind, M_bind; simpl.
  rewrite lookup_insert_eq. unfold lift, BacktestConfig_kwargs.
  cbn -[as_strs]. by rewrite as_strs_fmap.
Qed.

End with_env.

End ConfigFacts.


(** ** Strings: characters, lines and words *)

Module StringFacts.
Import Bash.

Lemma string_forall_app P a b :
  string_forall P (a +:+ b) = string_forall P a && string_forall P b.
Proof.
  induction a as [|c a IH]; simpl; [done|].
  by rewrite IH, andb_assoc.
Qed.

Lemma string_forall_impl (P Q : ascii → bool) s :
  (∀ c, P c = true → Q c = true) →
  string_forall P s = true → string_forall Q s = true.
Proof.
  intros HPQ. induction s as [|c s IH]; [done|].
  cbn [string_forall]. intros [Hc Hs]%andb_prop.
  by rewrite (HPQ _ Hc), IH.
Qed.

Lemma inert_newline_free s : inert s = true → newline_free s = true.
Proof.
  apply string_forall_impl. intros c. unfold special.
  by destruct (is_newline c).
Qed.

(** *** Lines *)

Lemma split_on_app sep l rest :
  string_forall (λ c, negb (Ascii.eqb c sep)) l = true →
  split_on sep (l +:+ String sep rest) = l :: split_on sep rest.
Proof.
  induction l as [|c l IH]; simpl.
  - intros _. by rewrite Ascii.eqb_refl.
  - destruct (Ascii.eqb c sep); simpl; [done|].
    intros Hl. by rewrite IH.
Qed.

Lemma split_on_unlines_cons l ls :
  newline_free l = true →
  split_on "010" (Slurm.unlines (l :: ls))
  = l :: split_on "010" (Slurm.unlines ls).
Proof. intros Hl. simpl. by apply split_on_app. Qed.

(** *** Words *)

Lemma split_on_space_free w :
  space_free w = true → split_on " " w = [w].
Proof.
  unfold space_free, is_space.
  induction w as [|c w IH]; simpl; [done|].
  destruct (Ascii.eqb c " "); simpl; [done|].
  intros Hw. by rewrite IH.
Qed.

Lemma join_cons2 sep w w' ws :
  join sep (w :: w' :: ws) = w +:+ sep +:+ join sep (w' :: ws).
Proof. done. Qed.

Lemma split_on_join w ws :
  Forall (λ w, space_free w = true) (w :: ws) →
  split_on " " (join " " (w :: ws)) = w :: ws.
Proof.
  revert w. induction ws as [|w' ws IH]; intros w Hall.
  - apply split_on_space_free. by inversion Hall.
  - inversion Hall as [|?? Hw Hrest]; subst.
    rewrite join_cons2.
    change (" " +:+ join " " (w' :: ws))
      with (String " " (join " " (w' :: ws))).
    rewrite split_on_app by done. by rewrite IH.
Qed.

(** Joining words with single blanks and splitting them again gives the
    words back, when no word is empty or holds a blank. *)
Lemma words_join ws :
  Forall (λ w, space_free w = true ∧ w ≠ EmptyString) ws →
  words (join " " ws) = ws.
Proof.
  intros Hall. destruct ws as [|w ws]; [done|].
  unfold words. rewrite split_on_join.
  - induction Hall as [|x xs [_ Hx] _ IH]; [done|].
    simpl. destruct (String.eqb_spec x ""); [done|]. simpl. by rewrite IH.
  - eapply Forall_impl; [exact Hall|]. by intros ? [? _].
Qed.

(** *** Decimal numerals *)

Lemma pretty_N_char_digit d : is_digit (pretty_N_char d) = true.
Proof. unfold pretty_N_char. by repeat case_match. Qed.

Lemma pretty_N_go_chars P x : ∀ s,
  (∀ d, P (pretty_N_char d) = true) →
  string_forall P s = true → string_forall P (pretty_N_go x s) = true.
Proof.
  induction (N.lt_wf_0 x) as [x _ IH]; intros s HP Hs.
  destruct (decide (x = 0%N)) as [->|Hx]; [by rewrite pretty_N_go_0|].
  rewrite pretty_N_go_step by lia.
  apply IH; [apply N.div_lt; lia | done |].
  cbn [string_forall]. by rewrite HP, Hs.
Qed.

Lemma pretty_N_go_nonempty x : ∀ s,
  s ≠ EmptyString → pretty_N_go x s ≠ EmptyString.
Proof.
  induction (N.lt_wf_0 x) as [x _ IH]; intros s Hs.
  destruct (decide (x = 0%N)) as [->|Hx]; [by rewrite pretty_N_go_0|].
  rewrite pretty_N_go_step by lia.
  apply IH; [apply N.div_lt; lia | done].
Qed.

Lemma pretty_positive_chars (p : positive) :
  string_forall numeral_char (pretty p) = true ∧ pretty p ≠ EmptyString.
Proof.
  unfold pretty, pretty_positive, pretty, pretty_N.
  case_decide; [done|]. split.
  - apply pretty_N_go_chars; [|done].
    intros d. unfold numeral_char. by rewrite pretty_N_char_digit.
  - rewrite pretty_N_go_step by lia. by apply pretty_N_go_nonempty.
Qed.

(** [str(n)] is a non-empty string of digits, after a minus sign when [n]
    is negative. *)
Lemma str_int_chars n :
  string_forall numeral_char (str_int n) = true ∧ str_int n ≠ EmptyString.
Proof.
  unfold str_int, pretty, pretty_Z. destruct n as [|p|p]; [done| |].
  - apply pretty_positive_chars.
  - destruct (pretty_positive_chars p) as [Hc _]. split; [|done].
    cbn [String.append string_forall]. exact Hc.
Qed.

Lemma numeral_char_plain c : numeral_char c = true → plain c = true.
Proof. destruct c as [[] [] [] [] [] [] [] []]; by vm_compute. Qed.

Lemma plain_not_space c : plain c = true → is_space c = false.
Proof. destruct c as [[] [] [] [] [] [] [] []]; by vm_compute. Qed.

Lemma plain_not_special c : plain c = true → special c = false.
Proof. destruct c as [[] [] [] [] [] [] [] []]; by vm_compute. Qed.

Lemma str_int_plain n : string_forall plain (str_int n) = true.
Proof.
  eapply string_forall_impl; [apply numeral_char_plain|].
  apply str_int_chars.
Qed.

Lemma str_int_space_free n : space_free (str_int n) = true.
Proof.
  eapply string_forall_impl; [|apply str_int_plain].
  intros c Hc. by rewrite plain_not_space.
Qed.

Lemma str_int_inert n : inert (str_int n) = true.
Proof.
  eapply string_forall_impl; [|apply str_int_plain].
  intros c Hc. by rewrite plain_not_special.
Qed.

Lemma str_int_newline_free n : newline_free (str_int n) = true.
Proof. apply inert_newline_free, str_int_inert. Qed.

(** The array literal that the template writes for [years] reads back as
    the decimal numerals of the years, in order. *)
Lemma words_years (years : list Z) :
  words (join " " (str_int <$> years)) = str_int <$> years.
Proof.
  apply words_join, Forall_fmap, Forall_forall. intros y _. simpl.
  split; [apply str_int_space_free | apply str_int_chars].
Qed.

Lemma join_plain_or_space ws :
  Forall (λ w, string_forall plain w = true) ws →
  string_forall (λ c, plain c || is_space c) (join " " ws) = true.
Proof.
  induction 1 as [|w ws Hw Hws IH]; [done|].
  assert (string_forall (λ c, plain c || is_space c) w = true) as Hw'.
  { eapply string_forall_impl; [|exact Hw]. by intros c ->. }
  destruct ws as [|w' ws]; [exact Hw'|].
  rewrite join_cons2, !string_forall_app, Hw'. exact IH.
Qed.

End StringFacts.

(** ** Running the generated script *)

Module ShellFacts.
Import Config Slurm Bash StringFacts.

(** *** One line at a time *)

Lemma exec_unlines_cons l ls sh skipping :
  newline_free l = true →
  exec (split_on "010" (unlines (l :: ls))) sh skipping
  = exec (l :: split_on "010" (unlines ls)) sh skipping.
Proof. intros Hl. by rewrite split_on_unlines_cons. Qed.

Lemma exec_skip l ls sh skipping :
  parse_line l = Skip → exec (l :: ls) sh skipping = exec ls sh skipping.
Proof. intros Hl. cbn [exec]. rewrite Hl. by destruct skipping. Qed.

Lemma exec_echo l ls sh skipping :
  parse_line l = Echo → exec (l :: ls) sh skipping = exec ls sh skipping.
Proof. intros Hl. cbn [exec]. rewrite Hl. by destruct skipping. Qed.

Lemma exec_fi l ls sh skipping :
  parse_line l = Fi → exec (l :: ls) sh skipping = exec ls sh false.
Proof. intros Hl. cbn [exec]. by rewrite Hl. Qed.

Lemma exec_skipped l ls sh :
  parse_line l ≠ Unknown → parse_line l ≠ Fi →
  exec (l :: ls) sh true = exec ls sh true.
Proof. intros H1 H2. cbn [exec]. by destruct (parse_line l). Qed.

Lemma exec_export l name w ls sh :
  parse_line l = Export name w →
  exec (l :: ls) sh false = exec ls (set_var name (VStr w) sh) false.
Proof. intros Hl. cbn [exec]. by rewrite Hl. Qed.

Lemma exec_assign l name w ls sh :
  parse_line l = Assign name w →
  exec (l :: ls) sh false = exec ls (set_var name (VStr w) sh) false.
Proof. intros Hl. cbn [exec]. by rewrite Hl. Qed.

Lemma exec_array_assign l name ws ls sh :
  parse_line l = ArrayAssign name ws →
  exec (l :: ls) sh false
  = exec ls (mkShell (vars sh) (<[name := ws]> (arrays sh))) false.
Proof. intros Hl. cbn [exec]. by rewrite Hl. Qed.

Lemma exec_array_length l name arr ws ls sh :
  parse_line l = ArrayLength name arr →
  arrays sh !! arr = Some ws →
  exec (l :: ls) sh false
  = exec ls (set_var name (VInt (Z.of_nat (length ws))) sh) false.
Proof. intros Hl Harr. cbn [exec]. by rewrite Hl, Harr. Qed.

Lemma exec_array_index l name arr idx i ws ls sh :
  parse_line l = ArrayIndex name arr idx →
  vars sh !! idx = Some (VInt (Z.of_nat i)) →
  arrays sh !! arr = Some ws →
  exec (l :: ls) sh false
  = exec ls (set_var name (VStr (default EmptyString (ws !! i))) sh) false.
Proof.
  intros Hl Hidx Harr. cbn [exec]. rewrite Hl, Hidx, Harr.
  destruct (Z.ltb_spec (Z.of_nat i) 0); [lia|]. by rewrite Nat2Z.id.
Qed.

Lemma exec_if_ge l a b x y ls sh :
  parse_line l = IfGe a b →
  vars sh !! a = Some (VInt x) → vars sh !! b = Some (VInt y) →
  exec (l :: ls) sh false = exec ls sh (negb (y <=? x)%Z).
Proof. intros Hl Ha Hb. cbn [exec]. by rewrite Hl, Ha, Hb. Qed.

Lemma exec_source l p ls sh :
  parse_line l = Source p → exec (l :: ls) sh false = exec ls sh false.
Proof. intros Hl. cbn [exec]. by rewrite Hl. Qed.

Lemma exec_exit l n ls sh :
  parse_line l = Exit n → exec (l :: ls) sh false = ExitStatus n.
Proof. intros Hl. cbn [exec]. by rewrite Hl. Qed.

(** *** The lines of the template *)

Lemma parse_comment s : parse_line (String "#" s) = Skip.
Proof. reflexivity. Qed.

Lemma quoted_body_inert v :
  inert v = true → quoted_body (v +:+ dq) = Some v.
Proof.
  unfold inert. induction v as [|c v IH]; [done|].
  cbn [string_forall]. intros [Hc Hv]%andb_prop.
  apply negb_true_iff in Hc.
  change (String c v +:+ dq) with (String c (v +:+ dq)).
  cbn [quoted_body]. rewrite Hc.
  assert (is_quote c = false) as ->.
  { unfold special in Hc. by destruct (is_newline c), (is_quote c). }
  by rewrite IH.
Qed.

Lemma paren_body_words b :
  string_forall (λ c, plain c || is_space c) b = true →
  paren_body (b +:+ ")") = Some b.
Proof.
  induction b as [|c b IH]; [done|].
  cbn [string_forall]. intros [Hc Hb]%andb_prop.
  change (String c b +:+ ")") with (String c (b +:+ ")")).
  cbn [paren_body]. rewrite Hc, IH by done.
  assert (Ascii.eqb c ")" = false) as ->; [|done].
  destruct (Ascii.eqb_spec c ")") as [->|]; [done | done].
Qed.

Lemma parse_years_literal (years : list Z) :
  parse_line ("years=(" +:+ join " " (str_int <$> years) +:+ ")")
  = ArrayAssign "years" (str_int <$> years).
Proof.
  assert (paren_body (join " " (str_int <$> years) +:+ ")")
          = Some (join " " (str_int <$> years))) as Hbody.
  { apply paren_body_words, join_plain_or_space, Forall_fmap, Forall_forall.
    intros y _. apply str_int_plain. }
  revert Hbody. generalize (join " " (str_int <$> years) +:+ ")").
  intros body Hbody. cbv -[paren_body words join str_int fmap].
  rewrite Hbody. by rewrite words_years.
Qed.

(** A quoted assignment of inert text to a name of the template. *)
Ltac parse_quoted :=
  let Hv := fresh "Hv" in
  intros Hv; apply quoted_body_inert in Hv; revert Hv;
  match goal with
  | |- quoted_body ?tail = _ → _ =>
      generalize tail; intros ? Hv; cbv -[quoted_body]; by rewrite Hv
  end.

Lemma parse_assign_DATA_PATH v :
  inert v = true →
  parse_line ("DATA_PATH=" +:+ dq +:+ v +:+ dq) = Assign "DATA_PATH" v.
Proof. parse_quoted. Qed.

Lemma parse_assign_OUTPUT_DIR v :
  inert v = true →
  parse_line ("OUTPUT_DIR=" +:+ dq +:+ v +:+ dq) = Assign "OUTPUT_DIR" v.
Proof. parse_quoted. Qed.

Lemma parse_assign_GAMMA v :
  inert v = true →
  parse_line ("GAMMA=" +:+ dq +:+ v +:+ dq) = Assign "GAMMA" v.
Proof. parse_quoted. Qed.

Lemma parse_assign_N_CPUS v :
  inert v = true →
  parse_line ("N_CPUS=" +:+ dq +:+ v +:+ dq) = Assign "N_CPUS" v.
Proof. parse_quoted. Qed.

Lemma parse_assign_CONSTRAINTS v :
  inert v = true →
  parse_line ("CONSTRAINTS=" +:+ dq +:+ v +:+ dq) = Assign "CONSTRAINTS" v.
Proof. parse_quoted. Qed.

(** *** The block that maps a task index to a year *)

Lemma newline_free_app a b :
  newline_free (a +:+ b) = newline_free a && newline_free b.
Proof. apply string_forall_app. Qed.

Lemma years_literal_newline_free (years : list Z) :
  newline_free ("years=(" +:+ join " " (str_int <$> years) +:+ ")") = true.
Proof.
  rewrite !newline_free_app.
  assert (newline_free (join " " (str_int <$> years)) = true) as ->; [|done].
  eapply string_forall_impl;
    [|apply join_plain_or_space, Forall_fmap, Forall_forall;
      intros y _; apply str_int_plain].
  intros c Hc. destruct c as [[] [] [] [] [] [] [] []]; by vm_compute.
Qed.

Ltac step lem :=
  rewrite exec_unlines_cons by (first [reflexivity | assumption]);
  rewrite lem by (first [reflexivity | eassumption]).

(** From the array literal on, a task whose index is not below the number
    of years leaves through [exit 1]. *)
Lemma guard_exits (years : list Z) rest sh t :
  vars sh !! "SLURM_ARRAY_TASK_ID" = Some (VInt t) →
  (Z.of_nat (length years) ≤ t)%Z →
  exec (split_on "010" (unlines (guarded years rest))) sh false = ExitStatus 1.
Proof.
  intros Hid Hge. unfold guarded.
  rewrite exec_unlines_cons by apply years_literal_newline_free.
  rewrite (exec_array_assign _ _ _ _ _ (parse_years_literal years)).
  step exec_skip.
  rewrite exec_unlines_cons by reflexivity.
  erewrite exec_array_length;
    [|reflexivity|cbn [arrays]; apply lookup_insert_eq].
  step exec_skip.
  rewrite exec_unlines_cons by reflexivity.
  erewrite exec_if_ge; [|reflexivity|..].
  2:{ cbn [vars set_var]. rewrite lookup_insert_ne by done. exact Hid. }
  2:{ cbn [vars set_var]. apply lookup_insert_eq. }
  rewrite length_fmap.
  destruct (Z.leb_spec (Z.of_nat (length years)) t) as [_|]; [|lia].
  cbn [negb].
  step exec_echo.
  rewrite exec_unlines_cons by reflexivity.
  by rewrite (exec_exit _ 1).
Qed.

(** *** The whole script *)

(** A line is free of line breaks when its parts are. *)
Ltac nl_free :=
  rewrite ?newline_free_app;
  repeat match goal with
         | H : newline_free ?x = true |- context [newline_free ?x] =>
             rewrite H
         | H : ∀ n, newline_free (str_int n) = true |- _ =>
             rewrite !H
         end;
  reflexivity.

Section with_env.
Context `{Env}.

Lemma generate_sbatch_script_rendered {Y} `{Str Y} c (years : list Y) w :
  generate_sbatch_script c years w
  = (Ok (rendered c years),
     mkWorld (files w) (dirs w) (stdout w) (calls w) (S (lookups w))).
Proof. reflexivity. Qed.

Lemma append_assoc (a b c : string) : (a +:+ b) +:+ c = a +:+ (b +:+ c).
Proof.
  induction a as [|x a IH]; [done|].
  change (String x ((a +:+ b) +:+ c) = String x (a +:+ (b +:+ c))).
  by rewrite IH.
Qed.

Lemma unlines_app a b : unlines (a ++ b) = unlines a +:+ unlines b.
Proof.
  induction a as [|l a IH]; [done|].
  cbn [app unlines]. by rewrite IH, !append_assoc.
Qed.

(** The script of a [guard_safe] configuration, run as a task whose index
    is not below the number of years, leaves through [exit 1]. *)
Lemma rendered_guard_exits c (years : list Z) t :
  guard_safe c = true →
  (Z.of_nat (length years) ≤ t)%Z →
  run_script (rendered c years) t = ExitStatus 1.
Proof.
  unfold guard_safe. rewrite !andb_true_iff.
  intros [[[[[[[[[Hsn Hld] Hmem] Htime] Hmail] Hmt] Hdp] Hod] Hg] Hcs] Hge.
  pose proof (str_int_newline_free) as Hint.
  pose proof (inert_newline_free _ Hdp) as Hdp'.
  pose proof (inert_newline_free _ Hod) as Hod'.
  pose proof (inert_newline_free _ Hg) as Hg'.
  pose proof (inert_newline_free _ Hcs) as Hcs'.
  unfold run_script, rendered, sbatch_lines.
  do 10 (rewrite exec_unlines_cons by nl_free;
         rewrite exec_skip by reflexivity).
  step exec_skip.
  rewrite exec_unlines_cons by reflexivity.
  erewrite exec_export by reflexivity.
  step exec_skip.
  rewrite exec_unlines_cons by nl_free.
  rewrite (exec_assign _ _ _ _ _ (parse_assign_DATA_PATH _ Hdp)).
  rewrite exec_unlines_cons by nl_free.
  rewrite (exec_assign _ _ _ _ _ (parse_assign_OUTPUT_DIR _ Hod)).
  rewrite exec_unlines_cons by nl_free.
  rewrite (exec_assign _ _ _ _ _ (parse_assign_GAMMA _ Hg)).
  rewrite exec_unlines_cons by nl_free.
  rewrite (exec_assign _ _ _ _ _ (parse_assign_N_CPUS _ (str_int_inert _))).
  rewrite exec_unlines_cons by nl_free.
  rewrite (exec_assign _ _ _ _ _ (parse_assign_CONSTRAINTS _ Hcs)).
  step exec_skip.
  step exec_skip.
  apply (guard_exits years _ _ t); [|exact Hge].
  cbn [vars set_var task_shell]. rewrite !lookup_insert_ne by done.
  apply lookup_singleton_eq.
Qed.

Lemma parse_source p :
  plain_word p = true → parse_line ("source " +:+ p) = Source p.
Proof.
  revert p. intros p Hp.
  cbv -[plain_word]. by rewrite Hp.
Qed.

(** *** The command of [srun] *)

Lemma continued_backslash a : continued (a +:+ "\") = Some a.
Proof.
  induction a as [|c a IH]; [done|].
  change (String c a +:+ "\") with (String c (a +:+ "\")).
  destruct a as [|d a]; [done|].
  change (String d a +:+ "\") with (String d (a +:+ "\")) in *.
  cbn [continued] in *. by rewrite IH.
Qed.

Lemma command_text_backslash a l ls :
  command_text (a +:+ "\") (l :: ls) = a +:+ command_text l ls.
Proof. cbn [command_text]. by rewrite continued_backslash. Qed.

Lemma parse_srun r : parse_line ("srun " +:+ r) = Srun r.
Proof. reflexivity. Qed.

Lemma exec_srun l r ls sh argv :
  parse_line l = Srun r →
  expand_words sh (words (command_text r ls)) = Some argv →
  exec (l :: ls) sh false = Worker argv.
Proof. intros Hl Hargv. cbn [exec]. by rewrite Hl, Hargv. Qed.

Lemma plain_not_quote c : plain c = true → is_quote c = false.
Proof. destruct c as [[] [] [] [] [] [] [] []]; by vm_compute. Qed.

Lemma plain_not_dollar c : plain c = true → Ascii.eqb c "$" = false.
Proof. destruct c as [[] [] [] [] [] [] [] []]; by vm_compute. Qed.

Lemma expand_word_plain sh w :
  plain_word w = true → expand_word sh w = Some [w].
Proof.
  intros Hw. unfold expand_word.
  destruct w as [|q [|d r]]; [by rewrite Hw..|].
  assert (plain q = true) as Hq.
  { unfold plain_word in Hw. apply andb_prop in Hw as [_ Hw].
    cbn [string_forall] in Hw. by apply andb_prop in Hw as [? _]. }
  rewrite (plain_not_quote _ Hq), (plain_not_dollar _ Hq).
  cbn [andb]. by rewrite Hw.
Qed.

Lemma expand_words_cons sh w ws a :
  expand_word sh w = Some a →
  expand_words sh (w :: ws) = (a ++.) <$> expand_words sh ws.
Proof. intros Hw. cbn [expand_words]. rewrite Hw. done. Qed.

Lemma plain_word_space_free w : plain_word w = true → space_free w = true.
Proof.
  intros [_ Hw]%andb_prop. eapply string_forall_impl; [|exact Hw].
  intros c Hc. by rewrite plain_not_space.
Qed.

Lemma plain_word_newline_free w :
  plain_word w = true → newline_free w = true.
Proof.
  intros [_ Hw]%andb_prop. eapply string_forall_impl; [|exact Hw].
  intros c Hc. destruct c as [[] [] [] [] [] [] [] []]; by vm_compute.
Qed.

(** The last seven lines of the template, run in a shell that holds the
    variables: [srun] is given the worker's command, each quoted variable
    as one word and the constraints split at blanks. *)
Lemma exec_srun_lines sh worker :
  plain_word worker = true →
  string_forall (λ c, plain c || is_space c) (var_text sh "CONSTRAINTS")
  = true →
  exec
    (split_on "010"
       (unlines [
          "srun python " +:+ worker +:+ " \";
          "    --data_path " +:+ dq +:+ "$DATA_PATH" +:+ dq +:+ " \";
          "    --gamma " +:+ dq +:+ "$GAMMA" +:+ dq +:+ " \";
          "    --year " +:+ dq +:+ "$year" +:+ dq +:+ " \";
          "    --output_dir " +:+ dq +:+ "$OUTPUT_DIR" +:+ dq +:+ " \";
          "    --n_cpus " +:+ dq +:+ "$N_CPUS" +:+ dq +:+ " \";
          "    --constraints $CONSTRAINTS"]))
    sh false
  = Worker
      (["python"; worker;
        "--data_path"; var_text sh "DATA_PATH";
        "--gamma"; var_text sh "GAMMA";
        "--year"; var_text sh "year";
        "--output_dir"; var_text sh "OUTPUT_DIR";
        "--n_cpus"; var_text sh "N_CPUS";
        "--constraints"] ++ words (var_text sh "CONSTRAINTS")).
Proof.
  intros Hworker Hcs.
  pose proof (plain_word_newline_free _ Hworker) as Hnl.
  pose proof (plain_word_space_free _ Hworker) as Hsp.
  rewrite exec_unlines_cons by nl_free.
  match goal with
  | |- exec (_ :: split_on "010" ?t) _ _ = _ =>
      let ls := eval vm_compute in (split_on "010" t) in
      change (split_on "010" t) with ls
  end.
  eapply (exec_srun _ (("python " +:+ worker +:+ " ") +:+ "\"));
    [rewrite !append_assoc; apply parse_srun|].
  rewrite command_text_backslash.
  match goal with
  | |- context [command_text ?l ?ls] =>
      let t := eval vm_compute in (command_text l ls) in
      change (command_text l ls) with t
  end.
  rewrite !append_assoc.
  change ("python " +:+ worker +:+ " " +:+ ?t)
    with ("python" +:+ String " " (worker +:+ String " " t)).
  unfold words. rewrite split_on_app by reflexivity.
  rewrite split_on_app by exact Hsp.
  match goal with
  | |- context [split_on " " ?t] =>
      let ws := eval vm_compute in (split_on " " t) in
      change (split_on " " t) with ws
  end.
  cbn [List.filter String.eqb Ascii.eqb Bool.eqb negb].
  assert (String.eqb worker "" = false) as ->.
  { destruct worker; [done|reflexivity]. }
  cbn [negb].
  assert (expand_word sh "$CONSTRAINTS"
          = Some (words (var_text sh "CONSTRAINTS"))) as Hlast.
  { change (expand_word sh "$CONSTRAINTS")
      with (if string_forall (λ c, plain c || is_space c)
                 (var_text sh "CONSTRAINTS")
            then Some (words (var_text sh "CONSTRAINTS")) else None).
    by rewrite Hcs. }
  repeat match goal with
         | |- context [expand_words sh (?w :: ?ws)] =>
             first
               [ rewrite (expand_words_cons sh w ws [w])
                   by (by apply expand_word_plain)
               | rewrite (expand_words_cons sh w ws _ Hlast)
               | erewrite (expand_words_cons sh w ws) by reflexivity ]
         end.
  cbn [expand_words fmap option_fmap option_map app].
  by rewrite app_nil_r.
Qed.

(** The first thirty lines of the script, through the line that looks the
    year up. *)
Lemma rendered_split c (years : list Z) :
  let ls :=
    sbatch_lines c (Z.of_nat (length years)) (join " " (str_int <$> years))
      (join " " (constraints c)) worker_script in
  rendered c years = unlines (take 30 ls) +:+ unlines (drop 30 ls).
Proof. intros ls. by rewrite <- unlines_app, take_drop. Qed.

(** The script of a [guard_safe] configuration, run as task [i] for an
    index in range, comes through its first thirty lines with every
    variable of the template set and [year] holding the year at that
    index. *)
Lemma rendered_setup c (years : list Z) (i : nat) (y : Z) :
  guard_safe c = true →
  years !! i = Some y →
  ∃ sh,
    (∀ rest,
       exec
         (split_on "010"
            (unlines
               (take 30
                  (sbatch_lines c (Z.of_nat (length years))
                     (join " " (str_int <$> years))
                     (join " " (constraints c)) worker_script)
                ++ rest)))
         (task_shell (Z.of_nat i)) false
       = exec (split_on "010" (unlines rest)) sh false)
    ∧ arrays sh !! "years" = Some (str_int <$> years)
    ∧ var_text sh "year" = str_int y
    ∧ vars sh !! "year" = Some (VStr (str_int y))
    ∧ var_text sh "DATA_PATH" = data_path c
    ∧ var_text sh "OUTPUT_DIR" = format_opt (output_dir c)
    ∧ var_text sh "GAMMA" = float_repr (gamma c)
    ∧ var_text sh "N_CPUS" = str_int (n_cpus (slurm c))
    ∧ var_text sh "CONSTRAINTS" = join " " (constraints c).
Proof.
  unfold guard_safe. rewrite !andb_true_iff.
  intros [[[[[[[[[Hsn Hld] Hmem] Htime] Hmail] Hmt] Hdp] Hod] Hg] Hcs].
  intros Hy.
  pose proof (lookup_lt_Some _ _ _ Hy) as Hlt.
  pose proof (str_int_newline_free) as Hint.
  pose proof (inert_newline_free _ Hdp) as Hdp'.
  pose proof (inert_newline_free _ Hod) as Hod'.
  pose proof (inert_newline_free _ Hg) as Hg'.
  pose proof (inert_newline_free _ Hcs) as Hcs'.
  eexists. split; [|].
  - intros rest. unfold sbatch_lines. cbn [take app].
    do 10 (rewrite exec_unlines_cons by nl_free;
           rewrite exec_skip by reflexivity).
    step exec_skip.
    rewrite exec_unlines_cons by reflexivity.
    erewrite exec_export by reflexivity.
    step exec_skip.
    rewrite exec_unlines_cons by nl_free.
    rewrite (exec_assign _ _ _ _ _ (parse_assign_DATA_PATH _ Hdp)).
    rewrite exec_unlines_cons by nl_free.
    rewrite (exec_assign _ _ _ _ _ (parse_assign_OUTPUT_DIR _ Hod)).
    rewrite exec_unlines_cons by nl_free.
    rewrite (exec_assign _ _ _ _ _ (parse_assign_GAMMA _ Hg)).
    rewrite exec_unlines_cons by nl_free.
    rewrite (exec_assign _ _ _ _ _
               (parse_assign_N_CPUS _ (str_int_inert _))).
    rewrite exec_unlines_cons by nl_free.
    rewrite (exec_assign _ _ _ _ _ (parse_assign_CONSTRAINTS _ Hcs)).
    step exec_skip.
    step exec_skip.
    rewrite exec_unlines_cons by apply years_literal_newline_free.
    rewrite (exec_array_assign _ _ _ _ _ (parse_years_literal years)).
    step exec_skip.
    rewrite exec_unlines_cons by reflexivity.
    erewrite exec_array_length;
      [|reflexivity|cbn [arrays]; apply lookup_insert_eq].
    step exec_skip.
    rewrite exec_unlines_cons by reflexivity.
    erewrite exec_if_ge; [|reflexivity|..].
    2:{ cbn [vars set_var task_shell]. rewrite !lookup_insert_ne by done.
        apply lookup_singleton_eq. }
    2:{ cbn [vars set_var]. apply lookup_insert_eq. }
    rewrite length_fmap.
    destruct (Z.leb_spec (Z.of_nat (length years)) (Z.of_nat i)) as [|_];
      [lia|].
    cbn [negb].
    rewrite exec_unlines_cons by reflexivity.
    rewrite exec_skipped by (by vm_compute).
    rewrite exec_unlines_cons by reflexivity.
    rewrite exec_skipped by (by vm_compute).
    step exec_fi.
    step exec_skip.
    rewrite exec_unlines_cons by reflexivity.
    erewrite exec_array_index; [|reflexivity|..].
    2:{ cbn [vars set_var task_shell]. rewrite !lookup_insert_ne by done.
        apply lookup_singleton_eq. }
    2:{ cbn [arrays set_var]. apply lookup_insert_eq. }
    rewrite list_lookup_fmap, Hy. cbn [fmap option_fmap option_map default].
    reflexivity.
  - unfold var_text. cbn [vars arrays set_var].
    rewrite ?lookup_insert_eq.
    repeat (rewrite lookup_insert_ne by done; rewrite ?lookup_insert_eq).
    by split_and!.
Qed.

(** The script of a configuration that is [guard_safe], whose [activate]
    path and worker path are plain words and whose constraints are plain
    words and blanks, run as task [i] for an index in range, hands [srun]
    the worker's command with the year at that index. *)
Lemma rendered_in_range_starts_worker c (years : list Z) (i : nat) (y : Z) :
  guard_safe c = true →
  plain_word (project_root c +:+ "/.venv/bin/activate") = true →
  plain_word worker_script = true →
  string_forall (λ ch, plain ch || is_space ch) (join " " (constraints c))
  = true →
  years !! i = Some y →
  run_script (rendered c years) (Z.of_nat i)
  = Worker
      (["python"; worker_script;
        "--data_path"; data_path c;
        "--gamma"; float_repr (gamma c);
        "--year"; str_int y;
        "--output_dir"; format_opt (output_dir c);
        "--n_cpus"; str_int (n_cpus (slurm c));
        "--constraints"] ++ words (join " " (constraints c))).
Proof.
  intros Hsafe Hroot Hworker Hcs Hy.
  destruct (rendered_setup c years i y Hsafe Hy)
    as (sh & Hrun & _ & Hyear & _ & Hdp & Hod & Hg & Hn & Hc).
  pose proof (plain_word_newline_free _ Hroot) as Hroot'.
  unfold run_script. rewrite rendered_split. rewrite <- unlines_app.
  rewrite Hrun. unfold sbatch_lines. cbn [drop].
  step exec_skip.
  rewrite exec_unlines_cons by exact Hroot'.
  rewrite (exec_source _ _ _ _ (parse_source _ Hroot)).
  step exec_echo.
  rewrite exec_srun_lines; [|exact Hworker|by rewrite Hc].
  by rewrite Hyear, Hdp, Hod, Hg, Hn, Hc.
Qed.

End with_env.

End ShellFacts.

(** ** The script generator *)

Module GeneratorFacts.
Import Config Slurm Bash Vocabulary StringFacts ShellFacts Stub.

Section with_env.
Context `{Env}.

(** C5. For every configuration and every non-empty list of [N] years,
    the script starts with the four lines before the array directive and
    goes on with the line [#SBATCH --array=0-(N-1)%max_concurrent_jobs]:
    the range starts at 0, its upper bound is the numeral of [N - 1], which
    is not negative, and the throttle is the configured
    [max_concurrent_jobs]; for three years the range is [0-2]. *)
Theorem array_directive_spans_the_partitions
    (c : BacktestConfig) (y : Z) (ys : list Z) (w : World) :
  let years := y :: ys in
  let N := Z.of_nat (length years) in
  (0 ≤ N - 1)%Z
  ∧ (∃ rest,
       fst (generate_sbatch_script c years w)
       = Ok (script_head c
             +:+ "#SBATCH --array=0-" +:+ str_int (N - 1) +:+ "%"
             +:+ str_int (max_concurrent_jobs (slurm c)) +:+ nl +:+ rest))
  ∧ (∀ y1 y2 y3 : Z, ∃ rest,
       fst (generate_sbatch_script c [y1; y2; y3] w)
       = Ok (script_head c
             +:+ "#SBATCH --array=0-2%"
             +:+ str_int (max_concurrent_jobs (slurm c)) +:+ nl +:+ rest)).
Proof.
  intros years N. split; [subst N years; cbn [length]; lia|].
  split; [|intros y1 y2 y3]; eexists;
    rewrite generate_sbatch_script_rendered; cbn [fst]; f_equal;
    unfold rendered, sbatch_lines, script_head;
    match goal with
    | |- unlines (?a :: ?b :: ?c :: ?d :: ?rest) = _ =>
        change (unlines (a :: b :: c :: d :: rest))
          with (unlines ([a; b; c; d] ++ rest));
        rewrite (unlines_app [a; b; c; d] rest)
    end;
    f_equal; cbn [unlines]; rewrite ?append_assoc; reflexivity.
Qed.

(** C6, as the code has it.  For every configuration that is [guard_safe]
    (no line break in the fields written into the directives, and no line
    break, double quote, dollar sign, backquote or backslash in the values
    written between double quotes), every list of years and every index
    [i] of the list: rendering gives the same script in every world; the
    script, run as task [i] from its first line through the line
    [year=${years[$SLURM_ARRAY_TASK_ID]}], comes through with the array
    [years] holding the numerals of the years in their order and [year]
    holding the numeral of [years[i]], which no other year has; and when
    the rest of the script is within the shell fragment (the [activate]
    path and the worker path plain words, the constraints plain words and
    blanks), the whole script hands [srun] the worker's command with
    [--year] followed by that numeral. *)
Theorem task_index_resolves_to_its_partition
    (c : BacktestConfig) (years : list Z) (i : nat) (y : Z) (w w' : World) :
  guard_safe c = true →
  years !! i = Some y →
  ∃ script pre post sh,
    fst (generate_sbatch_script c years w) = Ok script
    ∧ fst (generate_sbatch_script c years w') = Ok script
    ∧ script
      = pre +:+ "year=${years[$SLURM_ARRAY_TASK_ID]}" +:+ nl +:+ post
    ∧ run_script (pre +:+ "year=${years[$SLURM_ARRAY_TASK_ID]}" +:+ nl)
        (Z.of_nat i) = Finished sh
    ∧ arrays sh !! "years" = Some (str_int <$> years)
    ∧ vars sh !! "year" = Some (VStr (str_int y))
    ∧ (∀ y' : Z, str_int y' = str_int y → y' = y)
    ∧ (plain_word (project_root c +:+ "/.venv/bin/activate") = true →
       plain_word worker_script = true →
       plain_words (join " " (constraints c)) = true →
       run_script script (Z.of_nat i)
       = Worker (worker_command c (str_int y)
                   (words (join " " (constraints c))))).
Proof.
  intros Hsafe Hy.
  destruct (rendered_setup c years i y Hsafe Hy)
    as (sh & Hrun & Harr & _ & Hyear & _).
  pose proof (rendered_split c years) as Hsplit. cbv zeta in Hsplit.
  revert Hrun Hsplit.
  set (ls := sbatch_lines c (Z.of_nat (length years))
               (join " " (str_int <$> years)) (join " " (constraints c))
               worker_script).
  intros Hrun Hsplit.
  assert (unlines (take 30 ls)
          = unlines (take 29 ls)
            +:+ "year=${years[$SLURM_ARRAY_TASK_ID]}" +:+ nl) as Hpre.
  { change (take 30 ls)
      with (take 29 ls ++ ["year=${years[$SLURM_ARRAY_TASK_ID]}"]).
    by rewrite unlines_app. }
  exists (rendered c years), (unlines (take 29 ls)), (unlines (drop 30 ls)),
    sh.
  split_and!.
  - reflexivity.
  - reflexivity.
  - by rewrite Hsplit, Hpre, !append_assoc.
  - rewrite <- Hpre. unfold run_script.
    rewrite <- (app_nil_r (take 30 ls)). by rewrite Hrun.
  - exact Harr.
  - exact Hyear.
  - intros y'. apply (inj pretty).
  - intros Hroot Hworker Hcs.
    by apply rendered_in_range_starts_worker.
Qed.

(** C8, as the code has it.  For every configuration that is [guard_safe]
    (no line break in the fields written into the directives, and no line
    break, double quote, dollar sign, backquote or backslash in the values
    written between double quotes) and every list of [N] years: the script,
    run as a task whose index is at least [N], leaves through [exit 1]; the
    worker is not started. *)
Theorem guard_stops_out_of_range_task
    (c : BacktestConfig) (years : list Z) (task_id : Z) (w : World) :
  guard_safe c = true →
  (Z.of_nat (length years) ≤ task_id)%Z →
  ∃ script,
    fst (generate_sbatch_script c years w) = Ok script
    ∧ run_script script task_id = ExitStatus 1.
Proof.
  intros Hsafe Hge. exists (rendered c years). split; [reflexivity|].
  by apply rendered_guard_exits.
Qed.

(** The cleanup of [submit_job] succeeds and leaves no file at the path,
    whatever the command did to it. *)
Lemma cleanup_removes (p : string) (w1 : World) :
  p ∉ dirs w1 →
  ∃ w2,
    (path_exists p ≫= λ there : bool,
       if there then unlink p else mret tt) w1 = (Ok tt, w2)
    ∧ files w2 !! p = None
    ∧ calls w2 = calls w1.
Proof.
  intros Hdir. rewrite MonadFacts.bind_run. unfold path_exists, unlink, set_files.
  rewrite (bool_decide_false (p ∈ dirs w1)) by done.
  rewrite orb_false_r.
  destruct (files w1 !! p) as [x|] eqn:Hp.
  - rewrite bool_decide_true by eauto. rewrite Hp.
    eexists. split; [reflexivity|]. split; [apply lookup_delete_eq | done].
  - rewrite bool_decide_false by (by intros [x Hx]).
    eexists. split; [reflexivity|]. by split.
Qed.

(** C3. For every script text, [submit_job] without [dry_run] runs
    [sbatch] once on the temporary script and
    - when [sbatch] exits with a non-zero status, raises
      [CalledProcessError] with that status and with the captured standard
      error, unchanged;
    - when [sbatch] cannot be started, raises the error of the attempt;
    - when [sbatch] exits with status 0, returns the completed process;
    and on each of these paths the temporary script is gone afterwards. *)
Theorem submit_job_reports_failure_and_removes_script
    (script : string) (w : World) :
  let script_path := temp_name (files w) (dirs w) in
  let argv := ["sbatch"; script_path] in
  let outcome :=
    fst (spawn argv (<[script_path := Text script]> (files w))) in
  let '(r, w') := submit_job script false w in
  files w' !! script_path = None
  ∧ calls w' = calls w ++ [argv]
  ∧ (∀ rc out err, outcome = Exited rc out err → rc ≠ 0%Z →
       r = Err (CalledProcessError rc argv out err))
  ∧ (∀ e, outcome = SpawnFailed e → r = Err e)
  ∧ (∀ out err, outcome = Exited 0 out err →
       r = Ok (Some (mkCompleted argv 0 out err))).
Proof.
  intros script_path argv outcome.
  destruct (temp_name_fresh (files w) (dirs w)) as [_ Hdir].
  fold script_path in Hdir.
  unfold submit_job. rewrite MonadFacts.bind_run.
  unfold write_temp_script, write_file. rewrite MonadFacts.bind_run.
  unfold get_files, set_files. cbn [files dirs stdout calls lookups].
  fold script_path. fold argv.
  set (w1 := mkWorld (<[script_path:=Text script]> (files w)) (dirs w)
               (stdout w) (calls w) (lookups w)).
  destruct (subprocess_run argv w1) as [r1 w2] eqn:Hrun.
  assert (calls w2 = calls w ++ [argv] ∧ dirs w2 = dirs w) as [Hcalls Hdirs].
  { revert Hrun. unfold subprocess_run.
    destruct (spawn argv (files w1)) as [[rc out err|e] fs']; [|by intros [= <- <-]].
    by destruct (rc =? 0)%Z; intros [= <- <-]. }
  destruct (cleanup_removes script_path w2) as (w3 & Hclean & Hgone & Hsame);
    [by rewrite Hdirs|].
  rewrite (MonadFacts.try_finally_ok _ _ w1
             (match r1 with Ok a => Ok (Some a) | Err e => Err e end) w2 w3);
    [|rewrite MonadFacts.bind_run, Hrun; by destruct r1|exact Hclean].
  split; [exact Hgone|]. split; [by rewrite Hsame|].
  revert Hrun. unfold subprocess_run. subst outcome. cbn [files w1].
  destruct (spawn argv (<[script_path:=Text script]> (files w)))
    as [[rc out err|e] fs']; cbn [fst].
  - destruct (Z.eqb_spec rc 0) as [->|Hrc]; intros [= <- _];
      split_and!; intros; by simplify_eq.
  - intros [= <- _]. split_and!; intros; by simplify_eq.
Qed.

(** C4, as the code has it.  For every script text, [submit_job] with
    [dry_run] prints the banner and the script text, unchanged, to standard
    output and returns [None]; it runs no command and touches no file. *)
Theorem submit_job_dry_run_prints_without_submitting
    (script : string) (w : World) :
  submit_job script true w
  = (Ok None,
     mkWorld (files w) (dirs w)
       (stdout w
        ++ [str_mul "=" 60; "DRY RUN - Would submit the following script:";
            str_mul "=" 60; script; str_mul "=" 60])
       (calls w) (lookups w)).
Proof.
  cbv [submit_job mbind M_bind mret M_ret print files dirs stdout calls
       lookups].
  by rewrite <- !app_assoc.
Qed.

End with_env.

(** C8: a line break in the notification address ends the [#SBATCH]
    comment; what follows it is a command.  In the script of this
    configuration it is [exit 0], which every task runs before it reaches
    the guard: a task with index 5, for two years, leaves with status 0. *)
Lemma guard_not_reached_after_line_break :
  let years := [2020; 2021]%Z in
  (Z.of_nat (length years) ≤ 5)%Z
  ∧ ∃ script,
      fst (generate_sbatch_script (H := stub_env) alpha_two_line_email years
             empty_world) = Ok script
      ∧ run_script script 5 = ExitStatus 0.
Proof.
  split; [by vm_compute|]. eexists. split; [reflexivity|]. by vm_compute.
Qed.

(** C6: with the same line break in the notification address, the tasks
    of the range run [exit 0] before they reach the array of years: tasks 0
    and 1, for the two years 2020 and 2021, leave with status 0; no year
    is looked up and the worker is not started. *)
Lemma year_not_resolved_after_line_break :
  let years := [2020; 2021]%Z in
  years !! 0%nat = Some 2020%Z
  ∧ years !! 1%nat = Some 2021%Z
  ∧ ∃ script,
      fst (generate_sbatch_script (H := stub_env) alpha_two_line_email years
             empty_world) = Ok script
      ∧ run_script script 0 = ExitStatus 0
      ∧ run_script script 1 = ExitStatus 0.
Proof.
  split; [done|]. split; [done|].
  eexists. split; [reflexivity|]. by vm_compute.
Qed.

(** C4: the value that a dry run returns is the same for two different
    scripts, so no script text can be read off it. *)
Lemma dry_run_result_carries_no_script :
  ¬ ∃ text_of : result (option CompletedProcess) → string,
      ∀ script,
        text_of (fst (submit_job (H := stub_env) script true empty_world))
        = script.
Proof.
  intros [text_of Htext].
  pose proof (Htext "echo a") as Ha. pose proof (Htext "echo b") as Hb.
  vm_compute in Ha, Hb. congruence.
Qed.

End GeneratorFacts.

(** ** The partitioner and the runner *)

Module RunnerFacts.
Import Config Slurm Runner Stub Fixtures.

Lemma Sorted_le_NoDup_lt (l : list Z) :
  Sorted Z.le l → NoDup l → Sorted Z.lt l.
Proof.
  induction 1 as [|x l Hsorted IH Hhd]; intros Hnodup; [constructor|].
  apply NoDup_cons in Hnodup as [Hx Hl].
  constructor; [by apply IH|].
  destruct Hhd as [|y l' Hxy]; constructor.
  assert (x ≠ y) by (intros ->; apply Hx; left).
  lia.
Qed.

(** *** The order of the years *)

#[global] Instance year_le_total : Total year_le.
Proof. intros [x|] [y|]; cbn; [lia|tauto..]. Qed.

#[global] Instance year_le_trans : Transitive year_le.
Proof. intros [x|] [y|] [z|]; cbn; first [lia|tauto]. Qed.

#[global] Instance year_le_antisymm : AntiSymm (=) year_le.
Proof. intros [x|] [y|]; cbn; intros; try done. f_equal. lia. Qed.

Lemma get_years_of_dates data ds :
  column "date" data = Some (DateSeries ds) →
  get_years data = Ok (merge_sort year_le (remove_dups (dt_year <$> ds))).
Proof. intros Hcol. unfold get_years. by rewrite Hcol. Qed.

Lemma elem_of_sorted_years (ys : list (option Z)) y :
  y ∈ merge_sort year_le (remove_dups ys) ↔ y ∈ ys.
Proof. by rewrite merge_sort_Permutation, elem_of_remove_dups. Qed.

Lemma NoDup_sorted_years (ys : list (option Z)) :
  NoDup (merge_sort year_le (remove_dups ys)).
Proof. rewrite merge_sort_Permutation. apply NoDup_remove_dups. Qed.

(** Two lists with the same entries are sorted into the same list. *)
Lemma sorted_years_ext (ys ys' : list (option Z)) :
  (∀ y, y ∈ ys ↔ y ∈ ys') →
  merge_sort year_le (remove_dups ys) = merge_sort year_le (remove_dups ys').
Proof.
  intros Hsame. apply (Sorted_unique year_le).
  - apply (Sorted_merge_sort year_le).
  - apply (Sorted_merge_sort year_le).
  - apply NoDup_Permutation; [apply NoDup_sorted_years..|].
    intros y. by rewrite !elem_of_sorted_years.
Qed.

(** Without a null, the years are sorted as integers are. *)
Lemma sorted_years_Some (ys : list Z) :
  merge_sort year_le (remove_dups (Some <$> ys))
  = Some <$> merge_sort Z.le (remove_dups ys).
Proof.
  apply (Sorted_unique year_le).
  - apply (Sorted_merge_sort year_le).
  - apply (Sorted_fmap _ Z.le); [done|]. apply (Sorted_merge_sort Z.le).
  - apply NoDup_Permutation.
    + apply NoDup_sorted_years.
    + apply (NoDup_fmap_2 _). rewrite merge_sort_Permutation.
      apply NoDup_remove_dups.
    + intros y. rewrite elem_of_sorted_years, !list_elem_of_fmap.
      by setoid_rewrite merge_sort_Permutation;
        setoid_rewrite elem_of_remove_dups.
Qed.

Lemma dt_year_Some (dates : list date) :
  dt_year <$> (Some <$> dates) = Some <$> (year <$> dates).
Proof. by rewrite <- !list_fmap_compose. Qed.

(** C7: a row with a null date.  [dt.year()] gives a null for it,
    [unique()] keeps the null and [sort()] puts it first: the list that
    [get_years] returns starts with [None], so it is not a list of
    years. *)
Theorem get_years_keeps_a_null_date :
  column "date" null_date
  = Some (DateSeries [Some (Date 2020 2 29); None; Some (Date 2019 1 2)])
  ∧ get_years null_date = Ok [None; Some 2019; Some 2020]%Z
  ∧ ¬ ∃ years : list Z, get_years null_date = Ok (Some <$> years).
Proof.
  split; [reflexivity|]. split; [by vm_compute|].
  intros [years Hyears]. vm_compute in Hyears. by destruct years.
Qed.

(** X25. For every data frame whose [date] column holds dates and no
    null, [get_years] returns the calendar years of that column in
    strictly ascending order: sorted, without duplicates, each year of the
    column and no other; for dates in 2019, 2021, 2019 and 2020 it returns
    [2019, 2020, 2021]. *)
Theorem get_years_sorted_and_distinct (data : DataFrame) (dates : list date) :
  column "date" data = Some (DateSeries (Some <$> dates)) →
  ∃ years,
    get_years data = Ok (Some <$> years)
    ∧ Sorted Z.lt years
    ∧ NoDup years
    ∧ (∀ y, y ∈ years ↔ y ∈ year <$> dates)
    ∧ (year <$> dates = [2019; 2021; 2019; 2020]%Z →
       years = [2019; 2020; 2021]%Z).
Proof.
  intros Hcol. rewrite (get_years_of_dates _ _ Hcol).
  rewrite dt_year_Some, sorted_years_Some.
  eexists. split; [reflexivity|].
  assert (NoDup (merge_sort Z.le (remove_dups (year <$> dates)))) as Hnodup.
  { rewrite merge_sort_Permutation. apply NoDup_remove_dups. }
  split_and!.
  - apply Sorted_le_NoDup_lt; [|done]. apply (Sorted_merge_sort Z.le).
  - done.
  - intros y. by rewrite merge_sort_Permutation, elem_of_remove_dups.
  - by intros ->.
Qed.

Section with_env.
Context `{Env}.

Lemma makedirs_quiet p w r w' : makedirs p w = (r, w') → quiet w w'.
Proof.
  unfold makedirs, quiet. destruct (String.eqb p ""); [by intros [= <- <-]|].
  destruct (blocked _ _) as [[q []]|]; by intros [= <- <-].
Qed.

Lemma Path_mkdir_quiet p w r w' : Path_mkdir p w = (r, w') → quiet w w'.
Proof.
  unfold Path_mkdir, quiet.
  destruct (blocked _ _) as [[q []]|]; by intros [= <- <-].
Qed.

Lemma makedirs_opt_quiet p w r w' : makedirs_opt p w = (r, w') → quiet w w'.
Proof.
  destruct p as [p|]; [apply makedirs_quiet|].
  unfold makedirs_opt, raise, quiet. by intros [= <- <-].
Qed.

Lemma quiet_trans w1 w2 w3 : quiet w1 w2 → quiet w2 w3 → quiet w1 w3.
Proof. unfold quiet. intros (?&?&?) (?&?&?). split_and!; congruence. Qed.

Lemma prepare_quiet self data w r w' :
  prepare self data w = (r, w') → quiet w w'.
Proof.
  unfold prepare. rewrite MonadFacts.bind_run.
  destruct (makedirs_opt (output_dir (config self)) w) as [r1 w1] eqn:H1.
  apply makedirs_opt_quiet in H1.
  destruct r1; [|intros [= <- <-]; done].
  rewrite MonadFacts.bind_run.
  destruct (makedirs_opt (logs_dir (config self)) w1) as [r2 w2] eqn:H2.
  apply makedirs_opt_quiet in H2.
  destruct r2; [|intros [= <- <-]; by eapply quiet_trans].
  rewrite MonadFacts.bind_run.
  destruct (Path_mkdir _ w2) as [r3 w3] eqn:H3.
  apply Path_mkdir_quiet in H3.
  assert (quiet w w3) as Hq by eauto using quiet_trans.
  destruct r3; [|by intros [= <- <-]].
  destruct data as [df|]; [|by intros [= <- <-]].
  rewrite MonadFacts.bind_run. unfold write_parquet, write_file.
  rewrite MonadFacts.bind_run. unfold get_files, set_files.
  intros [= <- <-]. exact Hq.
Qed.

Lemma load_data_quiet self data w r w' :
  load_data self data w = (r, w') → quiet w w'.
Proof.
  unfold load_data. destruct data as [df|]; [by intros [= <- <-]|].
  destruct (_data self); [by intros [= <- <-]|].
  rewrite MonadFacts.bind_run. unfold read_parquet, mret, M_ret.
  destruct (files w !! data_path (config self)) as [[?|?|?]|];
    by intros [= <- <-].
Qed.

(** C10. For every runner and every world in which the directories can be
    prepared and the data loaded: when the data yields no year, [submit]
    raises [IndexError] (list index out of range) in the world that
    preparing and loading left; nothing was printed, no command was run
    and no package resource was resolved, so no script was rendered and no
    submission was attempted. *)
Theorem submit_without_years_raises_before_rendering
    (self : BacktestRunner) (data : option DataFrame) (dry_run : bool)
    (w : World) self1 w1 df self2 w2 :
  prepare self data w = (Ok self1, w1) →
  load_data self1 data w1 = (Ok (df, self2), w2) →
  get_years df = Ok [] →
  submit self data dry_run w
  = (Err (IndexError "list index out of range"), w2)
  ∧ lookups w2 = lookups w
  ∧ calls w2 = calls w
  ∧ stdout w2 = stdout w.
Proof.
  intros Hprep Hload Hyears. split.
  - unfold submit. rewrite MonadFacts.bind_run, Hprep.
    rewrite MonadFacts.bind_run, Hload.
    rewrite MonadFacts.bind_run. unfold lift. rewrite Hyears.
    by rewrite MonadFacts.bind_run.
  - destruct (quiet_trans _ _ _ (prepare_quiet _ _ _ _ _ Hprep)
                (load_data_quiet _ _ _ _ _ Hload)) as (?&?&?).
    done.
Qed.

End with_env.

End RunnerFacts.

(** ** The statements at sample inputs *)

Module Samples.
Import Config Slurm Runner Bash Vocabulary Stub.

(** The end-to-end example of the specification: the script of [alpha] for
    the years 2020 and 2021 holds the array range [0-1] throttled to 1, the
    CPU count 4 and the literal [(2020 2021)]; its first two tasks hand
    [srun] the worker's command for their year, and the next two leave as
    the guard says. *)
Example alpha_script_lines :
  let script := rendered (H := stub_env) alpha [2020; 2021]%Z in
  let ls := split_on "010" script in
  let command year :=
    ["python"; "/opt/sf_backtester/scripts/mvo_worker.py";
     "--data_path"; "d.parquet"; "--gamma"; "0.5"; "--year"; year;
     "--output_dir"; "/home/user/project/weights/alpha/0.5";
     "--n_cpus"; "4"; "--constraints"; "ZeroBeta"; "ZeroInvestment"] in
  ls !! 4%nat = Some "#SBATCH --array=0-1%1"
  ∧ ls !! 5%nat = Some "#SBATCH --cpus-per-task=4"
  ∧ ls !! 20%nat = Some "years=(2020 2021)"
  ∧ run_script script <$> [0; 1; 2; 3]%Z
    = [Worker (command "2020"); Worker (command "2021");
       ExitStatus 1; ExitStatus 1].
Proof. by vm_compute. Qed.

Lemma to_yaml_from_yaml_round_trip_alpha :
  constructed alpha
  ∧ ∃ w1, to_yaml alpha "config.yml" empty_world = (Ok tt, w1)
          ∧ Config.from_yaml (H := stub_env) "config.yml" w1 = (Ok alpha, w1).
Proof.
  assert (constructed alpha) as Hc by (split; eexists; reflexivity).
  split; [exact Hc|].
  exact (ConfigFacts.to_yaml_from_yaml_round_trip (H := stub_env) alpha
           "config.yml" empty_world Hc).
Defined.

Lemma guard_stops_out_of_range_task_alpha :
  guard_safe (H := stub_env) alpha = true
  ∧ (Z.of_nat (length [2020; 2021]%Z) ≤ 2)%Z
  ∧ ∃ script,
      fst (generate_sbatch_script (H := stub_env) alpha [2020; 2021]%Z
             empty_world) = Ok script
      ∧ run_script script 2 = ExitStatus 1.
Proof.
  split; [reflexivity|]. split; [simpl; lia|].
  apply (GeneratorFacts.guard_stops_out_of_range_task (H := stub_env) alpha
           [2020; 2021]%Z 2 empty_world); [reflexivity | simpl; lia].
Defined.

Lemma task_index_resolves_to_its_partition_alpha :
  let years := [2020; 2021]%Z in
  let lookup := "year=${years[$SLURM_ARRAY_TASK_ID]}" in
  (guard_safe (H := stub_env) alpha = true
   ∧ years !! 1%nat = Some 2021%Z)
  ∧ ∃ script pre post sh,
      fst (generate_sbatch_script (H := stub_env) alpha years empty_world)
      = Ok script
      ∧ fst (generate_sbatch_script (H := stub_env) alpha years
               prepared_world) = Ok script
      ∧ script = pre +:+ lookup +:+ nl +:+ post
      ∧ run_script (pre +:+ lookup +:+ nl) (Z.of_nat 1) = Finished sh
      ∧ arrays sh !! "years" = Some (str_int <$> years)
      ∧ vars sh !! "year" = Some (VStr (str_int 2021))
      ∧ (∀ y' : Z, str_int y' = str_int 2021 → y' = 2021%Z)
      ∧ (plain_word (project_root alpha +:+ "/.venv/bin/activate") = true →
         plain_word (worker_script (Env := stub_env)) = true →
         plain_words (join " " (constraints alpha)) = true →
         run_script script (Z.of_nat 1)
         = Worker (worker_command (H := stub_env) alpha (str_int 2021)
                     (words (join " " (constraints alpha))))).
Proof.
  intros years lookup. split; [by split|].
  apply (GeneratorFacts.task_index_resolves_to_its_partition
           (H := stub_env) alpha years 1 2021 empty_world prepared_world);
    reflexivity.
Defined.

Lemma get_years_sorted_and_distinct_four_dates :
  column "date" four_dates
  = Some (DateSeries (Some <$> [Date 2019 1 2; Date 2021 6 30;
                                Date 2019 12 31; Date 2020 2 29]))
  ∧ ∃ years,
      get_years four_dates = Ok (Some <$> years)
      ∧ Sorted Z.lt years
      ∧ NoDup years
      ∧ (∀ y, y ∈ years
              ↔ y ∈ year <$> [Date 2019 1 2; Date 2021 6 30; Date 2019 12 31;
                               Date 2020 2 29])
      ∧ (year <$> [Date 2019 1 2; Date 2021 6 30; Date 2019 12 31;
                   Date 2020 2 29] = [2019; 2021; 2019; 2020]%Z →
         years = [2019; 2020; 2021]%Z).
Proof.
  split; [reflexivity|].
  apply (RunnerFacts.get_years_sorted_and_distinct four_dates). reflexivity.
Defined.

Lemma submit_without_years_raises_no_rows :
  let runner := mkRunner alpha None in
  let loaded := mkRunner alpha (Some no_rows) in
  prepare runner (Some no_rows) empty_world = (Ok loaded, prepared_world)
  ∧ load_data loaded (Some no_rows) prepared_world
    = (Ok (no_rows, loaded), prepared_world)
  ∧ get_years no_rows = Ok []
  ∧ submit (H := stub_env) runner (Some no_rows) false empty_world
    = (Err (IndexError "list index out of range"), prepared_world)
  ∧ lookups prepared_world = lookups empty_world
  ∧ calls prepared_world = calls empty_world
  ∧ stdout prepared_world = stdout empty_world.
Proof.
  intros runner loaded.
  assert (prepare runner (Some no_rows) empty_world
          = (Ok loaded, prepared_world)) as Hprep by reflexivity.
  assert (load_data loaded (Some no_rows) prepared_world
          = (Ok (no_rows, loaded), prepared_world)) as Hload by reflexivity.
  split; [exact Hprep|]. split; [exact Hload|]. split; [reflexivity|].
  exact (RunnerFacts.submit_without_years_raises_before_rendering
           (H := stub_env) runner (Some no_rows) false empty_world
           loaded prepared_world no_rows loaded prepared_world
           Hprep Hload eq_refl).
Defined.

End Samples.

(** ** Loading a configuration *)

Module LoadingFacts.
Import Config Vocabulary.

Lemma result_bind_Ok {A B} (m : result A) (f : A → result B) b :
  m ≫= f = Ok b → ∃ a, m = Ok a ∧ f a = Ok b.
Proof. destruct m as [a|e]; [by exists a | done]. Qed.

Lemma dict_get_keys k d v : dict_get k d = Some v → k ∈ keys d.
Proof.
  induction d as [|[k' v'] d IH]; [done|]. cbn [dict_get].
  destruct (String.eqb_spec k k') as [->|_].
  - intros _. left.
  - intros Hget. right. by apply IH.
Qed.

Lemma unexpected_key_None params d :
  unexpected_key params d = None → ∀ k, k ∈ keys d → k ∈ params.
Proof.
  unfold unexpected_key. intros Hnone k Hk.
  destruct (List.find _ d) as [kv|] eqn:Hfind; [done|].
  apply list_elem_of_fmap in Hk as ([k' v] & -> & Hin).
  apply list_elem_of_In in Hin.
  pose proof (find_none _ _ Hfind _ Hin) as Hneg. cbn in Hneg.
  apply negb_false_iff, existsb_exists in Hneg as (x & Hx & Heq).
  apply String.eqb_eq in Heq as ->. by apply list_elem_of_In.
Qed.




Lemma reject_unexpected_Ok cls params d :
  reject_unexpected cls params d = Ok tt → ∀ k, k ∈ keys d → k ∈ params.
Proof.
  unfold reject_unexpected.
  destruct (unexpected_key params d) eqn:Hkey; [done|].
  intros _. by apply unexpected_key_None.
Qed.

Lemma required_Ok {A} cls (conv : string → yaml → result A) k d a :
  required cls conv k d = Ok a → ∃ v, dict_get k d = Some v ∧ conv k v = Ok a.
Proof.
  unfold required. destruct (dict_get k d) as [v|]; [|done]. by exists v.
Qed.

Lemma as_str_Ok f v s : as_str f v = Ok s → v = YStr s.
Proof. destruct v; naive_solver. Qed.

Lemma as_int_Ok f v n : as_int f v = Ok n → v = YInt n.
Proof. destruct v; naive_solver. Qed.

Lemma as_float_Ok f v x : as_float f v = Ok x → v = YFloat x.
Proof. destruct v; naive_solver. Qed.

Lemma as_strs_Ok f vs : ∀ l, as_strs f vs = Ok l → vs = YStr <$> l.
Proof.
  induction vs as [|v vs IH]; intros l; cbn [as_strs].
  - by intros [= <-].
  - intros (s & Hs & Hrest)%result_bind_Ok.
    apply result_bind_Ok in Hrest as (ss & Hss & [= <-]).
    apply as_str_Ok in Hs as ->. by rewrite (IH _ Hss).
Qed.

Lemma as_str_list_Ok f v l : as_str_list f v = Ok l → v = YSeq (YStr <$> l).
Proof.
  destruct v; try done. cbn [as_str_list]. by intros ->%as_strs_Ok.
Qed.

(** The document behind a successful load. *)
Lemma from_yaml_Ok `{Env} path w cfg w' :
  from_yaml path w = (Ok cfg, w') →
  w' = w
  ∧ ∃ d, files w !! path = Some (YamlDoc (YMap d))
         ∧ BacktestConfig_kwargs d = Ok cfg.
Proof.
  unfold from_yaml. rewrite MonadFacts.bind_run. unfold safe_load.
  destruct (files w !! path) as [[s|doc|df]|]; try done.
  destruct doc; try done. unfold lift. intros [= Hk <-].
  split; [done|]. by eexists.
Qed.


(** What the keyword binding gives when it succeeds. *)
Lemma BacktestConfig_kwargs_Ok `{Env} d cfg :
  BacktestConfig_kwargs d = Ok cfg →
  (∀ k, k ∈ keys d → k ∈ BacktestConfig_fields)
  ∧ dict_get "signal_name" d = Some (YStr (signal_name cfg))
  ∧ dict_get "data_path" d = Some (YStr (data_path cfg))
  ∧ dict_get "gamma" d = Some (YFloat (gamma cfg))
  ∧ dict_get "project_root" d = Some (YStr (project_root cfg))
  ∧ dict_get "byu_email" d = Some (YStr (byu_email cfg))
  ∧ dict_get "constraints" d = Some (YSeq (YStr <$> constraints cfg))
  ∧ (∃ sd, dict_get "slurm" d = Some (YMap sd)
           ∧ SlurmConfig_kwargs sd = Ok (slurm cfg))
  ∧ (∃ od, kwarg as_opt_str "output_dir" None d = Ok od
           ∧ output_dir cfg
             = Some (default (derived_output_dir (project_root cfg)
                                (signal_name cfg) (gamma cfg)) od))
  ∧ (∃ ld, kwarg as_opt_str "logs_dir" None d = Ok ld
           ∧ logs_dir cfg
             = Some (default (derived_logs_dir (signal_name cfg) (gamma cfg))
                       ld)).
Proof.
  unfold BacktestConfig_kwargs.
  intros ([] & Hrej & Hk)%result_bind_Ok.
  apply result_bind_Ok in Hk as ([] & _ & Hk).
  apply result_bind_Ok in Hk as (sn & Hsn & Hk).
  apply result_bind_Ok in Hk as (dp & Hdp & Hk).
  apply result_bind_Ok in Hk as (g & Hg & Hk).
  apply result_bind_Ok in Hk as (pr & Hpr & Hk).
  apply result_bind_Ok in Hk as (be & Hbe & Hk).
  apply result_bind_Ok in Hk as (cs & Hcs & Hk).
  apply result_bind_Ok in Hk as (sl & Hsl & Hk).
  apply result_bind_Ok in Hk as (od & Hod & Hk).
  apply result_bind_Ok in Hk as (ld & Hld & Hk).
  apply required_Ok in Hsn as (v1 & Hv1 & ->%as_str_Ok).
  apply required_Ok in Hdp as (v2 & Hv2 & ->%as_str_Ok).
  apply required_Ok in Hg as (v3 & Hv3 & ->%as_float_Ok).
  apply required_Ok in Hpr as (v4 & Hv4 & ->%as_str_Ok).
  apply required_Ok in Hbe as (v5 & Hv5 & ->%as_str_Ok).
  apply required_Ok in Hcs as (v6 & Hv6 & ->%as_str_list_Ok).
  apply required_Ok in Hsl as (v7 & Hv7 & Hconv).
  destruct v7 as [| | | | |?|sd]; try done. injection Hconv as <-.
  unfold BacktestConfig_init in Hk.
  apply result_bind_Ok in Hk as (s & Hs & [= <-]). cbn.
  split; [by apply (reject_unexpected_Ok _ _ _ Hrej)|].
  split_and!; try done.
  - by exists sd.
  - exists od. split; [done|]. by destruct od.
  - exists ld. split; [done|]. by destruct ld.
Qed.

Lemma kwarg_Ok {A} (conv : string → yaml → result A) k (dflt : A) d a :
  kwarg conv k dflt d = Ok a →
  match dict_get k d with
  | Some v => conv k v = Ok a
  | None => a = dflt
  end.
Proof. unfold kwarg. destruct (dict_get k d); naive_solver. Qed.

Lemma SlurmConfig_kwargs_Ok sd s :
  SlurmConfig_kwargs sd = Ok s →
  (∀ k, k ∈ keys sd → k ∈ SlurmConfig_fields)
  ∧ kwarg as_int "n_cpus" 8 sd = Ok (n_cpus s)
  ∧ kwarg as_str "mem" "32G" sd = Ok (mem s)
  ∧ kwarg as_str "time" "06:00:00" sd = Ok (time s)
  ∧ kwarg as_str "mail_type" "BEGIN,END,FAIL" sd = Ok (mail_type s)
  ∧ kwarg as_int "max_concurrent_jobs" 31 sd = Ok (max_concurrent_jobs s).
Proof.
  unfold SlurmConfig_kwargs.
  intros ([] & Hrej & Hk)%result_bind_Ok.
  apply result_bind_Ok in Hk as (n & Hn & Hk).
  apply result_bind_Ok in Hk as (m & Hm & Hk).
  apply result_bind_Ok in Hk as (t & Ht & Hk).
  apply result_bind_Ok in Hk as (mt & Hmt & Hk).
  apply result_bind_Ok in Hk as (mc & Hmc & [= <-]).
  split; [by apply (reject_unexpected_Ok _ _ _ Hrej)|]. done.
Qed.

Section with_env.
Context `{Env}.

(** X1. A configuration that [from_yaml] returns was read from a mapping
    whose keys are all fields of [BacktestConfig] and that holds every
    required field: the loaded configuration carries exactly the
    document's name, data path, gamma, project root, address and list of
    constraints.  Loading changes nothing in the world. *)
Theorem from_yaml_returns_the_values_of_the_document
    (path : string) (w w' : World) (cfg : BacktestConfig) :
  from_yaml path w = (Ok cfg, w') →
  w' = w
  ∧ ∃ d,
      files w !! path = Some (YamlDoc (YMap d))
      ∧ (∀ k, k ∈ keys d → k ∈ BacktestConfig_fields)
      ∧ (∀ f, f ∈ required_fields → is_Some (dict_get f d))
      ∧ dict_get "signal_name" d = Some (YStr (signal_name cfg))
      ∧ dict_get "data_path" d = Some (YStr (data_path cfg))
      ∧ dict_get "gamma" d = Some (YFloat (gamma cfg))
      ∧ dict_get "project_root" d = Some (YStr (project_root cfg))
      ∧ dict_get "byu_email" d = Some (YStr (byu_email cfg))
      ∧ dict_get "constraints" d = Some (YSeq (YStr <$> constraints cfg)).
Proof.
  intros (-> & d & Hfile & Hk)%from_yaml_Ok. split; [done|].
  exists d. split; [done|].
  destruct (BacktestConfig_kwargs_Ok _ _ Hk)
    as (Hkeys & H1 & H2 & H3 & H4 & H5 & H6 & (sd & H7 & _) & _).
  split; [done|]. split; [|done].
  intros f Hf. unfold required_fields in Hf.
  repeat (apply elem_of_cons in Hf as [->|Hf]; [by eexists|]).
  by apply elem_of_nil in Hf.
Qed.

(** X2. In a loaded configuration, [output_dir] and [logs_dir] are the
    strings of the document when it gives them, and otherwise (key absent,
    or null) the paths derived from the project root, the name and gamma:
    an explicit path is never replaced, a missing one is never left
    empty. *)
Theorem from_yaml_keeps_or_derives_the_paths
    (path : string) (w w' : World) (cfg : BacktestConfig)
    (d : list (string * yaml)) :
  from_yaml path w = (Ok cfg, w') →
  files w !! path = Some (YamlDoc (YMap d)) →
  output_dir cfg
  = Some (match dict_get "output_dir" d with
          | Some (YStr s) => s
          | _ => derived_output_dir (project_root cfg) (signal_name cfg)
                   (gamma cfg)
          end)
  ∧ logs_dir cfg
    = Some (match dict_get "logs_dir" d with
            | Some (YStr s) => s
            | _ => derived_logs_dir (signal_name cfg) (gamma cfg)
            end).
Proof.
  intros (-> & d' & Hfile & Hk)%from_yaml_Ok Hd.
  assert (d' = d) as -> by congruence.
  destruct (BacktestConfig_kwargs_Ok _ _ Hk)
    as (_ & _ & _ & _ & _ & _ & _ & _ & (od & Hod & ->) & (ld & Hld & ->)).
  apply kwarg_Ok in Hod. apply kwarg_Ok in Hld.
  split; f_equal.
  - destruct (dict_get "output_dir" d) as [[]|]; naive_solver.
  - destruct (dict_get "logs_dir" d) as [[]|]; naive_solver.
Qed.

(** X3. In a loaded configuration, each SLURM setting is the value of the
    [slurm] mapping of the document when the mapping has the key, and the
    default of [SlurmConfig] otherwise (8 CPUs, 32G, 06:00:00,
    BEGIN,END,FAIL, 31 concurrent jobs); the mapping has no key that is not
    a field of [SlurmConfig]. *)
Theorem from_yaml_fills_slurm_defaults
    (path : string) (w w' : World) (cfg : BacktestConfig)
    (d sd : list (string * yaml)) :
  from_yaml path w = (Ok cfg, w') →
  files w !! path = Some (YamlDoc (YMap d)) →
  dict_get "slurm" d = Some (YMap sd) →
  (∀ k, k ∈ keys sd → k ∈ SlurmConfig_fields)
  ∧ YInt (n_cpus (slurm cfg)) = default (YInt 8) (dict_get "n_cpus" sd)
  ∧ YStr (mem (slurm cfg)) = default (YStr "32G") (dict_get "mem" sd)
  ∧ YStr (time (slurm cfg)) = default (YStr "06:00:00") (dict_get "time" sd)
  ∧ YStr (mail_type (slurm cfg))
    = default (YStr "BEGIN,END,FAIL") (dict_get "mail_type" sd)
  ∧ YInt (max_concurrent_jobs (slurm cfg))
    = default (YInt 31) (dict_get "max_concurrent_jobs" sd).
Proof.
  intros (-> & d' & Hfile & Hk)%from_yaml_Ok Hd Hsd.
  assert (d' = d) as -> by congruence.
  destruct (BacktestConfig_kwargs_Ok _ _ Hk)
    as (_ & _ & _ & _ & _ & _ & _ & (sd' & Hsd' & Hs) & _).
  assert (sd' = sd) as -> by congruence.
  destruct (SlurmConfig_kwargs_Ok _ _ Hs) as (Hkeys & Hn & Hm & Ht & Hmt & Hmc).
  apply kwarg_Ok in Hn, Hm, Ht, Hmt, Hmc.
  split; [done|]. split_and!.
  - destruct (dict_get "n_cpus" sd);
      [by apply as_int_Ok in Hn as ->|simpl; by rewrite Hn].
  - destruct (dict_get "mem" sd); [by apply as_str_Ok in Hm as ->|simpl; by rewrite Hm].
  - destruct (dict_get "time" sd); [by apply as_str_Ok in Ht as ->|simpl; by rewrite Ht].
  - destruct (dict_get "mail_type" sd);
      [by apply as_str_Ok in Hmt as ->|simpl; by rewrite Hmt].
  - destruct (dict_get "max_concurrent_jobs" sd);
      [by apply as_int_Ok in Hmc as ->|simpl; by rewrite Hmc].
Qed.


(** X5. Saving any configuration and loading the file gives the
    configuration that the constructor makes of its fields: the same
    values, with a derived path put where [output_dir] or [logs_dir] was
    [None].  Saving writes the file at [path] and nothing else. *)
Theorem to_yaml_then_from_yaml_runs_the_constructor
    (cfg : BacktestConfig) (path : string) (w : World) :
  ∃ w1,
    to_yaml cfg path w = (Ok tt, w1)
    ∧ from_yaml path w1
      = (Ok (mkBacktestConfig (signal_name cfg) (data_path cfg) (gamma cfg)
               (project_root cfg) (byu_email cfg) (constraints cfg)
               (slurm cfg)
               (Some (default (derived_output_dir (project_root cfg)
                                 (signal_name cfg) (gamma cfg))
                        (output_dir cfg)))
               (Some (default (derived_logs_dir (signal_name cfg) (gamma cfg))
                        (logs_dir cfg)))), w1)
    ∧ (∀ q, q ≠ path → files w1 !! q = files w !! q)
    ∧ dirs w1 = dirs w ∧ stdout w1 = stdout w ∧ calls w1 = calls w.
Proof.
  destruct cfg as [sn dp g pr be cs [n m t mt mc] od ld].
  eexists. split; [reflexivity|]. cbn [files dirs stdout calls].
  split; [|split; [|done]].
  - unfold from_yaml, safe_load, mbind, M_bind; simpl.
    rewrite lookup_insert_eq. unfold lift, BacktestConfig_kwargs.
    destruct od, ld; cbn -[as_strs];
      by rewrite ConfigFacts.as_strs_fmap.
  - intros q Hq. by rewrite lookup_insert_ne.
Qed.

End with_env.

End LoadingFacts.


(** ** More on the script and its submission *)

Module ScriptFacts.
Import Config Slurm Bash Worker Vocabulary StringFacts ShellFacts.

Lemma cleanup_world `{Env} (p : string) (w1 : World) :
  p ∉ dirs w1 →
  (path_exists p ≫= λ there : bool,
     if there then unlink p else mret tt) w1
  = (Ok tt, mkWorld (delete p (files w1)) (dirs w1) (stdout w1) (calls w1)
              (lookups w1)).
Proof.
  intros Hdir. rewrite MonadFacts.bind_run.
  unfold path_exists, unlink, set_files.
  rewrite (bool_decide_false (p ∈ dirs w1)) by done. rewrite orb_false_r.
  destruct (files w1 !! p) as [x|] eqn:Hp.
  - rewrite bool_decide_true by eauto. by rewrite Hp.
  - rewrite bool_decide_false by (by intros [x Hx]).
    rewrite delete_id by done. by destruct w1.
Qed.

Lemma registry_names_plain n :
  n ∈ registry_names → space_free n = true ∧ n ≠ EmptyString.
Proof.
  unfold registry_names. cbn. intros Hn.
  repeat (apply elem_of_cons in Hn as [->|Hn]; [by split|]).
  by apply elem_of_nil in Hn.
Qed.

Section with_env.
Context `{Env}.

(** X6. For every configuration, the script rendered for an empty list of
    years has the array range [0--1] and the empty array literal
    [years=()]; when the configuration is [guard_safe], every task of it,
    whatever its index from 0 on, leaves through [exit 1]. *)
Theorem empty_years_render_an_empty_range
    (c : BacktestConfig) (w : World) :
  ∃ script rest pre post,
    fst (generate_sbatch_script c (@nil Z) w) = Ok script
    ∧ script
      = script_head c +:+ "#SBATCH --array=0--1%"
        +:+ str_int (max_concurrent_jobs (slurm c)) +:+ nl +:+ rest
    ∧ script = pre +:+ "years=()" +:+ nl +:+ post
    ∧ (guard_safe c = true →
       ∀ task_id, (0 ≤ task_id)%Z → run_script script task_id = ExitStatus 1).
Proof.
  exists (rendered c (@nil Z)).
  unfold rendered, sbatch_lines.
  match goal with
  | |- ∃ rest pre post, _ ∧ unlines ?ls = _ ∧ _ =>
      exists (unlines (drop 5 ls)), (unlines (take 20 ls)),
        (unlines (drop 21 ls))
  end.
  split; [reflexivity|]. split_and!.
  - match goal with
    | |- unlines ?ls = _ =>
        change ls with (take 4 ls ++ take 1 (drop 4 ls) ++ drop 5 ls) at 1
    end.
    rewrite !unlines_app. unfold script_head. cbn [take drop unlines].
    by rewrite !append_assoc.
  - match goal with
    | |- unlines ?ls = _ =>
        change ls with (take 20 ls ++ take 1 (drop 20 ls) ++ drop 21 ls) at 1
    end.
    by rewrite !unlines_app.
  - intros Hsafe t Ht. by apply (rendered_guard_exits c (@nil Z)).
Qed.

(** X7. For a configuration that is [guard_safe], whose [activate] path
    and worker path are plain words and whose constraints are plain words
    and blanks: the script, run as task [i], hands [srun] the worker's
    command with [--year] followed by the year at index [i] of the list,
    each value of the configuration after its own option, when there is
    such a year, and leaves through [exit 1] otherwise.  No task runs the
    worker for a year that is not in the list, and no task of the range
    is turned away. *)
Theorem every_task_runs_its_year_or_exits
    (c : BacktestConfig) (years : list Z) (i : nat) :
  guard_safe c = true →
  plain_word (project_root c +:+ "/.venv/bin/activate") = true →
  plain_word worker_script = true →
  plain_words (join " " (constraints c)) = true →
  run_script (rendered c years) (Z.of_nat i)
  = match years !! i with
    | Some y =>
        Worker (worker_command c (str_int y)
                  (words (join " " (constraints c))))
    | None => ExitStatus 1
    end.
Proof.
  intros Hsafe Hroot Hworker Hcs. destruct (years !! i) as [y|] eqn:Hy.
  - by apply rendered_in_range_starts_worker.
  - apply rendered_guard_exits; [done|].
    apply lookup_ge_None in Hy. lia.
Qed.

Lemma submit_job_run script w :
  let script_path := temp_name (files w) (dirs w) in
  let argv := ["sbatch"; script_path] in
  let given := <[script_path := Text script]> (files w) in
  submit_job script false w
  = match spawn argv given with
    | (Exited rc out err, fs) =>
        (if (rc =? 0)%Z then Ok (Some (mkCompleted argv rc out err))
         else Err (CalledProcessError rc argv out err),
         mkWorld (delete script_path fs) (dirs w) (stdout w)
           (calls w ++ [argv]) (lookups w))
    | (SpawnFailed e, _) =>
        (Err e,
         mkWorld (delete script_path given) (dirs w) (stdout w)
           (calls w ++ [argv]) (lookups w))
    end.
Proof.
  intros script_path argv given.
  destruct (temp_name_fresh (files w) (dirs w)) as [_ Hdir].
  fold script_path in Hdir.
  unfold submit_job. rewrite MonadFacts.bind_run.
  unfold write_temp_script, write_file. rewrite MonadFacts.bind_run.
  unfold get_files, set_files. cbn [files dirs stdout calls lookups].
  fold script_path. fold argv. fold given.
  set (w1 := mkWorld given (dirs w) (stdout w) (calls w) (lookups w)).
  destruct (subprocess_run argv w1) as [r1 w2] eqn:Hrun.
  assert (dirs w2 = dirs w) as Hdirs.
  { revert Hrun. unfold subprocess_run.
    destruct (spawn argv (files w1)) as [[rc out err|e] fs'];
      [|by intros [= <- <-]].
    by destruct (rc =? 0)%Z; intros [= <- <-]. }
  rewrite (MonadFacts.try_finally_ok _ _ w1
             (match r1 with Ok a => Ok (Some a) | Err e => Err e end) w2
             (mkWorld (delete script_path (files w2)) (dirs w2) (stdout w2)
                (calls w2) (lookups w2)));
    [|rewrite MonadFacts.bind_run, Hrun; by destruct r1
     |apply cleanup_world; by rewrite Hdirs].
  revert Hrun. unfold subprocess_run. cbn [files w1].
  destruct (spawn argv given) as [[rc out err|e] fs'];
    [|by intros [= <- <-]].
  by destruct (rc =? 0)%Z; intros [= <- <-].
Qed.

(** X8. For every script text, [submit_job] without [dry_run] leaves the
    files as the command left them, less the temporary script, and prints
    nothing, creates no directory and resolves no resource; when the
    command changes no file, the files are those it started with. *)
Theorem submit_job_touches_only_the_temporary_script
    (script : string) (w : World) :
  let script_path := temp_name (files w) (dirs w) in
  let argv := ["sbatch"; script_path] in
  let given := <[script_path := Text script]> (files w) in
  let left :=
    match spawn argv given with
    | (Exited _ _ _, fs) => fs
    | (SpawnFailed _, _) => given
    end in
  let w' := snd (submit_job script false w) in
  files w' = delete script_path left
  ∧ (left = given → files w' = files w)
  ∧ dirs w' = dirs w
  ∧ stdout w' = stdout w
  ∧ lookups w' = lookups w.
Proof.
  intros script_path argv given left w'.
  destruct (temp_name_fresh (files w) (dirs w)) as [Hfile _].
  fold script_path in Hfile.
  assert (files w' = delete script_path left ∧ dirs w' = dirs w
          ∧ stdout w' = stdout w ∧ lookups w' = lookups w)
    as (Hfiles & Hdirs & Hout & Hlook).
  { subst w' left. rewrite submit_job_run. fold script_path argv given.
    by destruct (spawn argv given) as [[rc out err|e] fs']. }
  split_and!; try done.
  intros Hleft. rewrite Hfiles, Hleft. subst given.
  by rewrite delete_insert_eq, delete_id.
Qed.

(** X9. Constraint names of the registry pass through the script
    unchanged: for a configuration that is [guard_safe], with plain
    [activate] and worker paths, whose constraints are names of the
    registry, the script run as a task of the range hands [srun] the
    worker's command with exactly the configured names after
    [--constraints], one word each and in their order, and
    [get_constraints] resolves these names to one constraint each. *)
Theorem registry_constraints_pass_through_the_script
    (c : BacktestConfig) (years : list Z) (i : nat) (y : Z) :
  guard_safe c = true →
  plain_word (project_root c +:+ "/.venv/bin/activate") = true →
  plain_word worker_script = true →
  Forall (λ n, n ∈ registry_names) (constraints c) →
  years !! i = Some y →
  ∃ objs,
    run_script (rendered c years) (Z.of_nat i)
    = Worker (worker_command c (str_int y) (constraints c))
    ∧ get_constraints (constraints c) = Ok objs
    ∧ Forall2 (λ n o, registry_get n CONSTRAINT_REGISTRY = Some o)
        (constraints c) objs.
Proof.
  intros Hsafe Hroot Hworker Hknown Hy.
  assert (words (join " " (constraints c)) = constraints c) as Hwords.
  { apply words_join. eapply Forall_impl; [exact Hknown|].
    intros n Hn. by apply registry_names_plain. }
  assert (plain_words (join " " (constraints c)) = true) as Hplain.
  { apply join_plain_or_space. eapply Forall_impl; [exact Hknown|].
    intros n Hn. unfold registry_names in Hn. cbn in Hn.
    repeat (apply elem_of_cons in Hn as [->|Hn]; [done|]).
    by apply elem_of_nil in Hn. }
  unfold get_constraints.
  destruct (WorkerFacts.get_constraints_loop_spec (constraints c) [])
    as [(objs & Hok & Hall)|(bad & Hin & Hbad & _)].
  - exists objs. split_and!; [|done..].
    rewrite <- Hwords.
    by apply rendered_in_range_starts_worker.
  - exfalso. apply Hbad. by apply (proj1 (Forall_forall _ _) Hknown).
Qed.

End with_env.

End ScriptFacts.


(** ** More on the partitioner and the runner *)

Module PartitionFacts.
Import Config Slurm Runner Vocabulary RunnerFacts.

#[global] Instance year_le_refl : Reflexive year_le.
Proof. intros [x|]; cbn; [lia|done]. Qed.

Lemma StronglySorted_lookup_le {A} (R : relation A) `{!Reflexive R}
    (l : list A) i j x y :
  StronglySorted R l → l !! i = Some x → l !! j = Some y →
  (i ≤ j)%nat → R x y.
Proof.
  intros Hsorted. revert i j.
  induction Hsorted as [|a l Hsorted IH Hall]; intros i j Hi Hj Hij; [done|].
  destruct i as [|i], j as [|j]; simplify_eq/=; [done| |lia|].
  - apply (proj1 (Forall_forall _ _) Hall). by eapply list_elem_of_lookup_2.
  - eapply IH; [done..|lia].
Qed.

Lemma index_first {A} (l : list A) x : index l 0 = Ok x → l !! 0%nat = Some x.
Proof. destruct l as [|a l]; [done|]. by intros [= ->]. Qed.

Lemma index_last {A} (l : list A) x :
  index l (-1) = Ok x → l !! pred (length l) = Some x ∧ l ≠ [].
Proof.
  unfold index. cbn [Z.ltb Z.compare].
  destruct l as [|a l]; [done|]. intros Hx. split; [|done].
  revert Hx. cbn [length pred].
  destruct (Z.ltb_spec (Z.of_nat (S (length l)) + -1) 0) as [|_]; [lia|].
  replace (Z.to_nat (Z.of_nat (S (length l)) + -1)) with (length l) by lia.
  by destruct ((a :: l) !! length l); intros [= ->].
Qed.

(** X10. The list that [get_years] returns depends only on the set of
    year values in the [date] column, a null counting as a value: two data
    frames whose columns hold the same year values give the same list,
    whatever the order of the rows and however often a value occurs. *)
Theorem get_years_depends_on_the_years_present
    (data data' : DataFrame) (ds ds' : list (option date)) :
  column "date" data = Some (DateSeries ds) →
  column "date" data' = Some (DateSeries ds') →
  (∀ y, y ∈ dt_year <$> ds ↔ y ∈ dt_year <$> ds') →
  get_years data = get_years data'.
Proof.
  intros Hcol Hcol' Hsame.
  rewrite (get_years_of_dates _ _ Hcol), (get_years_of_dates _ _ Hcol').
  f_equal. by apply sorted_years_ext.
Qed.

(** X11. For a data frame with a [date] column, [get_years] returns the
    empty list exactly when the column has no row, and never more years
    than the column has rows. *)
Theorem get_years_empty_only_without_rows
    (data : DataFrame) (ds : list (option date)) (years : list (option Z)) :
  column "date" data = Some (DateSeries ds) →
  get_years data = Ok years →
  (years = [] ↔ ds = []) ∧ (length years ≤ length ds)%nat.
Proof.
  intros Hcol. rewrite (get_years_of_dates _ _ Hcol). intros [= <-].
  split.
  - split.
    + intros Hnil. destruct ds as [|d ds]; [done|]. exfalso.
      assert (dt_year d
              ∈ merge_sort year_le (remove_dups (dt_year <$> d :: ds)))
        as Hin.
      { apply elem_of_sorted_years. left. }
      rewrite Hnil in Hin. by apply elem_of_nil in Hin.
    + by intros ->.
  - rewrite merge_sort_Permutation, <- (length_fmap dt_year ds).
    apply submseteq_length, NoDup_submseteq; [apply NoDup_remove_dups|].
    intros y. by rewrite elem_of_remove_dups.
Qed.

(** X12. The range that [submit] prints, [years[0]]-[years[-1]], spans the
    column in the order of [sort], in which a null comes first: the first
    and the last entry that [get_years] returns are year values of the
    column and every year value of the column lies between them.  So a
    column with a null date gives [None] as the first entry; and for a
    column without a null the first entry is the earliest year of the
    data and the last one the latest. *)
Theorem first_and_last_year_span_the_data
    (data : DataFrame) (ds : list (option date)) (years : list (option Z))
    (lo hi : option Z) :
  column "date" data = Some (DateSeries ds) →
  get_years data = Ok years →
  index years 0 = Ok lo →
  index years (-1) = Ok hi →
  lo ∈ dt_year <$> ds
  ∧ hi ∈ dt_year <$> ds
  ∧ (∀ d, d ∈ ds → year_le lo (dt_year d) ∧ year_le (dt_year d) hi)
  ∧ (None ∈ ds → lo = None)
  ∧ (∀ dates, ds = Some <$> dates →
       ∃ first last,
         lo = Some first ∧ hi = Some last
         ∧ ∀ d, d ∈ dates → (first ≤ year d ≤ last)%Z).
Proof.
  intros Hcol. rewrite (get_years_of_dates _ _ Hcol). intros [= <-].
  intros Hlo%index_first [Hhi _]%index_last.
  set (years := merge_sort year_le (remove_dups (dt_year <$> ds))) in *.
  assert (StronglySorted year_le years) as Hsorted
    by apply (StronglySorted_merge_sort year_le).
  assert (lo ∈ dt_year <$> ds) as Hlo_in.
  { apply elem_of_sorted_years. by eapply list_elem_of_lookup_2. }
  assert (hi ∈ dt_year <$> ds) as Hhi_in.
  { apply elem_of_sorted_years. by eapply list_elem_of_lookup_2. }
  assert (∀ d, d ∈ ds → year_le lo (dt_year d) ∧ year_le (dt_year d) hi)
    as Hspan.
  { intros d Hd.
    assert (dt_year d ∈ years) as Hin.
    { apply elem_of_sorted_years, list_elem_of_fmap. by exists d. }
    apply list_elem_of_lookup in Hin as [k Hk].
    pose proof (lookup_lt_Some _ _ _ Hk) as Hlt. split.
    - eapply (StronglySorted_lookup_le year_le years 0 k); [done..|lia].
    - eapply (StronglySorted_lookup_le year_le years k
                (pred (length years))); [done..|lia]. }
  split_and!; [done..| |].
  - intros Hnone. destruct (Hspan _ Hnone) as [Hle _].
    by destruct lo.
  - intros dates ->.
    apply list_elem_of_fmap in Hlo_in as ([first|] & -> & Hfirst);
      [|by apply list_elem_of_fmap in Hfirst as (? & ? & _)].
    apply list_elem_of_fmap in Hhi_in as ([last|] & -> & Hlast);
      [|by apply list_elem_of_fmap in Hlast as (? & ? & _)].
    exists (year first), (year last). split_and!; [done..|].
    intros d Hd.
    destruct (Hspan (Some d)) as [H1 H2]; [|done].
    apply list_elem_of_fmap. by exists d.
Qed.

End PartitionFacts.


(** ** More on the runner and the command line *)

Module RunFacts.
Import Config Slurm Runner Cli Vocabulary.

(** *** Computations that run no command *)

Lemma runs_no_command_bind {A B} (m : M A) (f : A → M B) :
  runs_no_command m → (∀ a, runs_no_command (f a)) →
  runs_no_command (m ≫= f).
Proof.
  intros Hm Hf w. rewrite MonadFacts.bind_run.
  specialize (Hm w). destruct (m w) as [[a|e] w1]; cbn [snd] in *.
  - by rewrite Hf.
  - done.
Qed.

Lemma runs_no_command_pure {A} (r : result A) :
  runs_no_command (λ w, (r, w)).
Proof. by intros w. Qed.

Lemma runs_no_command_print s : runs_no_command (print s).
Proof. by intros w. Qed.

Lemma runs_no_command_makedirs p : runs_no_command (makedirs p).
Proof.
  intros w. unfold makedirs. destruct (String.eqb p ""); [done|].
  by destruct (blocked _ _) as [[q []]|].
Qed.

Lemma runs_no_command_Path_mkdir p : runs_no_command (Path_mkdir p).
Proof.
  intros w. unfold Path_mkdir. by destruct (blocked _ _) as [[q []]|].
Qed.

Lemma runs_no_command_makedirs_opt p : runs_no_command (makedirs_opt p).
Proof.
  destruct p; [apply runs_no_command_makedirs | apply runs_no_command_pure].
Qed.

Lemma runs_no_command_write_file p c : runs_no_command (write_file p c).
Proof. by intros w. Qed.

Lemma runs_no_command_read_parquet p : runs_no_command (read_parquet p).
Proof.
  intros w. unfold read_parquet. by destruct (files w !! p) as [[]|].
Qed.

Lemma runs_no_command_prepare self data : runs_no_command (prepare self data).
Proof.
  unfold prepare.
  repeat (apply runs_no_command_bind;
          [first [apply runs_no_command_makedirs_opt
                 |apply runs_no_command_Path_mkdir]|intros _]).
  destruct data; [|apply runs_no_command_pure].
  apply runs_no_command_bind; [apply runs_no_command_write_file|intros _].
  apply runs_no_command_pure.
Qed.

Lemma runs_no_command_load_data self data :
  runs_no_command (load_data self data).
Proof.
  unfold load_data. destruct data; [apply runs_no_command_pure|].
  destruct (_data self); [apply runs_no_command_pure|].
  apply runs_no_command_bind; [apply runs_no_command_read_parquet|intros df].
  apply runs_no_command_pure.
Qed.

Section with_env.
Context `{Env}.

Lemma runs_no_command_from_yaml path : runs_no_command (Config.from_yaml path).
Proof.
  intros w. unfold Config.from_yaml. rewrite MonadFacts.bind_run.
  unfold safe_load. destruct (files w !! path) as [[?|doc|?]|]; try done.
  by destruct doc.
Qed.

Lemma runs_no_command_generate {Y} `{Str Y} c (years : list Y) :
  runs_no_command (generate_sbatch_script c years).
Proof. by intros w. Qed.

Lemma submit_job_dry_run_world script w :
  submit_job script true w
  = (Ok None,
     mkWorld (files w) (dirs w) (stdout w ++ dry_run_lines script) (calls w)
       (lookups w)).
Proof.
  cbv [submit_job mbind M_bind mret M_ret print files dirs stdout calls
       lookups dry_run_lines].
  by rewrite <- !app_assoc.
Qed.

Lemma runs_no_command_submit self data :
  runs_no_command (submit self data true).
Proof.
  unfold submit.
  apply runs_no_command_bind; [apply runs_no_command_prepare|intros self1].
  apply runs_no_command_bind; [apply runs_no_command_load_data|intros [df self2]].
  apply runs_no_command_bind; [apply runs_no_command_pure|intros years].
  apply runs_no_command_bind; [apply runs_no_command_pure|intros first].
  apply runs_no_command_bind; [apply runs_no_command_pure|intros last].
  do 5 (apply runs_no_command_bind; [apply runs_no_command_print|intros _]).
  apply runs_no_command_bind; [apply runs_no_command_generate|intros script].
  apply runs_no_command_bind.
  - intros w. by rewrite submit_job_dry_run_world.
  - intros [r|]; [|apply runs_no_command_pure].
    do 2 (apply runs_no_command_bind; [apply runs_no_command_print|intros _]).
    destruct (String.eqb _ _);
      [apply runs_no_command_pure | apply runs_no_command_print].
Qed.

(** X13. A dry run runs no command: for every runner, every data and every
    world, [submit] with [dry_run] leaves the list of subprocess calls as
    it was, whether it returns or raises; and so does [main] with
    [--dry-run], for every configuration path and every override. *)
Theorem dry_run_runs_no_command
    (self : BacktestRunner) (data : option DataFrame) (config_path : string)
    (data_path : option string) (gamma : option float) :
  runs_no_command (submit self data true)
  ∧ runs_no_command (main config_path true data_path gamma).
Proof.
  split; [apply runs_no_command_submit|].
  unfold main, Runner.from_yaml.
  apply runs_no_command_bind; [|intros runner; apply runs_no_command_submit].
  apply runs_no_command_bind; [apply runs_no_command_from_yaml|intros c].
  apply runs_no_command_pure.
Qed.

End with_env.

(** *** The cache of the runner *)

Lemma load_data_keeps_config self data w df self' w' :
  load_data self data w = (Ok (df, self'), w') → config self' = config self.
Proof.
  unfold load_data. destruct data as [df0|]; [by intros [= _ <- _]|].
  destruct (_data self) as [df0|]; [by intros [= _ <- _]|].
  rewrite MonadFacts.bind_run. unfold read_parquet.
  destruct (files w !! data_path (config self)) as [[?|?|df0]|]; try done.
  by intros [= _ <- _].
Qed.

(** X14. Once [load_data] has returned a frame, the runner it returns
    answers every later [load_data()] with that frame, in any world and
    without reading a file; and [load_data(data)] returns [data] and
    caches it, whatever was cached or is on disk. *)
Theorem load_data_answers_from_its_cache
    (self self' : BacktestRunner) (data : option DataFrame) (df : DataFrame)
    (w w' : World) :
  load_data self data w = (Ok (df, self'), w') →
  w' = w
  ∧ _data self' = Some df
  ∧ config self' = config self
  ∧ (∀ w2, load_data self' None w2 = (Ok (df, self'), w2))
  ∧ (∀ df2 w2,
       load_data self' (Some df2) w2
       = (Ok (df2, mkRunner (config self') (Some df2)), w2)).
Proof.
  unfold load_data. destruct data as [df0|].
  - intros [= -> <- <-]. by cbn.
  - destruct (_data self) as [df0|] eqn:Hcache.
    + intros [= -> <- <-]. rewrite Hcache. by cbn.
    + rewrite MonadFacts.bind_run. unfold read_parquet.
      destruct (files w !! data_path (config self)) as [[?|?|df0]|];
        try done.
      intros [= -> <- <-]. by cbn.
Qed.

(** *** Preparing the directories *)

Lemma append_nil_r (s : string) : s +:+ "" = s.
Proof.
  induction s as [|c s IH]; [done|].
  change (String c (s +:+ "") = String c s). by rewrite IH.
Qed.

(** A path is the last text of its lineage. *)
Lemma lineage_from_self seen rest : ∀ after_slash,
  seen +:+ rest ∈ lineage_from seen after_slash rest.
Proof.
  revert seen. induction rest as [|c rest IH]; intros seen after_slash.
  - rewrite append_nil_r. cbn [lineage_from]. left.
  - cbn [lineage_from]. apply elem_of_app. right.
    replace (seen +:+ String c rest)
      with ((seen +:+ String c "") +:+ rest)
      by (by rewrite ShellFacts.append_assoc).
    apply IH.
Qed.

Lemma lineage_self p : p ∈ lineage p.
Proof. apply (lineage_from_self "" p true). Qed.

Lemma makedirs_Ok p w w1 :
  makedirs p w = (Ok tt, w1) →
  String.eqb p "" = false
  ∧ blocked (files w) (lineage p) = None
  ∧ w1 = mkWorld (files w) (list_to_set (lineage p) ∪ dirs w) (stdout w)
           (calls w) (lookups w).
Proof.
  unfold makedirs. destruct (String.eqb p ""); [done|].
  destruct (blocked _ _) as [[q []]|]; [done..|]. by intros [= <-].
Qed.

Lemma Path_mkdir_Ok p w w1 :
  Path_mkdir p w = (Ok tt, w1) →
  blocked (files w) (lineage p) = None
  ∧ w1 = mkWorld (files w) (list_to_set (lineage p) ∪ dirs w) (stdout w)
           (calls w) (lookups w).
Proof.
  unfold Path_mkdir.
  destruct (blocked _ _) as [[q []]|]; [done..|]. by intros [= <-].
Qed.

Lemma makedirs_opt_Ok p w w1 :
  makedirs_opt p w = (Ok tt, w1) →
  ∃ q, p = Some q ∧ String.eqb q "" = false
       ∧ blocked (files w) (lineage q) = None
       ∧ w1 = mkWorld (files w) (list_to_set (lineage q) ∪ dirs w)
                (stdout w) (calls w) (lookups w).
Proof.
  destruct p as [q|]; [|done]. intros (? & ? & ->)%makedirs_Ok. by exists q.
Qed.

Lemma prepare_Ok self data w self1 w1 :
  prepare self data w = (Ok self1, w1) →
  let temp := Path_joinpath (project_root (config self)) "temp" in
  ∃ out logs,
    output_dir (config self) = Some out
    ∧ logs_dir (config self) = Some logs
    ∧ String.eqb out "" = false ∧ String.eqb logs "" = false
    ∧ blocked (files w) (lineage out) = None
    ∧ blocked (files w) (lineage logs) = None
    ∧ blocked (files w) (lineage temp) = None
    ∧ self1 = mkRunner (config self) (from_option Some (_data self) data)
    ∧ w1 = mkWorld
             (match data with
              | Some df => <[data_path (config self) := Parquet df]> (files w)
              | None => files w
              end)
             (list_to_set (lineage temp)
              ∪ (list_to_set (lineage logs)
                 ∪ (list_to_set (lineage out) ∪ dirs w)))
             (stdout w) (calls w) (lookups w).
Proof.
  intros Hprep temp. revert Hprep.
  unfold prepare. rewrite MonadFacts.bind_run.
  destruct (makedirs_opt (output_dir (config self)) w) as [[[]|e] wa] eqn:Ha;
    [|done].
  apply makedirs_opt_Ok in Ha as (out & Hout & Hne & Hfa & ->).
  rewrite MonadFacts.bind_run.
  destruct (makedirs_opt (logs_dir (config self)) _) as [[[]|e] wb] eqn:Hb;
    [|done].
  apply makedirs_opt_Ok in Hb as (logs & Hlogs & Hne' & Hfb & ->).
  rewrite MonadFacts.bind_run. fold temp.
  destruct (Path_mkdir _ _) as [[[]|e] wc] eqn:Hc; [|done].
  apply Path_mkdir_Ok in Hc as (Hfc & ->).
  cbn [files dirs stdout calls lookups] in *.
  intros Hrest. exists out, logs. split_and!; try done.
  - destruct data; [|by injection Hrest as <- _; destruct self].
    rewrite MonadFacts.bind_run in Hrest. by injection Hrest as <- _.
  - destruct data; [|by injection Hrest as _ <-].
    rewrite MonadFacts.bind_run in Hrest. by injection Hrest as _ <-.
Qed.

(** X15. When [prepare] succeeds, the output directory, the logs
    directory and [temp] under the project root exist afterwards, and so
    do the directories above them: these are the directories it has added
    to those that were there.  The data, if given, is at [data_path] and
    cached in the runner; no other file has changed, nothing was printed
    and no command was run.  Without data, preparing again in the world it
    left succeeds and changes nothing. *)
Theorem prepare_creates_the_directories_once
    (self self1 : BacktestRunner) (data : option DataFrame) (w w1 : World) :
  prepare self data w = (Ok self1, w1) →
  dirs w1 = prepared_dirs (config self) ∪ dirs w
  ∧ (∀ d, d ∈ wanted_dirs (config self) → d ∈ dirs w1)
  ∧ files w1
    = match data with
      | Some df => <[data_path (config self) := Parquet df]> (files w)
      | None => files w
      end
  ∧ config self1 = config self
  ∧ _data self1 = from_option Some (_data self) data
  ∧ stdout w1 = stdout w ∧ calls w1 = calls w ∧ lookups w1 = lookups w
  ∧ (data = None → prepare self None w1 = (Ok self, w1)).
Proof.
  intros Hprep. apply prepare_Ok in Hprep. cbv zeta in Hprep.
  destruct Hprep
    as (out & logs & Hout & Hlogs & Hne & Hne' & Hfo & Hfl & Hft & -> & ->).
  cbn [files dirs stdout calls lookups config _data].
  assert (list_to_set
            (lineage (Path_joinpath (project_root (config self)) "temp"))
          ∪ (list_to_set (lineage logs)
             ∪ (list_to_set (lineage out) ∪ dirs w))
          = prepared_dirs (config self) ∪ dirs w) as Hdirs.
  { unfold prepared_dirs. rewrite Hout, Hlogs. cbn [format_opt].
    apply set_eq. intros x. rewrite !elem_of_union. tauto. }
  split_and!; try done.
  - intros d Hd. rewrite Hdirs. apply elem_of_union. left.
    unfold wanted_dirs, prepared_dirs in *.
    rewrite !elem_of_union, !elem_of_list_to_set.
    repeat (apply elem_of_cons in Hd as [->|Hd];
            [auto using lineage_self|]).
    by apply elem_of_nil in Hd.
  - intros ->. unfold prepare. rewrite MonadFacts.bind_run, Hout, Hlogs.
    cbn [makedirs_opt]. unfold makedirs at 1. cbn [files].
    rewrite Hne, Hfo.
    rewrite MonadFacts.bind_run. unfold makedirs at 1. cbn [files].
    rewrite Hne', Hfl.
    rewrite MonadFacts.bind_run. unfold Path_mkdir at 1. cbn [files].
    rewrite Hft.
    cbn [dirs stdout calls lookups files]. unfold mret, M_ret. do 2 f_equal.
    apply set_eq. intros x. rewrite !elem_of_union. tauto.
Qed.

(** *** The paths through [submit] *)

Section with_env.
Context `{Env}.

(** What [submit] does once the directories are prepared, the data loaded
    and the years known: it prints the five lines, renders the script and
    hands it to [submit_job]. *)
Lemma submit_steps self data dry_run w self1 w1 df self2 w2 years first last :
  prepare self data w = (Ok self1, w1) →
  load_data self1 data w1 = (Ok (df, self2), w2) →
  get_years df = Ok years →
  index years 0 = Ok first →
  index years (-1) = Ok last →
  submit self data dry_run w
  = (submit_job (rendered (config self) years) dry_run
     ≫= λ result : option CompletedProcess,
          match result with
          | Some r =>
              print "Job submitted successfully!";;
              print ("sbatch output: " +:+ cp_stdout r);;
              if String.eqb (cp_stderr r) "" then mret tt
              else print ("sbatch stderr: " +:+ cp_stderr r)
          | None => mret tt
          end)
      (mkWorld (files w2) (dirs w2)
         (stdout w2 ++ info_lines (config self) years first last)
         (calls w2) (S (lookups w2))).
Proof.
  intros Hprep Hload Hyears Hfirst Hlast.
  assert (config self2 = config self) as Hconfig.
  { apply load_data_keeps_config in Hload.
    apply prepare_Ok in Hprep. cbv zeta in Hprep.
    destruct Hprep as (? & ? & _ & _ & _ & _ & _ & _ & _ & -> & _).
    by rewrite Hload. }
  unfold submit. rewrite MonadFacts.bind_run, Hprep.
  rewrite MonadFacts.bind_run, Hload.
  rewrite MonadFacts.bind_run. unfold lift. rewrite Hyears.
  rewrite MonadFacts.bind_run, Hfirst.
  rewrite MonadFacts.bind_run, Hlast.
  rewrite Hconfig.
  do 5 (rewrite MonadFacts.bind_run; unfold print at 1;
        cbn [files dirs stdout calls lookups]).
  rewrite MonadFacts.bind_run, ShellFacts.generate_sbatch_script_rendered.
  cbn [files dirs stdout calls lookups].
  unfold info_lines. by rewrite <- !app_assoc.
Qed.

End with_env.

End RunFacts.


(** ** [submit] and [main], from the prepared run to the end *)

Module SubmitFacts.
Import Config Slurm Runner Cli Vocabulary.

Section with_env.
Context `{Env}.

(** Loading a configuration changes nothing, whatever it returns. *)
Lemma from_yaml_world path w : snd (Config.from_yaml path w) = w.
Proof.
  unfold Config.from_yaml. rewrite MonadFacts.bind_run. unfold safe_load.
  destruct (files w !! path) as [[s|doc|df]|]; try done.
  destruct doc; try done.
  all: unfold lift; by destruct (BacktestConfig_kwargs _).
Qed.

(** [main] is [submit] on the loaded configuration with the overrides. *)
Lemma main_loaded path dry_run dp g w c :
  fst (Config.from_yaml path w) = Ok c →
  main path dry_run dp g w
  = submit (mkRunner (apply_overrides dp g c) None) None dry_run w.
Proof.
  intros Hload. pose proof (from_yaml_world path w) as Hw.
  unfold main, Runner.from_yaml. rewrite !MonadFacts.bind_run.
  destruct (Config.from_yaml path w) as [r w']. cbn [fst snd] in *.
  by subst.
Qed.

(** X16. When the run is ready (directories prepared, data loaded, years
    found), [submit] with [dry_run] returns normally, and what it has
    printed is the five lines of information followed by the banner and
    the script rendered for the runner's configuration and the years of
    the data; the files and directories are those of the loaded world. *)
Theorem submit_dry_run_prints_the_rendered_script
    (self : BacktestRunner) (data : option DataFrame) (w w2 : World)
    (years : list (option Z)) (first last : option Z) :
  ready self data w w2 years first last →
  submit self data true w
  = (Ok tt,
     mkWorld (files w2) (dirs w2)
       (stdout w2 ++ info_lines (config self) years first last
        ++ dry_run_lines (rendered (config self) years))
       (calls w2) (S (lookups w2))).
Proof.
  intros (self1 & w1 & df & self2 & Hprep & Hload & Hyears & Hfirst & Hlast).
  rewrite (RunFacts.submit_steps _ _ _ _ _ _ _ _ _ _ _ _
             Hprep Hload Hyears Hfirst Hlast).
  rewrite MonadFacts.bind_run, RunFacts.submit_job_dry_run_world.
  cbn [files dirs stdout calls lookups]. by rewrite <- app_assoc.
Qed.

(** X17. When the run is ready and [sbatch] exits with status 0, [submit]
    returns normally after one command, [sbatch] on the temporary script;
    it has printed the information, the success line, the output of
    [sbatch] and, when it is not empty, its error output; the temporary
    script is gone. *)
Theorem submit_reports_the_accepted_job
    (self : BacktestRunner) (data : option DataFrame) (w w2 : World)
    (years : list (option Z)) (first last : option Z) (out err : string)
    (fs : gmap string content) :
  let script_path := temp_name (files w2) (dirs w2) in
  let argv := ["sbatch"; script_path] in
  ready self data w w2 years first last →
  spawn argv
    (<[script_path := Text (rendered (config self) years)]> (files w2))
  = (Exited 0 out err, fs) →
  submit self data false w
  = (Ok tt,
     mkWorld (delete script_path fs) (dirs w2)
       (stdout w2 ++ info_lines (config self) years first last
        ++ success_lines out err)
       (calls w2 ++ [argv]) (S (lookups w2))).
Proof.
  intros script_path argv
    (self1 & w1 & df & self2 & Hprep & Hload & Hyears & Hfirst & Hlast)
    Hspawn.
  rewrite (RunFacts.submit_steps _ _ _ _ _ _ _ _ _ _ _ _
             Hprep Hload Hyears Hfirst Hlast).
  rewrite MonadFacts.bind_run, ScriptFacts.submit_job_run.
  cbn [files dirs stdout calls lookups].
  fold script_path. fold argv. rewrite Hspawn.
  change (0 =? 0)%Z with true. cbv iota.
  rewrite MonadFacts.bind_run. unfold print at 1.
  cbn [files dirs stdout calls lookups].
  rewrite MonadFacts.bind_run. unfold print at 1.
  cbn [files dirs stdout calls lookups cp_stdout cp_stderr].
  unfold success_lines.
  destruct (String.eqb err ""); unfold print;
    cbn [files dirs stdout calls lookups]; rewrite <- ?app_assoc;
    reflexivity.
Qed.

(** X18. When the run is ready and [sbatch] exits with another status,
    [submit] raises the [CalledProcessError] of that command, with its
    status and both outputs; it has printed the information and no line
    about a submitted job, and the temporary script is gone. *)
Theorem submit_raises_when_sbatch_rejects
    (self : BacktestRunner) (data : option DataFrame) (w w2 : World)
    (years : list (option Z)) (first last : option Z) (rc : Z) (out err : string)
    (fs : gmap string content) :
  let script_path := temp_name (files w2) (dirs w2) in
  let argv := ["sbatch"; script_path] in
  ready self data w w2 years first last →
  spawn argv
    (<[script_path := Text (rendered (config self) years)]> (files w2))
  = (Exited rc out err, fs) →
  rc ≠ 0%Z →
  submit self data false w
  = (Err (CalledProcessError rc argv out err),
     mkWorld (delete script_path fs) (dirs w2)
       (stdout w2 ++ info_lines (config self) years first last)
       (calls w2 ++ [argv]) (S (lookups w2))).
Proof.
  intros script_path argv
    (self1 & w1 & df & self2 & Hprep & Hload & Hyears & Hfirst & Hlast)
    Hspawn Hrc.
  rewrite (RunFacts.submit_steps _ _ _ _ _ _ _ _ _ _ _ _
             Hprep Hload Hyears Hfirst Hlast).
  rewrite MonadFacts.bind_run, ScriptFacts.submit_job_run.
  cbn [files dirs stdout calls lookups].
  fold script_path. fold argv. rewrite Hspawn.
  by apply Z.eqb_neq in Hrc as ->.
Qed.



(** X20. The overrides of the command line reach the script: when the
    configuration loads and the run is ready for the overridden
    configuration, [main --dry-run] prints the information and the script
    of the configuration with [--data-path] and [--gamma] applied, and
    returns normally. *)
Theorem main_dry_run_renders_the_overridden_configuration
    (config_path : string) (data_path : option string)
    (gamma : option float) (c : BacktestConfig) (w w2 : World)
    (years : list (option Z)) (first last : option Z) :
  let c' := apply_overrides data_path gamma c in
  fst (Config.from_yaml config_path w) = Ok c →
  ready (mkRunner c' None) None w w2 years first last →
  main config_path true data_path gamma w
  = (Ok tt,
     mkWorld (files w2) (dirs w2)
       (stdout w2 ++ info_lines c' years first last
        ++ dry_run_lines (rendered c' years))
       (calls w2) (S (lookups w2))).
Proof.
  intros c' Hload
    (self1 & w1 & df & self2 & Hprep & Hload2 & Hyears & Hfirst & Hlast).
  rewrite (main_loaded _ _ _ _ _ _ Hload). fold c'.
  rewrite (RunFacts.submit_steps _ _ _ _ _ _ _ _ _ _ _ _
             Hprep Hload2 Hyears Hfirst Hlast).
  rewrite MonadFacts.bind_run, RunFacts.submit_job_dry_run_world.
  cbn [files dirs stdout calls lookups config]. by rewrite <- app_assoc.
Qed.

End with_env.

End SubmitFacts.


(** ** The rows of one year *)

Module YearFacts.
Import Runner Worker WorkerTask Vocabulary.

Lemma days_in_month_le y m : (days_in_month y m ≤ 31)%Z.
Proof. unfold days_in_month. repeat case_match; lia. Qed.

Lemma dt_date_first_day y :
  (1 ≤ y ≤ 9999)%Z → dt_date y 1 1 = Some (Date y 1 1).
Proof.
  intros Hy. unfold dt_date.
  destruct (Z.leb_spec 1 y); [|lia]. destruct (Z.leb_spec y 9999); [|lia].
  done.
Qed.

Lemma dt_date_last_day y :
  (1 ≤ y ≤ 9999)%Z → dt_date y 12 31 = Some (Date y 12 31).
Proof.
  intros Hy. unfold dt_date.
  destruct (Z.leb_spec 1 y); [|lia]. destruct (Z.leb_spec y 9999); [|lia].
  done.
Qed.

(** Between the first and the last day of [y] lie the dates of [y]. *)
Lemma is_between_year y d :
  calendar_date d = true →
  is_between (Date y 1 1) (Date y 12 31) d = (year d =? y)%Z.
Proof.
  unfold calendar_date. rewrite !andb_true_iff, !Z.leb_le.
  intros [[[Hm1 Hm12] Hd1] Hd31].
  pose proof (days_in_month_le (year d) (month d)) as Hdays.
  apply Bool.eq_iff_eq_true. unfold is_between, date_le. cbn [year month day].
  rewrite !andb_true_iff, !orb_true_iff, !andb_true_iff, !orb_true_iff,
    !andb_true_iff, !Z.ltb_lt, !Z.leb_le, !Z.eqb_eq.
  lia.
Qed.

Lemma rows_of_year_in_range {R} (date_of : R → date) rows y :
  (1 ≤ y ≤ 9999)%Z →
  rows_of_year date_of rows y
  = Some (List.filter
            (λ r, is_between (Date y 1 1) (Date y 12 31) (date_of r)) rows).
Proof.
  intros Hy. unfold rows_of_year.
  by rewrite (dt_date_first_day _ Hy), (dt_date_last_day _ Hy).
Qed.

Lemma rows_of_year_by_year {R} (date_of : R → date) (rows : list R) y :
  (1 ≤ y ≤ 9999)%Z →
  Forall (λ r, calendar_date (date_of r) = true) rows →
  rows_of_year date_of rows y
  = Some (List.filter (λ r, (year (date_of r) =? y)%Z) rows).
Proof.
  intros Hy Hcal. rewrite (rows_of_year_in_range _ _ _ Hy). f_equal.
  apply filter_ext_in. intros r Hr. apply is_between_year.
  by apply (proj1 (Forall_forall _ _) Hcal), list_elem_of_In.
Qed.

(** X21. For a year from 1 to 9999 and rows whose dates are dates of the
    calendar, the filter of the worker keeps exactly the rows whose date is
    in that year, in their order: no row of the year is dropped, no row of
    another year is kept. *)
Theorem rows_of_year_keeps_the_rows_of_the_year
    {R} (date_of : R → date) (rows : list R) (y : Z) :
  (1 ≤ y ≤ 9999)%Z →
  Forall (λ r, calendar_date (date_of r) = true) rows →
  rows_of_year date_of rows y
  = Some (List.filter (λ r, (year (date_of r) =? y)%Z) rows).
Proof.
  apply rows_of_year_by_year.
Qed.

Lemma concat_fmap_nil {A B} (ys : list A) :
  concat ((λ _, @nil B) <$> ys) = [].
Proof. induction ys as [|y ys IH]; [done|]. by rewrite fmap_cons. Qed.

Lemma concat_insert_one (d : date) (f : Z → list date) (ys : list Z) :
  NoDup ys → year d ∈ ys →
  concat ((λ y, if (year d =? y)%Z then d :: f y else f y) <$> ys)
  ≡ₚ d :: concat (f <$> ys).
Proof.
  induction ys as [|y0 ys IH]; intros Hnodup Hin.
  - by apply elem_of_nil in Hin.
  - apply NoDup_cons in Hnodup as [Hy0 Hnodup]. rewrite !fmap_cons.
    cbn [concat]. destruct (Z.eqb_spec (year d) y0) as [<-|Hne].
    + assert ((λ y, if (year d =? y)%Z then d :: f y else f y) <$> ys
              = f <$> ys) as ->; [|done].
      apply list_fmap_ext. intros i y Hy.
      destruct (Z.eqb_spec (year d) y) as [Heq|]; [|done].
      exfalso. apply Hy0. rewrite Heq. by eapply list_elem_of_lookup_2.
    + apply elem_of_cons in Hin as [?|Hin]; [done|].
      rewrite (IH Hnodup Hin). by rewrite Permutation_middle.
Qed.

Lemma concat_by_year (ds : list date) (ys : list Z) :
  NoDup ys → (∀ d, d ∈ ds → year d ∈ ys) →
  concat ((λ y, List.filter (λ d, (year d =? y)%Z) ds) <$> ys) ≡ₚ ds.
Proof.
  intros Hnodup. induction ds as [|d ds IH]; intros Hall.
  - cbn [List.filter]. by rewrite concat_fmap_nil.
  - trans (d :: concat ((λ y, List.filter (λ d, (year d =? y)%Z) ds) <$> ys)).
    + rewrite <- (concat_insert_one d _ ys Hnodup
                    (Hall d (list_elem_of_here _ _))).
      assert (∀ (a b : list (list date)), a = b → concat a ≡ₚ concat b) as Heq
        by (by intros a b ->).
      apply Heq, list_fmap_ext. intros i y _. cbn [List.filter].
      by rewrite Z.eqb_sym.
    + constructor. apply IH. intros d' Hd'. apply Hall. by right.
Qed.

(** X23. The array of tasks covers the data exactly once: when the
    column holds no null and its dates are dates of the calendar in the
    years 1 to 9999, [get_years] returns years only, the worker's filter
    gives a result for every one of them, and these results, taken
    together, are the rows of the column, each row once. *)
Theorem years_partition_the_rows
    (data : DataFrame) (ds : list date) (years : list (option Z)) :
  column "date" data = Some (DateSeries (Some <$> ds)) →
  Forall (λ d, calendar_date d = true ∧ (1 ≤ year d ≤ 9999)%Z) ds →
  get_years data = Ok years →
  ∃ ys parts,
    years = Some <$> ys
    ∧ Forall2 (λ y part, rows_of_year id ds y = Some part) ys parts
    ∧ concat parts ≡ₚ ds.
Proof.
  intros Hcol Hvalid.
  rewrite (RunnerFacts.get_years_of_dates _ _ Hcol).
  rewrite RunnerFacts.dt_year_Some, RunnerFacts.sorted_years_Some.
  intros [= <-].
  set (ys := merge_sort Z.le (remove_dups (year <$> ds))).
  assert (∀ y, y ∈ ys ↔ y ∈ year <$> ds) as Hin.
  { intros y. unfold ys. by rewrite merge_sort_Permutation, elem_of_remove_dups. }
  exists ys, ((λ y, List.filter (λ d, (year d =? y)%Z) ds) <$> ys).
  split; [done|]. split.
  - apply Forall2_fmap_r, Forall_Forall2_diag, Forall_forall. intros y Hy.
    apply Hin, list_elem_of_fmap in Hy as (d & -> & Hd).
    apply (proj1 (Forall_forall _ _) Hvalid) in Hd as [_ Hrange].
    apply (rows_of_year_by_year id); [done|].
    eapply Forall_impl; [exact Hvalid|]. by intros ? [? _].
  - apply concat_by_year.
    + unfold ys. rewrite merge_sort_Permutation. apply NoDup_remove_dups.
    + intros d Hd. apply Hin, list_elem_of_fmap. by exists d.
Qed.

Lemma append_length (a b : string) :
  String.length (a +:+ b) = (String.length a + String.length b)%nat.
Proof. induction a as [|c a IH]; [done|]. simpl. by rewrite IH. Qed.

Lemma append_inj_r (x y s : string) : x +:+ s = y +:+ s → x = y.
Proof.
  revert y. induction x as [|c x IH]; intros [|c' y] Heq; [done| | |].
  - apply (f_equal String.length) in Heq.
    rewrite !append_length in Heq. simpl in Heq. lia.
  - apply (f_equal String.length) in Heq.
    rewrite !append_length in Heq. simpl in Heq. lia.
  - change (String c (x +:+ s) = String c' (y +:+ s)) in Heq.
    injection Heq as -> Heq. by rewrite (IH _ Heq).
Qed.

(** X24. The tasks of one run write to different files: for one output
    directory, the output paths of two different years are different, so
    no task overwrites the weights of another. *)
Theorem output_paths_of_different_years_differ
    (output_dir : string) (y y' : Z) :
  y ≠ y' → output_path output_dir y ≠ output_path output_dir y'.
Proof.
  unfold output_path. intros Hne Heq. apply Hne.
  apply String.app_inj, String.app_inj, append_inj_r in Heq.
  by apply (inj pretty) in Heq.
Qed.

End YearFacts.


(** ** The further properties at sample inputs *)

Module MoreSamples.
Import Config Slurm Runner Cli Bash Worker WorkerTask Vocabulary Stub Fixtures.

Lemma from_yaml_returns_the_values_of_the_document_alpha :
  Config.from_yaml (H := stub_env) "config.yml" config_world
  = (Ok alpha, config_world)
  ∧ config_world = config_world
  ∧ ∃ d,
      files config_world !! "config.yml" = Some (YamlDoc (YMap d))
      ∧ (∀ k, k ∈ keys d → k ∈ BacktestConfig_fields)
      ∧ (∀ f, f ∈ required_fields → is_Some (dict_get f d))
      ∧ dict_get "signal_name" d = Some (YStr (signal_name alpha))
      ∧ dict_get "data_path" d = Some (YStr (data_path alpha))
      ∧ dict_get "gamma" d = Some (YFloat (gamma alpha))
      ∧ dict_get "project_root" d = Some (YStr (project_root alpha))
      ∧ dict_get "byu_email" d = Some (YStr (byu_email alpha))
      ∧ dict_get "constraints" d = Some (YSeq (YStr <$> constraints alpha)).
Proof.
  split; [reflexivity|].
  apply (LoadingFacts.from_yaml_returns_the_values_of_the_document
           (H := stub_env) "config.yml" config_world config_world alpha).
  reflexivity.
Defined.

Lemma from_yaml_keeps_or_derives_the_paths_alpha :
  Config.from_yaml (H := stub_env) "config.yml" config_world
  = (Ok alpha, config_world)
  ∧ files config_world !! "config.yml" = Some (YamlDoc (YMap alpha_document))
  ∧ output_dir alpha = Some "/home/user/project/weights/alpha/0.5"
  ∧ logs_dir alpha = Some "logs/alpha/0.5".
Proof.
  split; [reflexivity|]. split; [reflexivity|].
  apply (LoadingFacts.from_yaml_keeps_or_derives_the_paths
           (H := stub_env) "config.yml" config_world config_world alpha
           alpha_document); reflexivity.
Defined.

Lemma from_yaml_fills_slurm_defaults_alpha :
  let sd := [("n_cpus", YInt 4); ("max_concurrent_jobs", YInt 1)] in
  (Config.from_yaml (H := stub_env) "config.yml" config_world
   = (Ok alpha, config_world)
   ∧ files config_world !! "config.yml" = Some (YamlDoc (YMap alpha_document))
   ∧ dict_get "slurm" alpha_document = Some (YMap sd))
  ∧ (∀ k, k ∈ keys sd → k ∈ SlurmConfig_fields)
  ∧ YInt (n_cpus (slurm alpha)) = default (YInt 8) (dict_get "n_cpus" sd)
  ∧ YStr (mem (slurm alpha)) = default (YStr "32G") (dict_get "mem" sd)
  ∧ YStr (time (slurm alpha))
    = default (YStr "06:00:00") (dict_get "time" sd)
  ∧ YStr (mail_type (slurm alpha))
    = default (YStr "BEGIN,END,FAIL") (dict_get "mail_type" sd)
  ∧ YInt (max_concurrent_jobs (slurm alpha))
    = default (YInt 31) (dict_get "max_concurrent_jobs" sd).
Proof.
  split; [by split_and!|].
  apply (LoadingFacts.from_yaml_fills_slurm_defaults
           (H := stub_env) "config.yml" config_world config_world alpha
           alpha_document); reflexivity.
Defined.


Lemma every_task_runs_its_year_or_exits_alpha :
  let years := [2020; 2021]%Z in
  (guard_safe (H := stub_env) alpha = true
   ∧ plain_word (project_root alpha +:+ "/.venv/bin/activate") = true
   ∧ plain_word (worker_script (Env := stub_env)) = true
   ∧ plain_words (join " " (constraints alpha)) = true)
  ∧ run_script (rendered (H := stub_env) alpha years) (Z.of_nat 1)
    = Worker (worker_command (H := stub_env) alpha "2021"
                ["ZeroBeta"; "ZeroInvestment"])
  ∧ run_script (rendered (H := stub_env) alpha years) (Z.of_nat 5)
    = ExitStatus 1.
Proof.
  intros years. split; [by split_and!|]. split.
  - apply (ScriptFacts.every_task_runs_its_year_or_exits
             (H := stub_env) alpha years 1); reflexivity.
  - apply (ScriptFacts.every_task_runs_its_year_or_exits
             (H := stub_env) alpha years 5); reflexivity.
Defined.

Lemma registry_constraints_pass_through_the_script_alpha :
  let years := [2020; 2021]%Z in
  (guard_safe (H := stub_env) alpha = true
   ∧ plain_word (project_root alpha +:+ "/.venv/bin/activate") = true
   ∧ plain_word (worker_script (Env := stub_env)) = true
   ∧ Forall (λ n, n ∈ registry_names) (constraints alpha)
   ∧ years !! 1%nat = Some 2021%Z)
  ∧ ∃ objs,
      run_script (rendered (H := stub_env) alpha years) (Z.of_nat 1)
      = Worker (worker_command (H := stub_env) alpha (str_int 2021)
                  (constraints alpha))
      ∧ get_constraints (constraints alpha) = Ok objs
      ∧ Forall2 (λ n o, registry_get n CONSTRAINT_REGISTRY = Some o)
          (constraints alpha) objs.
Proof.
  intros years.
  assert (Forall (λ n, n ∈ registry_names) (constraints alpha)) as Hknown
    by (by apply (bool_decide_unpack _)).
  split; [by split_and!|].
  exact (ScriptFacts.registry_constraints_pass_through_the_script
           (H := stub_env) alpha years 1 2021 eq_refl eq_refl eq_refl
           Hknown eq_refl).
Defined.

Lemma get_years_depends_on_the_years_present_five_dates :
  let ds := Some <$> [Date 2019 1 2; Date 2021 6 30; Date 2019 12 31;
                      Date 2020 2 29] in
  let ds' := Some <$> [Date 2020 2 29; Date 2019 12 31; Date 2021 6 30;
                       Date 2019 1 2; Date 2020 2 29] in
  (column "date" four_dates = Some (DateSeries ds)
   ∧ column "date" five_dates = Some (DateSeries ds')
   ∧ (∀ y, y ∈ dt_year <$> ds ↔ y ∈ dt_year <$> ds'))
  ∧ get_years four_dates = get_years five_dates.
Proof.
  intros ds ds'.
  assert (∀ y, y ∈ dt_year <$> ds ↔ y ∈ dt_year <$> ds') as Hsame.
  { intros y. subst ds ds'. simpl.
    rewrite !elem_of_cons, !elem_of_nil. tauto. }
  split; [by split_and!|].
  exact (PartitionFacts.get_years_depends_on_the_years_present
           four_dates five_dates ds ds' eq_refl eq_refl Hsame).
Defined.

Lemma get_years_empty_only_without_rows_four_dates :
  let ds := Some <$> [Date 2019 1 2; Date 2021 6 30; Date 2019 12 31;
                      Date 2020 2 29] in
  let years := [Some 2019; Some 2020; Some 2021]%Z in
  (column "date" four_dates = Some (DateSeries ds)
   ∧ get_years four_dates = Ok years)
  ∧ (years = [] ↔ ds = [])
  ∧ (length years ≤ length ds)%nat.
Proof.
  intros ds years. split; [by split|].
  exact (PartitionFacts.get_years_empty_only_without_rows
           four_dates ds years eq_refl eq_refl).
Defined.

Lemma first_and_last_year_span_the_data_null_date :
  let ds := [Some (Date 2020 2 29); None; Some (Date 2019 1 2)] in
  let years := [None; Some 2019; Some 2020]%Z in
  (column "date" null_date = Some (DateSeries ds)
   ∧ get_years null_date = Ok years
   ∧ index years 0 = Ok None
   ∧ index years (-1) = Ok (Some 2020%Z))
  ∧ None ∈ dt_year <$> ds
  ∧ Some 2020%Z ∈ dt_year <$> ds
  ∧ (∀ d, d ∈ ds →
       year_le None (dt_year d) ∧ year_le (dt_year d) (Some 2020%Z))
  ∧ (None ∈ ds → @None Z = None)
  ∧ (∀ dates, ds = Some <$> dates →
       ∃ first last,
         None = Some first ∧ Some 2020%Z = Some last
         ∧ ∀ d, d ∈ dates → (first ≤ year d ≤ last)%Z).
Proof.
  intros ds years. split; [by split_and!|].
  exact (PartitionFacts.first_and_last_year_span_the_data
           null_date ds years None (Some 2020%Z)
           eq_refl eq_refl eq_refl eq_refl).
Defined.

Lemma load_data_answers_from_its_cache_alpha :
  let self' := mkRunner alpha (Some four_dates) in
  load_data (mkRunner alpha None) None config_world
  = (Ok (four_dates, self'), config_world)
  ∧ config_world = config_world
  ∧ _data self' = Some four_dates
  ∧ config self' = alpha
  ∧ (∀ w2, load_data self' None w2 = (Ok (four_dates, self'), w2))
  ∧ (∀ df2 w2,
       load_data self' (Some df2) w2
       = (Ok (df2, mkRunner (config self') (Some df2)), w2)).
Proof.
  intros self'. split; [reflexivity|].
  apply (RunFacts.load_data_answers_from_its_cache
           (mkRunner alpha None) self' None four_dates config_world
           config_world).
  reflexivity.
Defined.

Lemma prepare_creates_the_directories_once_alpha :
  let self := mkRunner alpha None in
  prepare self None config_world = (Ok self, alpha_ready)
  ∧ dirs alpha_ready = prepared_dirs alpha ∪ dirs config_world
  ∧ (∀ d, d ∈ wanted_dirs alpha → d ∈ dirs alpha_ready)
  ∧ files alpha_ready = files config_world
  ∧ config self = alpha
  ∧ _data self = None
  ∧ stdout alpha_ready = stdout config_world
  ∧ calls alpha_ready = calls config_world
  ∧ lookups alpha_ready = lookups config_world
  ∧ (@None DataFrame = None →
     prepare self None alpha_ready = (Ok self, alpha_ready)).
Proof.
  intros self. split; [reflexivity|].
  apply (RunFacts.prepare_creates_the_directories_once
           self self None config_world alpha_ready).
  reflexivity.
Defined.

Lemma ready_alpha :
  ready (mkRunner alpha None) None config_world alpha_ready
    [Some 2019; Some 2020; Some 2021]%Z (Some 2019%Z) (Some 2021%Z).
Proof.
  exists (mkRunner alpha None), alpha_ready, four_dates,
    (mkRunner alpha (Some four_dates)).
  by split_and!.
Defined.

Lemma ready_alpha_one :
  ready (mkRunner alpha_one None) None config_world alpha_one_ready
    [Some 2019; Some 2020; Some 2021]%Z (Some 2019%Z) (Some 2021%Z).
Proof.
  exists (mkRunner alpha_one None), alpha_one_ready, four_dates,
    (mkRunner alpha_one (Some four_dates)).
  by split_and!.
Defined.

Lemma submit_dry_run_prints_the_rendered_script_alpha :
  let years := [Some 2019; Some 2020; Some 2021]%Z in
  ready (mkRunner alpha None) None config_world alpha_ready years
    (Some 2019%Z) (Some 2021%Z)
  ∧ submit (H := stub_env) (mkRunner alpha None) None true config_world
    = (Ok tt,
       mkWorld (files alpha_ready) (dirs alpha_ready)
         (["Preparing backtest for 3 years: 2019-2021";
           "Signal: alpha";
           "Gamma: 0.5";
           "Constraints: ['ZeroBeta', 'ZeroInvestment']";
           "Output directory: /home/user/project/weights/alpha/0.5"]
          ++ dry_run_lines (rendered (H := stub_env) alpha years))
         [] 1).
Proof.
  intros years. split; [exact ready_alpha|].
  exact (SubmitFacts.submit_dry_run_prints_the_rendered_script
           (H := stub_env) (mkRunner alpha None) None config_world
           alpha_ready years (Some 2019%Z) (Some 2021%Z) ready_alpha).
Defined.

Lemma submit_reports_the_accepted_job_alpha :
  let years := [Some 2019; Some 2020; Some 2021]%Z in
  let script_path := stub_temp_name (files alpha_ready) (dirs alpha_ready) in
  let given :=
    <[script_path := Text (rendered (H := stub_env) alpha years)]>
      (files alpha_ready) in
  (ready (mkRunner alpha None) None config_world alpha_ready years
     (Some 2019%Z) (Some 2021%Z)
   ∧ spawn (Env := stub_env) ["sbatch"; script_path] given
     = (Exited 0 "Submitted batch job 1" "", given))
  ∧ submit (H := stub_env) (mkRunner alpha None) None false config_world
    = (Ok tt,
       mkWorld (delete script_path given) (dirs alpha_ready)
         (["Preparing backtest for 3 years: 2019-2021";
           "Signal: alpha";
           "Gamma: 0.5";
           "Constraints: ['ZeroBeta', 'ZeroInvestment']";
           "Output directory: /home/user/project/weights/alpha/0.5";
           "Job submitted successfully!";
           "sbatch output: Submitted batch job 1"])
         [["sbatch"; script_path]] 1).
Proof.
  intros years script_path given. split; [split; [exact ready_alpha|done]|].
  exact (SubmitFacts.submit_reports_the_accepted_job
           (H := stub_env) (mkRunner alpha None) None config_world
           alpha_ready years (Some 2019%Z) (Some 2021%Z)
           "Submitted batch job 1" "" given ready_alpha eq_refl).
Defined.

Lemma submit_raises_when_sbatch_rejects_alpha :
  let years := [Some 2019; Some 2020; Some 2021]%Z in
  let script_path := stub_temp_name (files alpha_ready) (dirs alpha_ready) in
  let given :=
    <[script_path := Text (rendered (H := rejecting_env) alpha years)]>
      (files alpha_ready) in
  let err := "sbatch: error: invalid partition specified" in
  (ready (mkRunner alpha None) None config_world alpha_ready years
     (Some 2019%Z) (Some 2021%Z)
   ∧ spawn (Env := rejecting_env) ["sbatch"; script_path] given
     = (Exited 1 "" err, given)
   ∧ 1%Z ≠ 0%Z)
  ∧ submit (H := rejecting_env) (mkRunner alpha None) None false config_world
    = (Err (CalledProcessError 1 ["sbatch"; script_path] "" err),
       mkWorld (delete script_path given) (dirs alpha_ready)
         ["Preparing backtest for 3 years: 2019-2021";
          "Signal: alpha";
          "Gamma: 0.5";
          "Constraints: ['ZeroBeta', 'ZeroInvestment']";
          "Output directory: /home/user/project/weights/alpha/0.5"]
         [["sbatch"; script_path]] 1).
Proof.
  intros years script_path given err.
  assert (1%Z ≠ 0%Z) as Hrc by lia.
  split; [split; [exact ready_alpha|by split]|].
  exact (SubmitFacts.submit_raises_when_sbatch_rejects
           (H := rejecting_env) (mkRunner alpha None) None config_world
           alpha_ready years (Some 2019%Z) (Some 2021%Z) 1 "" err given
           ready_alpha eq_refl Hrc).
Defined.

Lemma rows_of_year_keeps_the_rows_of_the_year_2019 :
  let rows := [Date 2019 1 2; Date 2021 6 30; Date 2019 12 31;
               Date 2020 2 29] in
  ((1 ≤ 2019 ≤ 9999)%Z
   ∧ Forall (λ r, calendar_date (id r) = true) rows)
  ∧ rows_of_year id rows 2019 = Some [Date 2019 1 2; Date 2019 12 31].
Proof.
  intros rows.
  assert (1 ≤ 2019 ≤ 9999)%Z as Hy by lia.
  assert (Forall (λ r, calendar_date (id r) = true) rows) as Hrows
    by (by repeat constructor).
  split; [by split|].
  exact (YearFacts.rows_of_year_keeps_the_rows_of_the_year id rows 2019
           Hy Hrows).
Defined.

Lemma years_partition_the_rows_four_dates :
  let ds := [Date 2019 1 2; Date 2021 6 30; Date 2019 12 31;
             Date 2020 2 29] in
  let years := [Some 2019; Some 2020; Some 2021]%Z in
  (column "date" four_dates = Some (DateSeries (Some <$> ds))
   ∧ Forall (λ d, calendar_date d = true ∧ (1 ≤ year d ≤ 9999)%Z) ds
   ∧ get_years four_dates = Ok years)
  ∧ ∃ ys parts,
      years = Some <$> ys
      ∧ Forall2 (λ y part, rows_of_year id ds y = Some part) ys parts
      ∧ concat parts ≡ₚ ds.
Proof.
  intros ds years.
  assert (Forall (λ d, calendar_date d = true ∧ (1 ≤ year d ≤ 9999)%Z) ds)
    as Hds.
  { repeat (constructor; [split; [reflexivity|simpl; lia]|]). constructor. }
  split; [by split_and!|].
  exact (YearFacts.years_partition_the_rows four_dates ds years
           eq_refl Hds eq_refl).
Defined.

Lemma output_paths_of_different_years_differ_2020_2021 :
  2020%Z ≠ 2021%Z
  ∧ output_path "weights" 2020 ≠ output_path "weights" 2021.
Proof.
  assert (2020%Z ≠ 2021%Z) as Hne by lia.
  split; [exact Hne|].
  exact (YearFacts.output_paths_of_different_years_differ "weights" 2020 2021
           Hne).
Defined.


Lemma main_dry_run_renders_the_overridden_configuration_one :
  let years := [Some 2019; Some 2020; Some 2021]%Z in
  (fst (Config.from_yaml (H := stub_env) "config.yml" config_world) = Ok alpha
   ∧ ready (mkRunner (apply_overrides (H := stub_env) None (Some one) alpha)
              None)
       None config_world alpha_one_ready years (Some 2019%Z) (Some 2021%Z))
  ∧ apply_overrides (H := stub_env) None (Some one) alpha = alpha_one
  ∧ main (H := stub_env) "config.yml" true None (Some one) config_world
    = (Ok tt,
       mkWorld (files alpha_one_ready) (dirs alpha_one_ready)
         (["Preparing backtest for 3 years: 2019-2021";
           "Signal: alpha";
           "Gamma: 1.0";
           "Constraints: ['ZeroBeta', 'ZeroInvestment']";
           "Output directory: /home/user/project/weights/alpha/1.0"]
          ++ dry_run_lines (rendered (H := stub_env) alpha_one years))
         [] 1).
Proof.
  intros years. split; [split; [reflexivity|exact ready_alpha_one]|].
  split; [reflexivity|].
  exact (SubmitFacts.main_dry_run_renders_the_overridden_configuration
           (H := stub_env) "config.yml" None (Some one) alpha
           config_world alpha_one_ready years (Some 2019%Z) (Some 2021%Z)
           eq_refl ready_alpha_one).
Defined.

End MoreSamples.
